(** * JoyGuard: memory store, varied sampler, fact extraction and auto-debate

    A shallow embedding of [joyguard_app/database.py] (the memory tables),
    [joyguard_app/memory.py] (sampler, fact extraction, fallback notes) and
    [joyguard_app/debate.py] (the auto-debate decision), with the properties
    the specification states about them.

    Conventions.
    - A Python [str] is a list of Unicode code points ([pystr]); [len], slices
      and [strip] count code points, as Python does.
    - A Python [float] is an IEEE-754 binary64 number ([spec_float] at
      precision 53 and maximal exponent 1024).
    - A Python [int] is a [Z].
    - Values decoded from JSON are [pyval]s; a [dict] is an association list
      read by its first match.
    - A function that can raise returns an [outcome]; an [async] function that
      awaits the language model returns a [Task], whose [CallOpenRouter] node
      is the suspension point.
    - The module [settings.py] is not part of the sources: its constants are
      the fields of the class [Settings], its two mutable dictionaries are
      explicit state. *)

From Stdlib Require Import ZArith NArith List Bool Ascii String Lia.
From Stdlib Require Import SpecFloat.
From stdpp Require Import base option gmap.
Import ListNotations.
Set Warnings "-register-all".
Local Open Scope Z_scope.

(* ===================================================================== *)
(** * Python values *)
(* ===================================================================== *)

Module Py.

(** ** Strings *)

Definition codepoint := N.
Definition pystr := list codepoint.

(** Decoding of a UTF-8 literal of this file into code points. *)
Definition utf8_cont (b : N) : N := N.land b 63.

Fixpoint utf8_decode_bytes (fuel : nat) (bs : list N) : pystr :=
  match fuel with
  | O => []
  | S fuel =>
    match bs with
    | [] => []
    | b :: rest =>
      if (b <? 128)%N then b :: utf8_decode_bytes fuel rest
      else if (b <? 224)%N then
        match rest with
        | b1 :: rest' =>
          (N.land b 31 * 64 + utf8_cont b1)%N :: utf8_decode_bytes fuel rest'
        | _ => []
        end
      else if (b <? 240)%N then
        match rest with
        | b1 :: b2 :: rest' =>
          (N.land b 15 * 4096 + utf8_cont b1 * 64 + utf8_cont b2)%N
            :: utf8_decode_bytes fuel rest'
        | _ => []
        end
      else
        match rest with
        | b1 :: b2 :: b3 :: rest' =>
          (N.land b 7 * 262144 + utf8_cont b1 * 4096 + utf8_cont b2 * 64
           + utf8_cont b3)%N :: utf8_decode_bytes fuel rest'
        | _ => []
        end
    end
  end.

Definition str (s : string) : pystr :=
  let bs := List.map N_of_ascii (list_ascii_of_string s) in
  utf8_decode_bytes (List.length bs) bs.

(** [str.isspace] on one code point, the set [str.strip()] removes. *)
Definition isspace (c : codepoint) : bool :=
  ((9 <=? c) && (c <=? 13) || (28 <=? c) && (c <=? 32)
   || (c =? 133) || (c =? 160) || (c =? 5760)
   || (8192 <=? c) && (c <=? 8202)
   || (c =? 8232) || (c =? 8233) || (c =? 8239) || (c =? 8287)
   || (c =? 12288))%N.

Fixpoint lstrip (s : pystr) : pystr :=
  match s with
  | c :: s' => if isspace c then lstrip s' else s
  | [] => []
  end.

Definition rstrip (s : pystr) : pystr := rev (lstrip (rev s)).

Definition strip (s : pystr) : pystr := rstrip (lstrip s).

Definition len {A} (l : list A) : Z := Z.of_nat (List.length l).

(** [l[:k]]: a negative bound counts from the end. *)
Definition slice_to {A} (k : Z) (l : list A) : list A :=
  if 0 <=? k then firstn (Z.to_nat k) l
  else firstn (Z.to_nat (len l + k)) l.

(** [l[k:]]: a negative bound counts from the end. *)
Definition slice_from {A} (k : Z) (l : list A) : list A :=
  if 0 <=? k then skipn (Z.to_nat k) l
  else skipn (Z.to_nat (len l + k)) l.

Fixpoint startswith (p s : pystr) : bool :=
  match p, s with
  | [], _ => true
  | a :: p', b :: s' => (a =? b)%N && startswith p' s'
  | _ :: _, [] => false
  end.

(** [p in s] for strings. *)
Fixpoint contains (p s : pystr) : bool :=
  startswith p s ||
  match s with
  | [] => false
  | _ :: s' => contains p s'
  end.

Definition str_eqb (a b : pystr) : bool :=
  bool_decide (a = b).

(** Truthiness of a string and of an optional string ([None] or [str]). *)
Definition str_truthy (s : pystr) : bool :=
  match s with [] => false | _ => true end.

Definition opt_truthy (o : option pystr) : bool :=
  match o with Some s => str_truthy s | None => false end.

(** [a or b] on optional strings. *)
Definition opt_or (a b : option pystr) : option pystr :=
  if opt_truthy a then a else b.

(** [a or ""], with the result known to be a string. *)
Definition or_empty (a : option pystr) : pystr :=
  match a with Some s => s | None => [] end.

(** [str(n)] for an integer. *)
Fixpoint digits_of_pos (fuel : nat) (p : Z) (acc : pystr) : pystr :=
  match fuel with
  | O => acc
  | S fuel =>
    let acc' := (48 + Z.to_N (p mod 10))%N :: acc in
    if p / 10 =? 0 then acc' else digits_of_pos fuel (p / 10) acc'
  end.

Definition str_of_int (z : Z) : pystr :=
  if z <? 0 then 45%N :: digits_of_pos (S (Z.to_nat (Z.log2 (- z)))) (- z) []
  else digits_of_pos (S (Z.to_nat (Z.log2 z))) z [].

(** ** Floats *)

Definition float := spec_float.
Definition prec : Z := 53.
Definition emax : Z := 1024.

Definition fzero : float := S754_zero false.
Definition fone : float := Eval vm_compute in SFone prec emax.
Definition fsub (a b : float) : float := SFsub prec emax a b.
Definition flt (a b : float) : bool := SFltb a b.
Definition fle (a b : float) : bool := SFleb a b.

Definition float_truthy (f : float) : bool :=
  match f with S754_zero _ => false | _ => true end.

(** The binary64 number nearest to [n / d] (ties to even), [d > 0]. *)
Definition float_of_ratio (n : Z) (d : positive) : float :=
  match n with
  | Z0 => fzero
  | Zpos p =>
    let '(mz, ez, lz) := SFdiv_core_binary prec emax (Zpos p) 0 (Zpos d) 0 in
    binary_round_aux prec emax false mz ez lz
  | Zneg p =>
    let '(mz, ez, lz) := SFdiv_core_binary prec emax (Zpos p) 0 (Zpos d) 0 in
    binary_round_aux prec emax true mz ez lz
  end.

(** [m * 10^e] rounded to binary64. *)
Definition float_of_decimal (m e : Z) : float :=
  match e with
  | Zneg p => float_of_ratio m (10 ^ p)%positive
  | _ => float_of_ratio (m * 10 ^ e) 1
  end.

(** ** Exceptions *)

Inductive exn :=
  | AttributeError
  | TypeError
  | ValueError
  | OverflowError.

Inductive outcome (A : Type) :=
  | Returned (a : A)
  | Raised (e : exn).
Arguments Returned {A} a.
Arguments Raised {A} e.

Definition bind {A B} (m : outcome A) (f : A -> outcome B) : outcome B :=
  match m with
  | Returned a => f a
  | Raised e => Raised e
  end.

(** ** Values decoded from JSON *)

Inductive pyval :=
  | PNone
  | PBool (b : bool)
  | PInt (z : Z)
  | PFloat (f : float)
  | PStr (s : pystr)
  | PList (l : list pyval)
  | PDict (d : list (pystr * pyval)).

Definition truthy (v : pyval) : bool :=
  match v with
  | PNone => false
  | PBool b => b
  | PInt z => negb (z =? 0)
  | PFloat f => float_truthy f
  | PStr s => str_truthy s
  | PList l => match l with [] => false | _ => true end
  | PDict d => match d with [] => false | _ => true end
  end.

Fixpoint assoc (k : pystr) (d : list (pystr * pyval)) : option pyval :=
  match d with
  | [] => None
  | (k', v) :: d' => if str_eqb k k' then Some v else assoc k d'
  end.

(** [v.get(key, default)]: only a [dict] has the method. *)
Definition get_default (v : pyval) (key : pystr) (default : pyval) : outcome pyval :=
  match v with
  | PDict d => Returned (match assoc key d with Some x => x | None => default end)
  | _ => Raised AttributeError
  end.

(** [v.get(key)] *)
Definition get (v : pyval) (key : pystr) : outcome pyval :=
  get_default v key PNone.

(** [a or b] on values. *)
Definition val_or (a b : pyval) : pyval := if truthy a then a else b.

(** [float(n)] for an integer: rounded to nearest, [OverflowError] beyond
    the binary64 range. *)
Definition float_of_int (z : Z) : outcome float :=
  match binary_normalize prec emax z 0 false with
  | S754_infinity _ => Raised OverflowError
  | f => Returned f
  end.

End Py.
Export Py.


(* ===================================================================== *)
(** * settings.py *)
(* ===================================================================== *)

(** The constants the three modules import from [settings.py]. *)
Class Settings := {
  CHAT_MEMORY_DB_LIMIT : Z;
  CHAT_MEMORY_MESSAGE_CHAR_LIMIT : Z;
  MAX_MEMORY_FACTS : Z;
  MEMORY_MIN_RECENT_SHARE : Z;
  MEMORY_SUMMARY_PROMPT : pystr;
  OPENROUTER_API_KEY : option pystr;
  AUTO_DEBATE_ENABLED : bool;
  AUTO_DEBATE_MIN_TEXT_LENGTH : Z;
  AUTO_DEBATE_COOLDOWN : float;
  AUTO_DEBATE_CONFIDENCE_THRESHOLD : float;
  AUTO_DEBATE_HISTORY_LIMIT : Z;
  AUTO_DEBATE_REASON_MAX_CHARS : Z
}.

(* ===================================================================== *)
(** * database.py: the memory tables *)
(* ===================================================================== *)

Module Database.

(** A row of [chat_memories] ([created_at] is never read by the code). *)
Record chat_memory := {
  cm_id : Z;
  cm_chat_id : Z;
  cm_message_id : option Z;
  cm_author_id : option Z;
  cm_author_name : option pystr;
  cm_summary : pystr
}.

(** A row of [user_memories]. *)
Record user_memory := {
  um_id : Z;
  um_chat_id : Z;
  um_subject_user_id : Z;
  um_source_user_id : option Z;
  um_note : pystr
}.

(** The two tables, each with the counter SQLite keeps for an
    [AUTOINCREMENT] key: the largest id the table ever held. *)
Record t := {
  chat_memories : list chat_memory;
  chat_memories_seq : Z;
  user_memories : list user_memory;
  user_memories_seq : Z
}.

Definition init_db : t :=
  {| chat_memories := []; chat_memories_seq := 0;
     user_memories := []; user_memories_seq := 0 |}.

(** [LIMIT n]: a negative bound is no bound. *)
Definition sql_limit {A} (n : Z) (rows : list A) : list A :=
  if n <? 0 then rows else firstn (Z.to_nat n) rows.

(** [ORDER BY id DESC], by insertion. *)
Section OrderBy.
Context {A : Type} (key : A -> Z).

Fixpoint insert_desc (r : A) (rows : list A) : list A :=
  match rows with
  | [] => [r]
  | x :: rows' =>
    if key x <=? key r then r :: rows else x :: insert_desc r rows'
  end.

Fixpoint order_by_desc (rows : list A) : list A :=
  match rows with
  | [] => []
  | r :: rows' => insert_desc r (order_by_desc rows')
  end.
End OrderBy.

(** [SELECT ... FROM chat_memories WHERE chat_id = ? ORDER BY id DESC LIMIT ?] *)
Definition select_chat_memories (rows : list chat_memory) (chat_id limit : Z)
  : list chat_memory :=
  sql_limit limit
    (order_by_desc cm_id (List.filter (fun r => cm_chat_id r =? chat_id) rows)).

Definition id_in (i : Z) (ids : list Z) : bool :=
  existsb (fun j => i =? j) ids.

Section WithSettings.
Context `{cfg : Settings}.

Definition add_chat_memory (db : t) (chat_id : Z) (message_id author_id : option Z)
    (author_name : option pystr) (summary : pystr) : t :=
  if negb (str_truthy summary) then db
  else
    let new_id := chat_memories_seq db + 1 in
    let inserted :=
      chat_memories db ++
      [ {| cm_id := new_id; cm_chat_id := chat_id; cm_message_id := message_id;
           cm_author_id := author_id; cm_author_name := author_name;
           cm_summary := slice_to CHAT_MEMORY_MESSAGE_CHAR_LIMIT summary |} ] in
    let keep :=
      List.map cm_id (select_chat_memories inserted chat_id CHAT_MEMORY_DB_LIMIT) in
    {| chat_memories :=
         List.filter
           (fun r => negb (negb (id_in (cm_id r) keep) && (cm_chat_id r =? chat_id)))
           inserted;
       chat_memories_seq := new_id;
       user_memories := user_memories db;
       user_memories_seq := user_memories_seq db |}.

Definition add_user_memory (db : t) (chat_id subject_user_id : Z)
    (source_user_id : option Z) (note : pystr) : t :=
  if negb (str_truthy note) then db
  else
    let new_id := user_memories_seq db + 1 in
    {| chat_memories := chat_memories db;
       chat_memories_seq := chat_memories_seq db;
       user_memories :=
         user_memories db ++
         [ {| um_id := new_id; um_chat_id := chat_id;
              um_subject_user_id := subject_user_id;
              um_source_user_id := source_user_id;
              um_note := slice_to CHAT_MEMORY_MESSAGE_CHAR_LIMIT note |} ];
       user_memories_seq := new_id |}.
End WithSettings.

Definition get_chat_memories (db : t) (chat_id limit : Z) : list pystr :=
  List.map cm_summary (select_chat_memories (chat_memories db) chat_id limit).

Definition get_user_memories (db : t) (chat_id user_id limit : Z) : list pystr :=
  List.map um_note
    (sql_limit limit
       (order_by_desc um_id
          (List.filter
             (fun r => (um_chat_id r =? chat_id) && (um_subject_user_id r =? user_id))
             (user_memories db)))).

(** One [add_chat_memory] call, as its arguments. *)
Record chat_memory_call := {
  call_chat_id : Z;
  call_message_id : option Z;
  call_author_id : option Z;
  call_author_name : option pystr;
  call_summary : pystr
}.

Definition apply_call `{cfg : Settings} (db : t) (c : chat_memory_call) : t :=
  add_chat_memory db (call_chat_id c) (call_message_id c) (call_author_id c)
    (call_author_name c) (call_summary c).

(** The database after a sequence of [add_chat_memory] calls. *)
Definition run_calls `{cfg : Settings} (db : t) (calls : list chat_memory_call) : t :=
  fold_left apply_call calls db.

(** What the calls inserted for one conversation, oldest first: the stored
    text of every call of that conversation whose summary was not empty. *)
Definition inserted_summaries `{cfg : Settings} (chat_id : Z) (calls : list chat_memory_call)
  : list pystr :=
  List.map (fun c => slice_to CHAT_MEMORY_MESSAGE_CHAR_LIMIT (call_summary c))
    (List.filter (fun c => (call_chat_id c =? chat_id) && str_truthy (call_summary c))
       calls).

End Database.

(** ** Invariants of the [chat_memories] table *)

Module DatabaseInv.
Import Database.

(** Rows in strictly increasing key order. *)
Fixpoint ascending {A} (key : A -> Z) (rows : list A) : Prop :=
  match rows with
  | [] => True
  | r :: rows' => Forall (fun x => key r < key x) rows' /\ ascending key rows'
  end.

(** The last [n] elements of a list. *)
Definition last_n {A} (n : nat) (l : list A) : list A :=
  skipn (List.length l - n) l.

(** What the table holds after [calls]: ids grow with the position and stay
    below the counter, and each conversation holds the last
    [CHAT_MEMORY_DB_LIMIT] summaries inserted for it. *)
Definition table_inv `{cfg : Settings} (db : t) (calls : list chat_memory_call) : Prop :=
  ascending cm_id (chat_memories db)
  /\ Forall (fun r => cm_id r <= chat_memories_seq db) (chat_memories db)
  /\ forall c,
       List.map cm_summary
         (List.filter (fun r => cm_chat_id r =? c) (chat_memories db))
       = last_n (Z.to_nat CHAT_MEMORY_DB_LIMIT) (inserted_summaries c calls).

End DatabaseInv.

(* ===================================================================== *)
(** * The language model and the Python library *)
(* ===================================================================== *)

(** ** Awaiting the language model *)

(** The content of one message of a request: a fixed prompt, or an object
    handed to [json.dumps]. *)
Inductive content :=
  | Text (s : pystr)
  | JsonDumps (v : pyval).

Record request := {
  messages : list (pystr * content);   (* role, content *)
  temperature : float;
  max_tokens : Z
}.

(** An [async] function: it returns, or awaits [call_openrouter] and goes on
    with the answer ([None] for a failed call or an empty completion). *)
Inductive Task (A : Type) :=
  | Done (a : A)
  | CallOpenRouter (req : request) (k : option pystr -> Task A).
Arguments Done {A} a.
Arguments CallOpenRouter {A} req k.

Fixpoint task_bind {A B} (t : Task A) (f : A -> Task B) : Task B :=
  match t with
  | Done a => f a
  | CallOpenRouter req k => CallOpenRouter req (fun r => task_bind (k r) f)
  end.

(** Running a task against a model that answers each request. *)
Fixpoint run_task {A} (oracle : request -> option pystr) (t : Task A) : A :=
  match t with
  | Done a => a
  | CallOpenRouter req k => run_task oracle (k (oracle req))
  end.

(** The number of requests a task sends when run against a model. *)
Fixpoint calls_made {A} (oracle : request -> option pystr) (t : Task A) : nat :=
  match t with
  | Done _ => 0%nat
  | CallOpenRouter req k => S (calls_made oracle (k (oracle req)))
  end.

(** ** Library functions *)

(** The functions of the Python library whose text is not part of the
    repository: [json.loads] ([None] when it raises [JSONDecodeError]),
    [float] on a string ([None] when it raises [ValueError]) and
    [str.lower]. The properties below hold for every such triple;
    [Reference.runtime] is an executable one. *)
Class Runtime := {
  json_loads : pystr -> option pyval;
  float_of_str : pystr -> option float;
  lower : pystr -> pystr
}.

(** [float(v)] *)
Definition py_float `{rt : Runtime} (v : pyval) : outcome float :=
  match v with
  | PNone => Raised TypeError
  | PBool b => Returned (if b then fone else fzero)
  | PInt z => float_of_int z
  | PFloat f => Returned f
  | PStr s =>
    match float_of_str s with
    | Some f => Returned f
    | None => Raised ValueError
    end
  | PList _ => Raised TypeError
  | PDict _ => Raised TypeError
  end.

(** ** An executable library *)

Module Reference.

Definition is_digit (c : codepoint) : bool := ((48 <=? c) && (c <=? 57))%N.
Definition digit_val (c : codepoint) : Z := Z.of_N (c - 48).

(** [str.lower] on ASCII text. *)
Definition ascii_lower (s : pystr) : pystr :=
  List.map (fun c => if ((65 <=? c) && (c <=? 90))%N then (c + 32)%N else c) s.

(** The longest run of digits at the front of [s]. *)
Fixpoint span_digits (s : pystr) : pystr * pystr :=
  match s with
  | c :: s' =>
    if is_digit c then let '(ds, rest) := span_digits s' in (c :: ds, rest)
    else ([], s)
  | [] => ([], [])
  end.

Definition int_of_digits (ds : pystr) : Z :=
  fold_left (fun acc c => acc * 10 + digit_val c) ds 0.

Definition signed_float (neg : bool) (m e : Z) : float :=
  if m =? 0 then S754_zero neg
  else float_of_decimal (if neg then - m else m) e.

(** An exponent suffix ([e] or [E], an optional sign, digits), when there
    is one. *)
Definition span_exponent (s : pystr) : option (Z * pystr) :=
  match s with
  | c :: s1 =>
    if ((c =? 101) || (c =? 69))%N then
      let '(neg, s2) :=
        match s1 with
        | 45%N :: s2 => (true, s2)
        | 43%N :: s2 => (false, s2)
        | _ => (false, s1)
        end in
      match span_digits s2 with
      | ([], _) => None
      | (ds, rest) => Some (if neg then - int_of_digits ds else int_of_digits ds, rest)
      end
    else None
  | [] => None
  end.

(** *** [json.loads] *)

Definition is_json_ws (c : codepoint) : bool :=
  ((c =? 32) || (c =? 9) || (c =? 10) || (c =? 13))%N.

Fixpoint skip_ws (s : pystr) : pystr :=
  match s with
  | c :: s' => if is_json_ws c then skip_ws s' else s
  | [] => []
  end.

Definition hex_val (c : codepoint) : option N :=
  if is_digit c then Some (c - 48)%N
  else if ((97 <=? c) && (c <=? 102))%N then Some (c - 87)%N
  else if ((65 <=? c) && (c <=? 70))%N then Some (c - 55)%N
  else None.

Definition hex4 (s : pystr) : option (N * pystr) :=
  match s with
  | a :: b :: c :: d :: rest =>
    match hex_val a, hex_val b, hex_val c, hex_val d with
    | Some a, Some b, Some c, Some d => Some ((a * 4096 + b * 256 + c * 16 + d)%N, rest)
    | _, _, _, _ => None
    end
  | _ => None
  end.

(** The body of a string literal, after its opening quote. *)
Fixpoint scan_string (fuel : nat) (s : pystr) : option (pystr * pystr) :=
  match fuel with
  | O => None
  | S fuel =>
    match s with
    | [] => None
    | 34%N :: rest => Some ([], rest)
    | 92%N :: e :: rest =>
      let simple c :=
        match scan_string fuel rest with
        | Some (tl, rest') => Some (c :: tl, rest')
        | None => None
        end in
      if (e =? 34)%N then simple 34%N
      else if (e =? 92)%N then simple 92%N
      else if (e =? 47)%N then simple 47%N
      else if (e =? 98)%N then simple 8%N
      else if (e =? 102)%N then simple 12%N
      else if (e =? 110)%N then simple 10%N
      else if (e =? 114)%N then simple 13%N
      else if (e =? 116)%N then simple 9%N
      else if (e =? 117)%N then
        match hex4 rest with
        | Some (u, rest1) =>
          let single :=
            match scan_string fuel rest1 with
            | Some (tl, rest') => Some (u :: tl, rest')
            | None => None
            end in
          if ((55296 <=? u) && (u <=? 56319))%N then
            match rest1 with
            | 92%N :: 117%N :: rest2 =>
              match hex4 rest2 with
              | Some (u2, rest3) =>
                if ((56320 <=? u2) && (u2 <=? 57343))%N then
                  match scan_string fuel rest3 with
                  | Some (tl, rest') =>
                    Some ((65536 + (u - 55296) * 1024 + (u2 - 56320))%N :: tl, rest')
                  | None => None
                  end
                else single
              | None => single
              end
            | _ => single
            end
          else single
        | None => None
        end
      else None
    | c :: rest =>
      if (c <? 32)%N then None
      else
        match scan_string fuel rest with
        | Some (tl, rest') => Some (c :: tl, rest')
        | None => None
        end
    end
  end.

(** A number literal: an optional minus, [0] or digits that do not start
    with [0], an optional fraction, an optional exponent. *)
Definition scan_number (s : pystr) : option (pyval * pystr) :=
  let '(neg, s1) := match s with 45%N :: s1 => (true, s1) | _ => (false, s) end in
  let int_part :=
    match s1 with
    | 48%N :: rest => Some ([48%N], rest)
    | _ => match span_digits s1 with
           | ([], _) => None
           | (ds, rest) => Some (ds, rest)
           end
    end in
  match int_part with
  | None => None
  | Some (ids, s2) =>
    let '(fds, s3) :=
      match s2 with
      | 46%N :: s2' =>
        match span_digits s2' with
        | ([], _) => ([], s2)
        | (fds, rest) => (fds, rest)
        end
      | _ => ([], s2)
      end in
    let '(ex, s4) :=
      match span_exponent s3 with
      | Some (e, rest) => (Some e, rest)
      | None => (None, s3)
      end in
    match fds, ex with
    | [], None =>
      let n := int_of_digits ids in
      Some (PInt (if neg then - n else n), s4)
    | _, _ =>
      let e := match ex with Some e => e | None => 0 end in
      Some (PFloat (signed_float neg (int_of_digits (ids ++ fds)) (e - len fds)), s4)
    end
  end.

(** [d[k] = v] on an insertion-ordered dictionary. *)
Fixpoint dict_set (k : pystr) (v : pyval) (d : list (pystr * pyval))
  : list (pystr * pyval) :=
  match d with
  | [] => [(k, v)]
  | (k', v') :: d' =>
    if str_eqb k k' then (k', v) :: d' else (k', v') :: dict_set k v d'
  end.

Inductive container := InList | InDict.

(** One value at the front of [s]; [scan_items] reads the elements of an
    array or the members of an object up to the closing bracket. *)
Fixpoint scan_value (fuel : nat) (s : pystr) : option (pyval * pystr) :=
  match fuel with
  | O => None
  | S fuel =>
    let fix scan_elements (n : nat) (s : pystr) (acc : list pyval)
        : option (pyval * pystr) :=
      match n with
      | O => None
      | S n =>
        match scan_value fuel s with
        | Some (v, rest) =>
          match skip_ws rest with
          | 44%N :: rest' => scan_elements n (skip_ws rest') (acc ++ [v])
          | 93%N :: rest' => Some (PList (acc ++ [v]), rest')
          | _ => None
          end
        | None => None
        end
      end in
    let fix scan_members (n : nat) (s : pystr) (acc : list (pystr * pyval))
        : option (pyval * pystr) :=
      match n with
      | O => None
      | S n =>
        match s with
        | 34%N :: s1 =>
          match scan_string (S (List.length s1)) s1 with
          | Some (key, s2) =>
            match skip_ws s2 with
            | 58%N :: s3 =>
              match scan_value fuel (skip_ws s3) with
              | Some (v, rest) =>
                match skip_ws rest with
                | 44%N :: rest' => scan_members n (skip_ws rest') (dict_set key v acc)
                | 125%N :: rest' => Some (PDict (dict_set key v acc), rest')
                | _ => None
                end
              | None => None
              end
            | _ => None
            end
          | None => None
          end
        | _ => None
        end
      end in
    match s with
    | 34%N :: s1 =>
      match scan_string (S (List.length s1)) s1 with
      | Some (str, rest) => Some (PStr str, rest)
      | None => None
      end
    | 123%N :: s1 =>
      match skip_ws s1 with
      | 125%N :: rest => Some (PDict [], rest)
      | s2 => scan_members (S (List.length s2)) s2 []
      end
    | 91%N :: s1 =>
      match skip_ws s1 with
      | 93%N :: rest => Some (PList [], rest)
      | s2 => scan_elements (S (List.length s2)) s2 []
      end
    | _ =>
      if startswith (str "null") s then Some (PNone, skipn 4 s)
      else if startswith (str "true") s then Some (PBool true, skipn 4 s)
      else if startswith (str "false") s then Some (PBool false, skipn 5 s)
      else
        match scan_number s with
        | Some r => Some r
        | None =>
          if startswith (str "NaN") s then Some (PFloat S754_nan, skipn 3 s)
          else if startswith (str "Infinity") s
          then Some (PFloat (S754_infinity false), skipn 8 s)
          else if startswith (str "-Infinity") s
          then Some (PFloat (S754_infinity true), skipn 9 s)
          else None
        end
    end
  end.

Definition loads (s : pystr) : option pyval :=
  match scan_value (S (List.length s)) (skip_ws s) with
  | Some (v, rest) => match skip_ws rest with [] => Some v | _ => None end
  | None => None
  end.

(** *** [float] on a string *)

(** Digits with single underscores between them. *)
Fixpoint span_grouped_digits (fuel : nat) (s : pystr) : pystr * pystr :=
  match fuel with
  | O => ([], s)
  | S fuel =>
    match s with
    | c :: s' =>
      if is_digit c then
        match s' with
        | 95%N :: d :: s'' =>
          if is_digit d then
            let '(ds, rest) := span_grouped_digits fuel (d :: s'') in (c :: ds, rest)
          else ([c], s')
        | _ => let '(ds, rest) := span_grouped_digits fuel s' in (c :: ds, rest)
        end
      else ([], s)
    | [] => ([], [])
    end
  end.

Definition span_grouped_exponent (s : pystr) : option (Z * pystr) :=
  match s with
  | c :: s1 =>
    if ((c =? 101) || (c =? 69))%N then
      let '(neg, s2) :=
        match s1 with
        | 45%N :: s2 => (true, s2)
        | 43%N :: s2 => (false, s2)
        | _ => (false, s1)
        end in
      match span_grouped_digits (List.length s2) s2 with
      | ([], _) => None
      | (ds, rest) => Some (if neg then - int_of_digits ds else int_of_digits ds, rest)
      end
    else None
  | [] => None
  end.

Definition parse_float (s : pystr) : option float :=
  let s0 := strip s in
  let '(neg, s1) :=
    match s0 with
    | 45%N :: s1 => (true, s1)
    | 43%N :: s1 => (false, s1)
    | _ => (false, s0)
    end in
  let word := ascii_lower s1 in
  if str_eqb word (str "inf") || str_eqb word (str "infinity")
  then Some (S754_infinity neg)
  else if str_eqb word (str "nan") then Some S754_nan
  else
    let '(ids, s2) := span_grouped_digits (List.length s1) s1 in
    let '(fds, s3) :=
      match s2 with
      | 46%N :: s2' => span_grouped_digits (List.length s2') s2'
      | _ => ([], s2)
      end in
    match ids, fds with
    | [], [] => None
    | _, _ =>
      let '(e, s4) :=
        match span_grouped_exponent s3 with
        | Some (e, rest) => (e, rest)
        | None => (0, s3)
        end in
      match s4 with
      | [] => Some (signed_float neg (int_of_digits (ids ++ fds)) (e - len fds))
      | _ => None
      end
    end.

#[export] Instance runtime : Runtime :=
  {| json_loads := loads; float_of_str := parse_float; lower := ascii_lower |}.

End Reference.

(* ===================================================================== *)
(** * memory.py *)
(* ===================================================================== *)


(** ** The caller's message and targets *)

Record User := {
  user_id : Z;
  is_bot : bool;
  full_name : pystr;
  username : option pystr
}.

Record Chat := {
  chat_id : Z;
  chat_type : pystr
}.

Record Message := {
  chat : Chat;
  from_user : option User;
  message_id : Z;
  text : option pystr;
  caption : option pystr;
  content_type : pystr
}.

(** A target dictionary: each key may be absent or [None]. *)
Record Target := {
  target_user_id : option Z;
  target_name : option pystr;
  target_username : option pystr
}.

(** Truthiness of [target.get("user_id")]. *)
Definition id_truthy (o : option Z) : bool :=
  match o with Some z => negb (z =? 0) | None => false end.

Definition opt_str_val (o : option pystr) : pyval :=
  match o with Some s => PStr s | None => PNone end.

Definition opt_int_val (o : option Z) : pyval :=
  match o with Some z => PInt z | None => PNone end.

Module Memory.

(** The process-wide [chat_histories] of [settings.py]. *)
Abbreviation histories := (gmap Z (list pystr)).

Definition get_chat_history_entries (chat_histories : histories) (chat_id : Z)
  : list pystr :=
  match chat_histories !! chat_id with
  | Some ((_ :: _) as history) => history
  | _ => []
  end.

Definition get_display_name (user : option User) : pystr :=
  match user with
  | None => str "Неизвестный"
  | Some u =>
    if str_truthy (full_name u) then full_name u
    else if opt_truthy (username u) then str "@" ++ or_empty (username u)
    else str "ID" ++ str_of_int (user_id u)
  end.

Definition serialize_targets_for_prompt (targets : list Target) : list pyval :=
  List.map
    (fun t => PDict [ (str "user_id", opt_int_val (target_user_id t));
                      (str "name", opt_str_val (target_name t));
                      (str "username", opt_str_val (target_username t)) ])
    (List.filter (fun t => id_truthy (target_user_id t)) targets).

(** ** The varied sampler *)

(** [random.sample(pool, k)] by the pool algorithm of the library: the
    [i]-th pick is the element at a drawn position of the pool, whose place
    is then taken by the last element still in the pool. [draw i] is the
    [i]-th value of the random source, reduced to the size of the pool. *)
Fixpoint random_sample {A} (draw : nat -> nat) (i : nat) (pool : list A) (k : nat)
  : list A :=
  match k with
  | O => []
  | S k' =>
    let j := (draw i mod List.length pool)%nat in
    match pool !! j, last pool with
    | Some x, Some y =>
      x :: random_sample draw (S i) (List.removelast (<[j := y]> pool)) k'
    | _, _ => []
    end
  end.

Section WithSettings.
Context `{cfg : Settings}.

Definition choose_varied_entries {A} (draw : nat -> nat) (entries : list A)
    (limit : Z) : list A :=
  if (limit <=? 0) || (len entries <=? limit) then entries
  else
    let recent_keep :=
      slice_to (Z.max MEMORY_MIN_RECENT_SHARE (Z.min (limit / 2) (len entries)))
        entries in
    let remaining := slice_from (len recent_keep) entries in
    let to_pick := limit - len recent_keep in
    if negb (len remaining =? 0) && (0 <? to_pick)
    then recent_keep
         ++ random_sample draw 0 remaining (Z.to_nat (Z.min to_pick (len remaining)))
    else recent_keep.

Definition summarize_message_text (message : Message) : pystr :=
  let text := strip (or_empty (opt_or (text message) (caption message))) in
  if str_truthy text then slice_to CHAT_MEMORY_MESSAGE_CHAR_LIMIT text
  else str "<" ++ content_type message ++ str ">".
End WithSettings.

(** ** Fact extraction *)

(** [v[:k]] on a decoded value, as the list its iteration yields. A string
    yields its characters; a dictionary cannot be sliced ([TypeError], a
    [KeyError] from Python 3.12 on), a number neither. *)
Definition slice_items (k : Z) (v : pyval) : outcome (list pyval) :=
  match v with
  | PList l => Returned (slice_to k l)
  | PStr s => Returned (List.map (fun c => PStr [c]) (slice_to k s))
  | _ => Raised TypeError
  end.

(** [for x in v] on a decoded value. *)
Definition iter_items (v : pyval) : outcome (list pyval) :=
  match v with
  | PList l => Returned l
  | PStr s => Returned (List.map (fun c => PStr [c]) s)
  | PDict d => Returned (List.map (fun kv => PStr (fst kv)) d)
  | _ => Raised TypeError
  end.

(** [facts.setdefault(uid, []).append(note)] *)
Fixpoint setdefault_append (uid : Z) (note : pystr) (facts : list (Z * list pystr))
  : list (Z * list pystr) :=
  match facts with
  | [] => [(uid, [note])]
  | (u, notes) :: facts' =>
    if u =? uid then (u, notes ++ [note]) :: facts'
    else (u, notes) :: setdefault_append uid note facts'
  end.

(** [isinstance(v, int)], with the integer: [bool] is a subclass of [int]. *)
Definition as_int (v : pyval) : option Z :=
  match v with
  | PInt z => Some z
  | PBool b => Some (if b then 1 else 0)
  | _ => None
  end.

Definition collect_chat_facts (items : list pyval) : list pystr :=
  flat_map
    (fun fact =>
       match fact with
       | PStr s => if str_truthy (strip s) then [strip s] else []
       | _ => []
       end)
    items.

Definition collect_user_fact (facts : list (Z * list pystr)) (entry : pyval)
  : list (Z * list pystr) :=
  match entry with
  | PDict d =>
    let uid := match assoc (str "user_id") d with Some v => v | None => PNone end in
    let note := match assoc (str "note") d with Some v => v | None => PNone end in
    match as_int uid, note with
    | Some u, PStr s =>
      if str_truthy (strip s) then setdefault_append u (strip s) facts else facts
    | _, _ => facts
    end
  | _ => facts
  end.

Section Extraction.
Context `{cfg : Settings} `{rt : Runtime}.

Definition extraction_request (message : Message) (targets : list Target)
    (text : pystr) : request :=
  {| messages :=
       [ (str "system", Text MEMORY_SUMMARY_PROMPT);
         (str "user",
          JsonDumps
            (PDict
               [ (str "chat_id", PInt (chat_id (chat message)));
                 (str "author_id",
                  match from_user message with
                  | Some u => PInt (user_id u)
                  | None => PNone
                  end);
                 (str "author_name", PStr (get_display_name (from_user message)));
                 (str "text", PStr text);
                 (str "targets", PList (serialize_targets_for_prompt targets)) ])) ];
     temperature := float_of_decimal 2 (-1);
     max_tokens := 300 |}.

(** What [extract_memory_facts] does with the answer of the model. *)
Definition facts_of_response (response : option pystr)
  : outcome (list pystr * list (Z * list pystr)) :=
  if negb (opt_truthy response) then Returned ([], [])
  else
    match json_loads (or_empty response) with
    | None => Returned ([], [])
    | Some parsed =>
      bind
        (match parsed with
         | PDict d =>
           let v := match assoc (str "chat_facts") d with
                    | Some v => v | None => PNone end in
           bind (slice_items MAX_MEMORY_FACTS (val_or v (PList [])))
             (fun items => Returned (collect_chat_facts items))
         | _ => Returned []
         end)
        (fun chat_facts =>
           bind (get parsed (str "user_facts")) (fun v =>
           bind (iter_items (val_or v (PList []))) (fun entries =>
           Returned (chat_facts, fold_left collect_user_fact entries []))))
    end.

Definition extract_memory_facts (message : Message) (targets : list Target)
  : Task (outcome (list pystr * list (Z * list pystr))) :=
  let text := opt_or (text message) (caption message) in
  if negb (opt_truthy text) || negb (opt_truthy OPENROUTER_API_KEY)
  then Done (Returned ([], []))
  else
    CallOpenRouter (extraction_request message targets (or_empty text))
      (fun response => Done (facts_of_response response)).

(** ** Storing the memories of one message *)

Definition target_display (t : Target) : pystr :=
  if opt_truthy (target_name t) then or_empty (target_name t)
  else if opt_truthy (target_username t)
       then str "@" ++ or_empty (target_username t)
       else str "этот пользователь".

Definition fallback_note (author_name summary : pystr) (t : Target) : pystr :=
  author_name ++ str " обычно заводит тему '" ++ summary
    ++ str "' когда общается с " ++ target_display t.

Definition store_fallback (db : Database.t) (chat_id : Z) (author_id : option Z)
    (author_name summary : pystr) (targets : list Target) : Database.t :=
  fold_left
    (fun db t =>
       match target_user_id t with
       | Some target_id =>
         if target_id =? 0 then db
         else Database.add_user_memory db chat_id target_id author_id
                (fallback_note author_name summary t)
       | None => db
       end)
    targets db.

Definition store_facts (db : Database.t) (message : Message)
    (author_id : option Z) (author_name summary : pystr) (targets : list Target)
    (chat_facts : list pystr) (user_facts : list (Z * list pystr)) : Database.t :=
  let cid := chat_id (chat message) in
  let db1 :=
    fold_left
      (fun db fact =>
         Database.add_chat_memory db cid None author_id (Some author_name) fact)
      chat_facts db in
  let db2 :=
    fold_left
      (fun db '(subject_id, notes) =>
         fold_left
           (fun db note => Database.add_user_memory db cid subject_id author_id note)
           (slice_to MAX_MEMORY_FACTS notes) db)
      user_facts db1 in
  if (len chat_facts =? 0) && (len user_facts =? 0)
     && negb (len targets =? 0)
     && opt_truthy (opt_or (text message) (caption message))
  then store_fallback db2 cid author_id author_name summary targets
  else db2.

(** The database the call leaves behind, and how the call ended. *)
Definition store_structured_memories (db : Database.t) (message : Message)
    (targets : list Target) : Task (Database.t * outcome unit) :=
  if negb (str_eqb (chat_type (chat message)) (str "group")
           || str_eqb (chat_type (chat message)) (str "supergroup"))
  then Done (db, Returned tt)
  else
    let summary := summarize_message_text message in
    let author_id := option_map user_id (from_user message) in
    let author_name := get_display_name (from_user message) in
    let db0 :=
      Database.add_chat_memory db (chat_id (chat message))
        (Some (message_id message)) author_id (Some author_name) summary in
    task_bind (extract_memory_facts message targets)
      (fun extracted =>
         match extracted with
         | Raised e => Done (db0, Raised e)
         | Returned (chat_facts, user_facts) =>
           Done (store_facts db0 message author_id author_name summary targets
                   chat_facts user_facts,
                 Returned tt)
         end).
End Extraction.

End Memory.

(* ===================================================================== *)
(** * debate.py *)
(* ===================================================================== *)

Module Debate.

Definition quote : codepoint := 34%N.

Definition DEBATE_SYSTEM_PROMPT : pystr :=
  str "Ты язвительный хулиган, который мониторит чат и врезает слов" ++
  str "ом каждый раз, когда кто-то несёт чушь, врёт или истерит. Те" ++
  str "бе дадут последние реплики (формат 'Автор: текст') и текущее" ++
  str " сообщение. Отвечай строго JSON {" ++
  [quote] ++
  str "should_reply" ++
  [quote] ++
  str ": bool, " ++
  [quote] ++
  str "confidence" ++
  [quote] ++
  str ": float, " ++
  [quote] ++
  str "reason" ++
  [quote] ++
  str ": str}. should_reply=true только если видишь тупую ложь, бре" ++
  str "д, токсичный наезд или жалкий плач, на который надо ответить" ++
  str " ядом. reason — короткий список тезисов в свободной форме (к" ++
  str "аждая строка начинается с тире), где ты объясняешь, почему а" ++
  str "втор заслуживает оскорбительный ответ. После списка добавь е" ++
  str "дкое резюме в одном предложении. confidence — число 0..1. Не" ++
  str " зови правила, не оправдывайся — тебе достаточно видеть идио" ++
  str "тизм.".

(** The ellipsis the reason is cut with. *)
Definition ellipsis : pystr := str "…".

(** The process-wide [auto_debate_last_reply] of [settings.py]. *)
Abbreviation last_replies := (gmap Z float).

Definition _parse_json_response `{rt : Runtime} (raw : pystr) : option pyval :=
  json_loads raw.

Section WithSettings.
Context `{cfg : Settings} `{rt : Runtime}.

Definition _build_dialogue_context (chat_histories : Memory.histories) (chat_id : Z)
  : list pystr :=
  slice_from (- AUTO_DEBATE_HISTORY_LIMIT)
    (Memory.get_chat_history_entries chat_histories chat_id).

Definition debate_request (chat_histories : Memory.histories) (message : Message)
    (user : User) (text : pystr) (targets : option (list Target)) : request :=
  {| messages :=
       [ (str "system", Text DEBATE_SYSTEM_PROMPT);
         (str "user",
          JsonDumps
            (PDict
               [ (str "chat_id", PInt (chat_id (chat message)));
                 (str "user_id", PInt (user_id user));
                 (str "text", PStr text);
                 (str "dialogue",
                  PList (List.map PStr
                           (_build_dialogue_context chat_histories
                              (chat_id (chat message)))));
                 (str "targets",
                  PList (Memory.serialize_targets_for_prompt
                           (match targets with Some ts => ts | None => [] end))) ])) ];
     temperature := float_of_decimal 2 (-1);
     max_tokens := 140 |}.

(** The cooldown test: a recorded, truthy timestamp less than
    [AUTO_DEBATE_COOLDOWN] before [now]. *)
Definition in_cooldown (auto_debate_last_reply : last_replies) (chat_id : Z)
    (now : float) : bool :=
  match auto_debate_last_reply !! chat_id with
  | Some last_reply =>
    float_truthy last_reply && flt (fsub now last_reply) AUTO_DEBATE_COOLDOWN
  | None => false
  end.

(** The three readings of an answer: reply flag, confidence, raw reason. *)
Definition heuristic_reading (response : pystr) : bool * float * pyval :=
  let lowered := lower response in
  let should_reply := contains (str "true") lowered || contains (str "yes") lowered in
  (should_reply,
   if should_reply then fone else fzero,
   if should_reply then PStr (strip response) else PNone).

Definition structured_reading (parsed : pyval) : outcome (bool * float * pyval) :=
  bind (get parsed (str "should_reply")) (fun flag =>
  bind (get_default parsed (str "confidence") (PInt 0)) (fun c =>
  bind (match py_float c with
        | Returned f => Returned f
        | Raised TypeError => Returned fzero
        | Raised ValueError => Returned fzero
        | Raised e => Raised e
        end) (fun confidence =>
  bind (match parsed with
        | PDict _ => get parsed (str "reason")
        | _ => Returned PNone
        end) (fun reason =>
  Returned (truthy flag, confidence, reason))))).

(** The cut of a truthy reason to [AUTO_DEBATE_REASON_MAX_CHARS]. *)
Definition shorten_reason (reason : pyval) : outcome pyval :=
  if truthy reason then
    match reason with
    | PStr s =>
      let s := strip s in
      if AUTO_DEBATE_REASON_MAX_CHARS <? len s
      then Returned
             (PStr (rstrip (slice_to AUTO_DEBATE_REASON_MAX_CHARS s) ++ ellipsis))
      else Returned (PStr s)
    | _ => Raised AttributeError
    end
  else Returned reason.

(** The decision once the model has answered. *)
Definition decide (response : option pystr) : outcome (bool * pyval) :=
  if negb (opt_truthy response) then Returned (false, PNone)
  else
    let response := or_empty response in
    let parsed := _parse_json_response response in
    bind (match parsed with
          | Some v => if truthy v then structured_reading v
                      else Returned (heuristic_reading response)
          | None => Returned (heuristic_reading response)
          end)
      (fun '(should_reply, confidence, reason) =>
         bind (shorten_reason reason) (fun reason =>
         if should_reply && fle AUTO_DEBATE_CONFIDENCE_THRESHOLD confidence
         then Returned (true, reason)
         else Returned (false, PNone))).

Definition should_trigger_auto_debate (chat_histories : Memory.histories)
    (auto_debate_last_reply : last_replies) (now : float)
    (message : Message) (targets : option (list Target))
  : Task (outcome (bool * pyval)) :=
  if negb AUTO_DEBATE_ENABLED then Done (Returned (false, PNone))
  else
    match from_user message with
    | None => Done (Returned (false, PNone))
    | Some user =>
      if is_bot user then Done (Returned (false, PNone))
      else
        let text := strip (or_empty (opt_or (text message) (caption message))) in
        if len text <? AUTO_DEBATE_MIN_TEXT_LENGTH then Done (Returned (false, PNone))
        else if in_cooldown auto_debate_last_reply (chat_id (chat message)) now
        then Done (Returned (false, PNone))
        else
          CallOpenRouter
            (debate_request chat_histories message user text targets)
            (fun response => Done (decide response))
    end.
End WithSettings.

(** [time.time()] is the argument [now]. *)
Definition mark_auto_debate_reply (auto_debate_last_reply : last_replies)
    (now : float) (chat_id : Z) : last_replies :=
  <[chat_id := now]> auto_debate_last_reply.

End Debate.

(* ===================================================================== *)
(** * Sample configuration and inputs *)
(* ===================================================================== *)

Module Examples.

(** A configuration with small bounds, a 60 second cooldown and a confidence
    threshold of 0.6. *)
Definition settings : Settings :=
  {| CHAT_MEMORY_DB_LIMIT := 2;
     CHAT_MEMORY_MESSAGE_CHAR_LIMIT := 80;
     MAX_MEMORY_FACTS := 3;
     MEMORY_MIN_RECENT_SHARE := 2;
     MEMORY_SUMMARY_PROMPT := str "Summarise the message as JSON.";
     OPENROUTER_API_KEY := Some (str "sk-test");
     AUTO_DEBATE_ENABLED := true;
     AUTO_DEBATE_MIN_TEXT_LENGTH := 5;
     AUTO_DEBATE_COOLDOWN := float_of_decimal 60 0;
     AUTO_DEBATE_CONFIDENCE_THRESHOLD := float_of_decimal 6 (-1);
     AUTO_DEBATE_HISTORY_LIMIT := 5;
     AUTO_DEBATE_REASON_MAX_CHARS := 5 |}.

Definition ann : User :=
  {| user_id := 11; is_bot := false; full_name := str "Ann"; username := None |}.

Definition group : Chat := {| chat_id := 100; chat_type := str "group" |}.

Definition message (body : string) : Message :=
  {| chat := group; from_user := Some ann; message_id := 1;
     text := Some (str body); caption := None; content_type := str "text" |}.

Definition bob : Target :=
  {| target_user_id := Some 7; target_name := Some (str "Bob");
     target_username := None |}.

(** A target dictionary without a [user_id]. *)
Definition nameless : Target :=
  {| target_user_id := None; target_name := Some (str "Bob");
     target_username := None |}.

(** A target known by its user id alone. *)
Definition id_only : Target :=
  {| target_user_id := Some 7; target_name := None; target_username := None |}.

Definition call (chat_id : Z) (body : string) : Database.chat_memory_call :=
  {| Database.call_chat_id := chat_id; Database.call_message_id := None;
     Database.call_author_id := None; Database.call_author_name := None;
     Database.call_summary := str body |}.

Definition five_calls : list Database.chat_memory_call :=
  [call 100 "a"; call 100 "b"; call 200 "x"; call 100 ""; call 100 "c"].

(** A random source for the sampler. *)
Definition draws : nat -> nat := fun i => (3 * i + 1)%nat.

(** Two readings of the clock, ten seconds apart. *)
Definition marked_at : float := float_of_decimal 1700000000 0.
Definition ten_seconds_later : float := float_of_decimal 1700000010 0.


End Examples.

(* ===================================================================== *)
(** * Vocabulary of the statements *)
(* ===================================================================== *)

Module Vocabulary.
Import Memory Debate.

(** JSON text written with apostrophes for its double quotes. *)
Definition json (text : string) : pystr :=
  List.map (fun c => if (c =? 39)%N then quote else c) (str text).

(** A model that gives the same answer to every request. *)
Definition answering_json (text : string) : request -> option pystr :=
  fun _ => Some (json text).

(** An answer whose confidence is the integer 1 followed by 400 zeros. *)
Definition huge_confidence_answer : pystr :=
  json "{'should_reply': true, 'confidence': 1" ++ List.repeat 48%N 400 ++ str "}".

(** [d.get(key, default)] on the members of an object. *)
Definition field (d : list (pystr * pyval)) (key : string) (default : pyval) : pyval :=
  match assoc (str key) d with
  | Some v => v
  | None => default
  end.

Section WithSettings.
Context `{cfg : Settings} `{rt : Runtime}.

(** The size the sampler asks for its recency block. *)
Definition recency_block {A} (entries : list A) (limit : Z) : nat :=
  Z.to_nat (Z.max MEMORY_MIN_RECENT_SHARE (Z.min (limit / 2) (len entries))).

(** The gates of [should_trigger_auto_debate] before the cooldown test:
    feature enabled, a sender that is not a bot, text long enough. *)
Definition early_gates_pass (message : Message) : Prop :=
  AUTO_DEBATE_ENABLED = true
  /\ (exists user, from_user message = Some user /\ is_bot user = false)
  /\ AUTO_DEBATE_MIN_TEXT_LENGTH
     <= len (strip (or_empty (opt_or (text message) (caption message)))).

(** The confidence the code reads from a decoded object: [float] of the
    field, [0.0] when the field is missing or [float] raises [TypeError]
    or [ValueError]; no value when [float] raises anything else. *)
Definition confidence_of (d : list (pystr * pyval)) : option float :=
  match py_float (field d "confidence" (PInt 0)) with
  | Returned f => Some f
  | Raised TypeError => Some fzero
  | Raised ValueError => Some fzero
  | Raised _ => None
  end.

(** A reason the code can cut: a string, or a falsy value it leaves alone. *)
Definition reason_well_typed (d : list (pystr * pyval)) : bool :=
  match field d "reason" PNone with
  | PStr _ => true
  | v => negb (truthy v)
  end.

(** The text of a cut reason: stripped, and when longer than the cap, its
    first [AUTO_DEBATE_REASON_MAX_CHARS] characters without trailing white
    space, followed by the ellipsis. *)
Definition cut_reason (reason : pystr) : pystr :=
  let stripped := strip reason in
  if AUTO_DEBATE_REASON_MAX_CHARS <? len stripped
  then rstrip (slice_to AUTO_DEBATE_REASON_MAX_CHARS stripped) ++ ellipsis
  else stripped.

(** The reason text the model supplied with an answer: the [reason] member
    of a truthy decoded object, the whole answer otherwise. *)
Definition supplied_reason (response : pystr) : option pystr :=
  match json_loads response with
  | Some (PDict ((_ :: _) as d)) =>
    match field d "reason" PNone with
    | PStr s => Some s
    | _ => None
    end
  | _ => Some response
  end.

(** The lexical reading of an answer: affirmative when its lower-case form
    contains [true] or [yes], then with confidence 1.0 and the answer itself
    as the reason. *)
Definition lexical_decision (response : pystr) : outcome (bool * pyval) :=
  if contains (str "true") (lower response) || contains (str "yes") (lower response)
  then bind (shorten_reason (PStr (strip response)))
         (fun reason =>
            if fle AUTO_DEBATE_CONFIDENCE_THRESHOLD fone
            then Returned (true, reason)
            else Returned (false, PNone))
  else Returned (false, PNone).

(** The rows the fallback of [store_structured_memories] adds for targets
    that carry a user id, the first of them with id [seq + 1]. *)
Fixpoint fallback_rows (seq chat_id : Z) (author_id : option Z)
    (author_name summary : pystr) (targets : list Target)
  : list Database.user_memory :=
  match targets with
  | [] => []
  | t :: targets' =>
    {| Database.um_id := seq + 1;
       Database.um_chat_id := chat_id;
       Database.um_subject_user_id :=
         match target_user_id t with Some i => i | None => 0 end;
       Database.um_source_user_id := author_id;
       Database.um_note :=
         slice_to CHAT_MEMORY_MESSAGE_CHAR_LIMIT
           (fallback_note author_name summary t) |}
    :: fallback_rows (seq + 1) chat_id author_id author_name summary targets'
  end.
End WithSettings.

(** The targets the fallback writes a note for. *)
Definition with_user_id (targets : list Target) : list Target :=
  List.filter (fun t => id_truthy (target_user_id t)) targets.

End Vocabulary.

(* ===================================================================== *)
(** * memory.py: history ring, capture gate, memory context *)
(* ===================================================================== *)

(** The constants of [settings.py] these functions read. *)
Class CaptureSettings := {
  CHAT_HISTORY_LIMIT : Z;
  USER_MEMORY_CONTEXT_LIMIT : Z;
  MEMORY_CAPTURE_PROBABILITY : float
}.

Module Capture.
Import Memory.

(** [d.append(x)] on a [deque] created with [maxlen]: the oldest element
    leaves when the bound is exceeded. *)
Definition deque_append {A} (maxlen : Z) (d : list A) (x : A) : list A :=
  let d' := d ++ [x] in
  if maxlen <? len d' then skipn 1 d' else d'.

(** The line [store_chat_history] keeps for a message of [user]. *)
Definition history_entry (message : Message) (user : User) : pystr :=
  let content := opt_or (text message) (caption message) in
  let content :=
    if opt_truthy content then or_empty content
    else str "<" ++ content_type message ++ str ">" in
  let author :=
    if str_truthy (full_name user) then full_name user
    else if opt_truthy (username user) then str "@" ++ or_empty (username user)
    else str_of_int (user_id user) in
  author ++ str ": " ++ content.

Definition is_group (message : Message) : bool :=
  str_eqb (chat_type (chat message)) (str "group")
  || str_eqb (chat_type (chat message)) (str "supergroup").

Section WithSettings.
Context `{cfg : Settings} `{cap : CaptureSettings}.

(** [deque(maxlen=CHAT_HISTORY_LIMIT)] is built on every call that reaches
    [setdefault]; a negative bound makes the constructor raise. *)
Definition store_chat_history (chat_histories : histories) (message : Message)
  : outcome histories :=
  if negb (is_group message) then Returned chat_histories
  else
    match from_user message with
    | None => Returned chat_histories
    | Some user =>
      let entry := history_entry message user in
      if CHAT_HISTORY_LIMIT <? 0 then Raised ValueError
      else
        let history :=
          match chat_histories !! chat_id (chat message) with
          | Some history => history
          | None => []
          end in
        Returned
          (<[chat_id (chat message) :=
               deque_append CHAT_HISTORY_LIMIT history entry]> chat_histories)
    end.

(** [random.random()] is the argument [draw]. *)
Definition should_capture_memory (draw : float) (message : Message) : bool :=
  let text := strip (or_empty (opt_or (text message) (caption message))) in
  if negb (str_truthy text) || startswith (str "/") text then false
  else if match from_user message with
          | Some user => is_bot user
          | None => false
          end
  then false
  else fle draw MEMORY_CAPTURE_PROBABILITY.

(** The name a target's notes are quoted under. *)
Definition context_name (t : Target) (target_id : Z) : pystr :=
  if opt_truthy (target_name t) then or_empty (target_name t)
  else if opt_truthy (target_username t)
       then str "@" ++ or_empty (target_username t)
       else str "ID" ++ str_of_int target_id.

(** The lines one target contributes; [draw] is the random source of its
    call to [choose_varied_entries]. *)
Definition target_context (db : Database.t) (chat_id : Z) (draw : nat -> nat)
    (t : Target) : list pystr :=
  match target_user_id t with
  | Some target_id =>
    if target_id =? 0 then []
    else
      let notes :=
        Database.get_user_memories db chat_id target_id USER_MEMORY_CONTEXT_LIMIT in
      match notes with
      | [] => []
      | _ :: _ =>
        let name := context_name t target_id in
        let sampled_notes :=
          choose_varied_entries draw notes
            (Z.max 1 (USER_MEMORY_CONTEXT_LIMIT / 2)) in
        List.map (fun note => name ++ str ": " ++ note) sampled_notes
      end
  | None => []
  end.

(** [draws i] is the random source used for the [i]-th target. *)
Fixpoint build_user_memory_context_from (i : nat) (db : Database.t) (chat_id : Z)
    (draws : nat -> nat -> nat) (targets : list Target) : list pystr :=
  match targets with
  | [] => []
  | t :: targets' =>
    target_context db chat_id (draws i) t
    ++ build_user_memory_context_from (S i) db chat_id draws targets'
  end.

Definition build_user_memory_context (db : Database.t) (chat_id : Z)
    (draws : nat -> nat -> nat) (targets : list Target) : list pystr :=
  build_user_memory_context_from 0 db chat_id draws targets.

(** The histories after a sequence of messages, each passed to
    [store_chat_history]. *)
Definition store_all (chat_histories : histories) (messages : list Message)
  : outcome histories :=
  fold_left (fun acc m => bind acc (fun h => store_chat_history h m))
    messages (Returned chat_histories).
End WithSettings.

(** The lines [store_chat_history] is to keep for one conversation, oldest
    first: those of its group messages that have a sender. *)
Definition logged_entries (c : Z) (messages : list Message) : list pystr :=
  flat_map
    (fun m =>
       match from_user m with
       | Some user =>
         if is_group m && (chat_id (chat m) =? c)
         then [history_entry m user] else []
       | None => []
       end)
    messages.

(** What the ring holds after [messages]: for each conversation the last
    [CHAT_HISTORY_LIMIT] lines logged for it. *)
Definition ring_inv `{cap : CaptureSettings} (h : gmap Z (list pystr))
    (messages : list Message) : Prop :=
  forall c,
    match h !! c with Some history => history | None => [] end
    = DatabaseInv.last_n (Z.to_nat CHAT_HISTORY_LIMIT) (logged_entries c messages).

(** One [add_user_memory] call, as its arguments. *)
Record user_memory_call := {
  ucall_chat_id : Z;
  ucall_subject_user_id : Z;
  ucall_source_user_id : option Z;
  ucall_note : pystr
}.

Definition apply_user_call `{cfg : Settings} (db : Database.t) (c : user_memory_call)
  : Database.t :=
  Database.add_user_memory db (ucall_chat_id c) (ucall_subject_user_id c)
    (ucall_source_user_id c) (ucall_note c).

(** The notes the calls inserted for one subject of one conversation, oldest
    first. *)
Definition inserted_notes `{cfg : Settings} (c subject : Z)
    (calls : list user_memory_call) : list pystr :=
  List.map (fun call => slice_to CHAT_MEMORY_MESSAGE_CHAR_LIMIT (ucall_note call))
    (List.filter
       (fun call =>
          (ucall_chat_id call =? c) && (ucall_subject_user_id call =? subject)
          && str_truthy (ucall_note call))
       calls).

Definition run_user_calls `{cfg : Settings} (db : Database.t)
    (calls : list user_memory_call) : Database.t :=
  fold_left apply_user_call calls db.

(** What [user_memories] holds after [calls]: ids grow with the position and
    stay below the counter, and every note inserted for a subject is there. *)
Definition user_table_inv `{cfg : Settings} (db : Database.t)
    (calls : list user_memory_call) : Prop :=
  DatabaseInv.ascending Database.um_id (Database.user_memories db)
  /\ Forall (fun r => Database.um_id r <= Database.user_memories_seq db)
       (Database.user_memories db)
  /\ forall c subject,
       List.map Database.um_note
         (List.filter
            (fun r => (Database.um_chat_id r =? c)
                      && (Database.um_subject_user_id r =? subject))
            (Database.user_memories db))
       = inserted_notes c subject calls.

(** A fact as [extract_memory_facts] returns it: stripped and not blank. *)
Definition clean_fact (fact : pystr) : Prop :=
  fact <> [] /\ strip fact = fact.

(** The user facts collected so far: one entry per user id, each with at
    least one note, all notes clean. *)
Definition facts_inv (facts : list (Z * list pystr)) : Prop :=
  List.NoDup (List.map fst facts)
  /\ Forall (fun entry => snd entry <> [] /\ Forall clean_fact (snd entry)) facts.

End Capture.

(* ===================================================================== *)
(** * database.py: the other tables *)
(* ===================================================================== *)

(** Each method is given the tables its statements name. A table with a
    primary key or a [UNIQUE] constraint over the columns every statement
    selects by is a finite map from those columns; the [id] column of
    [blocks], [global_blocks] and [global_block_exceptions], which no
    statement reads for its value, is left out. [CURRENT_TIMESTAMP] and
    [int(time.time())] are arguments. *)
Module Store.

(** ** Settings *)

Definition get_chat_setting (chat_settings : gmap (Z * pystr) pystr)
    (chat_id : Z) (key : pystr) : option pystr :=
  chat_settings !! (chat_id, key).

Definition set_chat_setting (chat_settings : gmap (Z * pystr) pystr)
    (chat_id : Z) (key value : pystr) : gmap (Z * pystr) pystr :=
  <[(chat_id, key) := value]> chat_settings.

Definition get_user_setting (user_settings : gmap (Z * pystr) pystr)
    (user_id : Z) (key : pystr) : option pystr :=
  user_settings !! (user_id, key).

Definition set_user_setting (user_settings : gmap (Z * pystr) pystr)
    (user_id : Z) (key value : pystr) : gmap (Z * pystr) pystr :=
  <[(user_id, key) := value]> user_settings.

Definition delete_user_setting (user_settings : gmap (Z * pystr) pystr)
    (user_id : Z) (key : pystr) : gmap (Z * pystr) pystr :=
  delete (user_id, key) user_settings.

(** ** Saved styles *)

Record saved_style := {
  ss_id : Z;
  ss_user_id : Z;
  ss_name : pystr;
  ss_prompt : pystr;
  ss_created_at : pystr
}.

(** The table with its [AUTOINCREMENT] counter. *)
Record styles_table := {
  saved_styles : list saved_style;
  saved_styles_seq : Z
}.

(** The dictionary a style is returned as; [add_saved_style] returns it
    without the [created_at] key. *)
Record style := {
  style_id : Z;
  style_name : pystr;
  style_prompt : pystr;
  style_created_at : option pystr
}.

Definition style_of_row (r : saved_style) : style :=
  {| style_id := ss_id r; style_name := ss_name r; style_prompt := ss_prompt r;
     style_created_at := Some (ss_created_at r) |}.

(** [ORDER BY id], by insertion. *)
Section OrderBy.
Context {A : Type} (key : A -> Z).

Fixpoint insert_asc (r : A) (rows : list A) : list A :=
  match rows with
  | [] => [r]
  | x :: rows' =>
    if key r <=? key x then r :: rows else x :: insert_asc r rows'
  end.

Fixpoint order_by_asc (rows : list A) : list A :=
  match rows with
  | [] => []
  | r :: rows' => insert_asc r (order_by_asc rows')
  end.
End OrderBy.

Definition get_saved_styles (db : styles_table) (user_id : Z) : list style :=
  List.map style_of_row
    (order_by_asc ss_id
       (List.filter (fun r => ss_user_id r =? user_id) (saved_styles db))).

Definition get_saved_style (db : styles_table) (user_id style_id : Z)
  : option style :=
  match List.filter (fun r => (ss_user_id r =? user_id) && (ss_id r =? style_id))
          (saved_styles db) with
  | r :: _ => Some (style_of_row r)
  | [] => None
  end.

Definition add_saved_style (db : styles_table) (now : pystr) (user_id : Z)
    (name prompt : pystr) : styles_table * style :=
  let new_id := saved_styles_seq db + 1 in
  ({| saved_styles :=
        saved_styles db ++
        [ {| ss_id := new_id; ss_user_id := user_id; ss_name := name;
             ss_prompt := prompt; ss_created_at := now |} ];
      saved_styles_seq := new_id |},
   {| style_id := new_id; style_name := name; style_prompt := prompt;
      style_created_at := None |}).

Definition delete_saved_style (db : styles_table) (user_id style_id : Z)
  : styles_table * bool :=
  let hit (r : saved_style) := (ss_user_id r =? user_id) && (ss_id r =? style_id) in
  ({| saved_styles := List.filter (fun r => negb (hit r)) (saved_styles db);
      saved_styles_seq := saved_styles_seq db |},
   existsb hit (saved_styles db)).

(** ** Blocks *)

Definition toggle_block (blocks : gmap (Z * Z * Z) (option pystr))
    (chat_id blocker_id blocked_id : Z) (personal_message : option pystr)
  : gmap (Z * Z * Z) (option pystr) * bool :=
  match blocks !! (chat_id, blocker_id, blocked_id) with
  | Some _ => (delete (chat_id, blocker_id, blocked_id) blocks, false)
  | None => (<[(chat_id, blocker_id, blocked_id) := personal_message]> blocks, true)
  end.

Definition is_blocked (blocks : gmap (Z * Z * Z) (option pystr))
    (chat_id blocker_id blocked_id : Z) : bool * option pystr :=
  match blocks !! (chat_id, blocker_id, blocked_id) with
  | Some personal_message => (true, personal_message)
  | None => (false, None)
  end.

Definition toggle_global_block (global_blocks : gmap (Z * Z) (option pystr))
    (global_block_exceptions : gset (Z * Z * Z))
    (chat_id blocker_id : Z) (message : option pystr)
  : gmap (Z * Z) (option pystr) * gset (Z * Z * Z) * bool :=
  match global_blocks !! (chat_id, blocker_id) with
  | Some _ =>
    (delete (chat_id, blocker_id) global_blocks, global_block_exceptions, false)
  | None =>
    (<[(chat_id, blocker_id) := message]> global_blocks,
     filter (fun k : Z * Z * Z => fst k <> (chat_id, blocker_id))
       global_block_exceptions,
     true)
  end.

Definition get_global_block (global_blocks : gmap (Z * Z) (option pystr))
    (chat_id blocker_id : Z) : bool * option pystr :=
  match global_blocks !! (chat_id, blocker_id) with
  | Some message => (true, message)
  | None => (false, None)
  end.

Definition toggle_global_block_exception (global_block_exceptions : gset (Z * Z * Z))
    (chat_id blocker_id allowed_id : Z) : gset (Z * Z * Z) * bool :=
  if bool_decide ((chat_id, blocker_id, allowed_id) ∈ global_block_exceptions)
  then (global_block_exceptions ∖ {[ (chat_id, blocker_id, allowed_id) ]}, false)
  else ({[ (chat_id, blocker_id, allowed_id) ]} ∪ global_block_exceptions, true).

Definition is_global_block_exception (global_block_exceptions : gset (Z * Z * Z))
    (chat_id blocker_id allowed_id : Z) : bool :=
  bool_decide ((chat_id, blocker_id, allowed_id) ∈ global_block_exceptions).

(** ** Support *)

Definition can_send_support_message (last_support_time : gmap Z Z)
    (current_time : Z) (user_id cooldown_seconds : Z)
  : gmap Z Z * (bool * Z) :=
  let accept := (<[user_id := current_time]> last_support_time, (true, 0)) in
  match last_support_time !! user_id with
  | Some last_time =>
    let time_passed := current_time - last_time in
    if time_passed <? cooldown_seconds
    then (last_support_time, (false, cooldown_seconds - time_passed))
    else accept
  | None => accept
  end.

(** [bool(n)] and [int(b)] *)
Definition bool_of_int (n : Z) : bool := negb (n =? 0).
Definition int_of_bool (b : bool) : Z := if b then 1 else 0.

Definition get_support_ban (support_bans : gmap Z (Z * Z)) (user_id : Z)
  : option (bool * bool) :=
  match support_bans !! user_id with
  | Some (block_media, block_all) =>
    Some (bool_of_int block_media, bool_of_int block_all)
  | None => None
  end.

Definition _upsert_support_ban (support_bans : gmap Z (Z * Z))
    (user_id block_media block_all : Z) : gmap Z (Z * Z) :=
  <[user_id := (block_media, block_all)]> support_bans.

(** [self.get_support_ban(user_id) or {"block_media": False, "block_all": False}] *)
Definition current_ban (support_bans : gmap Z (Z * Z)) (user_id : Z) : bool * bool :=
  match get_support_ban support_bans user_id with
  | Some current => current
  | None => (false, false)
  end.

Definition set_support_ban (support_bans : gmap Z (Z * Z)) (user_id : Z)
    (block_media block_all : option bool) : gmap Z (Z * Z) * (bool * bool) :=
  let current := current_ban support_bans user_id in
  let new_media := match block_media with Some b => b | None => fst current end in
  let new_all := match block_all with Some b => b | None => snd current end in
  (_upsert_support_ban support_bans user_id (int_of_bool new_media)
     (int_of_bool new_all),
   (new_media, new_all)).

Definition toggle_support_media_ban (support_bans : gmap Z (Z * Z)) (user_id : Z)
  : gmap Z (Z * Z) * bool :=
  let current := current_ban support_bans user_id in
  let new_state := negb (fst current) in
  (_upsert_support_ban support_bans user_id (int_of_bool new_state)
     (int_of_bool (snd current)),
   new_state).

Definition toggle_support_full_ban (support_bans : gmap Z (Z * Z)) (user_id : Z)
  : gmap Z (Z * Z) * bool :=
  let current := current_ban support_bans user_id in
  let new_state := negb (snd current) in
  (_upsert_support_ban support_bans user_id (int_of_bool (fst current))
     (int_of_bool new_state),
   new_state).

(** ** Swear statistics *)

(** [ORDER BY count DESC, user_id ASC] on rows [(user_id, count)]. *)
Definition ranks_before (a b : Z * Z) : bool :=
  (snd b <? snd a) || ((snd a =? snd b) && (fst a <=? fst b)).

Fixpoint insert_ranked (r : Z * Z) (rows : list (Z * Z)) : list (Z * Z) :=
  match rows with
  | [] => [r]
  | x :: rows' =>
    if ranks_before r x then r :: rows else x :: insert_ranked r rows'
  end.

Fixpoint order_by_rank (rows : list (Z * Z)) : list (Z * Z) :=
  match rows with
  | [] => []
  | r :: rows' => insert_ranked r (order_by_rank rows')
  end.

Definition chat_rows (swear_stats : gmap (Z * Z) Z) (chat_id : Z) : list (Z * Z) :=
  List.map (fun row => (snd (fst row), snd row))
    (List.filter (fun row : Z * Z * Z => fst (fst row) =? chat_id)
       (map_to_list swear_stats)).

Definition get_swear_ranking (swear_stats : gmap (Z * Z) Z) (chat_id limit : Z)
  : list (Z * Z) :=
  Database.sql_limit limit (order_by_rank (chat_rows swear_stats chat_id)).

(** ** Sequences of calls and invariants *)

Inductive style_call :=
  | AddStyle (now : pystr) (user_id : Z) (name prompt : pystr)
  | DeleteStyle (user_id style_id : Z).

Definition apply_style_call (db : styles_table) (c : style_call) : styles_table :=
  match c with
  | AddStyle now user_id name prompt => fst (add_saved_style db now user_id name prompt)
  | DeleteStyle user_id style_id => fst (delete_saved_style db user_id style_id)
  end.

Definition no_styles : styles_table :=
  {| saved_styles := []; saved_styles_seq := 0 |}.

(** Rows in creation order, no id above the counter. *)
Definition styles_inv (db : styles_table) : Prop :=
  DatabaseInv.ascending ss_id (saved_styles db)
  /\ Forall (fun r => ss_id r <= saved_styles_seq db) (saved_styles db).

(** A ranking in order: every row ranks before the rows after it. *)
Fixpoint ranked (rows : list (Z * Z)) : Prop :=
  match rows with
  | [] => True
  | r :: rows' => Forall (fun x => ranks_before r x = true) rows' /\ ranked rows'
  end.

End Store.

(* ===================================================================== *)
(** * [int] on a string *)
(* ===================================================================== *)

(** The decimal value of the digits outside ASCII that [int] accepts
    ([unicodedata.decimal]); the table is not part of the repository. *)
Class Unicode := {
  unicode_decimal : codepoint -> option Z
}.

Module PyInt.

(** The white space [int] skips: the ASCII set of the parser and, beyond
    ASCII, what [str.isspace] accepts. *)
Definition int_space (c : codepoint) : bool :=
  ((9 <=? c) && (c <=? 13) || (c =? 32) || (127 <? c) && isspace c)%N.

Fixpoint skip_space (s : pystr) : pystr :=
  match s with
  | c :: s' => if int_space c then skip_space s' else s
  | [] => []
  end.

(** The default of [sys.get_int_max_str_digits()]. *)
Definition max_str_digits : nat := 4300.

Section WithUnicode.
Context `{uni : Unicode}.

Definition decimal_value (c : codepoint) : option Z :=
  if ((48 <=? c) && (c <=? 57))%N then Some (Z.of_N (c - 48))
  else if (c <? 128)%N then None
  else unicode_decimal c.

(** Digits with single underscores between them: the value, the number of
    digits and what follows. [after_underscore] also holds at the start,
    where a digit must come first. *)
Fixpoint scan_digits (s : pystr) (acc : Z) (n : nat) (after_underscore : bool)
  : option (Z * nat * pystr) :=
  match s with
  | c :: s' =>
    if (c =? 95)%N then
      if after_underscore then None else scan_digits s' acc n true
    else
      match decimal_value c with
      | Some d => scan_digits s' (acc * 10 + d) (S n) false
      | None => if after_underscore then None else Some (acc, n, s)
      end
  | [] => if after_underscore then None else Some (acc, n, [])
  end.

(** [int(s)]; [None] stands for [ValueError]. *)
Definition int_of_str (s : pystr) : option Z :=
  let s1 := skip_space s in
  let '(negative, s2) :=
    match s1 with
    | c :: s2 =>
      if (c =? 45)%N then (true, s2)
      else if (c =? 43)%N then (false, s2)
      else (false, s1)
    | [] => (false, s1)
    end in
  match scan_digits s2 0 0 true with
  | Some (value, digits, rest) =>
    if (max_str_digits <? digits)%nat then None
    else
      match skip_space rest with
      | [] => Some (if negative then - value else value)
      | _ :: _ => None
      end
  | None => None
  end.
End WithUnicode.

(** The value of a run of ASCII digits read after [acc]. *)
Definition digits_value (acc : Z) (ds : pystr) : Z :=
  fold_left (fun a c => a * 10 + Z.of_N (c - 48)) ds acc.

Definition ascii_digit (c : codepoint) : bool := ((48 <=? c) && (c <=? 57))%N.

End PyInt.

(* ===================================================================== *)
(** * rules.py *)
(* ===================================================================== *)

Class RulesSettings := {
  RULES_CAPTURE_TIMEOUT : float;
  RULES_AUTO_REQUEST_COOLDOWN : float
}.

Module Rules.

Definition RULES_LAST_REQUEST_KEY : pystr := str "rules_last_request".

(** The process-wide [pending_rules_requests]: per conversation the time of
    the request and who made it. *)
Abbreviation pending := (gmap Z (float * option Z)).

(** [time.time()] is the argument [now]. *)
Definition start_rules_capture (pending_rules_requests : pending) (now : float)
    (chat_id : Z) (requested_by : option Z) : pending :=
  <[chat_id := (now, requested_by)]> pending_rules_requests.

Definition is_rules_capture_active `{rules : RulesSettings}
    (pending_rules_requests : pending) (now : float) (chat_id : Z)
  : pending * bool :=
  match pending_rules_requests !! chat_id with
  | None => (pending_rules_requests, false)
  | Some (ts, _) =>
    if flt RULES_CAPTURE_TIMEOUT (fsub now ts)
    then (delete chat_id pending_rules_requests, false)
    else (pending_rules_requests, true)
  end.

Definition cancel_rules_capture (pending_rules_requests : pending) (chat_id : Z)
  : pending :=
  delete chat_id pending_rules_requests.

Definition _get_last_request_ts `{uni : Unicode}
    (chat_settings : gmap (Z * pystr) pystr) (chat_id : Z) : option Z :=
  match Store.get_chat_setting chat_settings chat_id RULES_LAST_REQUEST_KEY with
  | Some value =>
    if negb (str_truthy value) then None else PyInt.int_of_str value
  | None => None
  end.

(** [int(time.time())] is the argument [now]. *)
Definition mark_rules_request (chat_settings : gmap (Z * pystr) pystr) (now : Z)
    (chat_id : Z) : gmap (Z * pystr) pystr :=
  Store.set_chat_setting chat_settings chat_id RULES_LAST_REQUEST_KEY
    (str_of_int now).

End Rules.

(* ===================================================================== *)
(** * styles.py *)
(* ===================================================================== *)

(** [AI_STYLE_PRESETS] is given by its keys. *)
Class StyleSettings := {
  AI_STYLE_PRESETS : list pystr;
  CUSTOM_STYLE_KEY : pystr;
  SAVED_STYLE_PREFIX : pystr;
  CUSTOM_STYLE_PROMPT_LIMIT : Z
}.

Module Styles.

(** The four caches of [settings.py] and the two tables behind them. *)
Record state := {
  user_style_cache : gmap Z (option pystr);
  user_custom_prompt_cache : gmap Z (option pystr);
  active_saved_style_cache : gmap Z (option Z);
  saved_styles_cache : gmap Z (list Store.style);
  user_settings : gmap (Z * pystr) pystr;
  styles : Store.styles_table
}.

Definition with_user_style_cache (v : gmap Z (option pystr)) (s : state) : state :=
  {| user_style_cache := v;
     user_custom_prompt_cache := user_custom_prompt_cache s;
     active_saved_style_cache := active_saved_style_cache s;
     saved_styles_cache := saved_styles_cache s;
     user_settings := user_settings s; styles := styles s |}.

Definition with_user_custom_prompt_cache (v : gmap Z (option pystr)) (s : state)
  : state :=
  {| user_style_cache := user_style_cache s;
     user_custom_prompt_cache := v;
     active_saved_style_cache := active_saved_style_cache s;
     saved_styles_cache := saved_styles_cache s;
     user_settings := user_settings s; styles := styles s |}.

Definition with_active_saved_style_cache (v : gmap Z (option Z)) (s : state)
  : state :=
  {| user_style_cache := user_style_cache s;
     user_custom_prompt_cache := user_custom_prompt_cache s;
     active_saved_style_cache := v;
     saved_styles_cache := saved_styles_cache s;
     user_settings := user_settings s; styles := styles s |}.

Definition with_saved_styles_cache (v : gmap Z (list Store.style)) (s : state)
  : state :=
  {| user_style_cache := user_style_cache s;
     user_custom_prompt_cache := user_custom_prompt_cache s;
     active_saved_style_cache := active_saved_style_cache s;
     saved_styles_cache := v;
     user_settings := user_settings s; styles := styles s |}.

Definition with_user_settings (v : gmap (Z * pystr) pystr) (s : state) : state :=
  {| user_style_cache := user_style_cache s;
     user_custom_prompt_cache := user_custom_prompt_cache s;
     active_saved_style_cache := active_saved_style_cache s;
     saved_styles_cache := saved_styles_cache s;
     user_settings := v; styles := styles s |}.

Definition with_styles (v : Store.styles_table) (s : state) : state :=
  {| user_style_cache := user_style_cache s;
     user_custom_prompt_cache := user_custom_prompt_cache s;
     active_saved_style_cache := active_saved_style_cache s;
     saved_styles_cache := saved_styles_cache s;
     user_settings := user_settings s; styles := v |}.

(** A process that starts on a database: empty caches. *)
Definition start (settings : gmap (Z * pystr) pystr) (db : Store.styles_table)
  : state :=
  {| user_style_cache := ∅; user_custom_prompt_cache := ∅;
     active_saved_style_cache := ∅; saved_styles_cache := ∅;
     user_settings := settings; styles := db |}.

Definition AI_STYLE : pystr := str "ai_style".
Definition AI_STYLE_SAVED_ID : pystr := str "ai_style_saved_id".
Definition AI_STYLE_CUSTOM_PROMPT : pystr := str "ai_style_custom_prompt".

(** [not user_id] for an optional id. *)
Definition user_of (user_id : option Z) : option Z :=
  match user_id with
  | Some u => if u =? 0 then None else Some u
  | None => None
  end.

Section WithSettings.
Context `{sty : StyleSettings} `{uni : Unicode}.

Definition is_saved_style_key (style_key : option pystr) : bool :=
  match style_key with
  | Some key => startswith SAVED_STYLE_PREFIX key
  | None => false
  end.

(** [s.split(":", maxsplit=1)[1]]: what follows the first colon; no value
    where the index is out of range. *)
Fixpoint after_colon (s : pystr) : option pystr :=
  match s with
  | [] => None
  | c :: s' => if (c =? 58)%N then Some s' else after_colon s'
  end.

Definition extract_saved_style_id (style_key : option pystr) : option Z :=
  if negb (is_saved_style_key style_key) then None
  else
    match style_key with
    | Some key =>
      match after_colon key with
      | Some rest => PyInt.int_of_str rest
      | None => None
      end
    | None => None
    end.

(** [key in AI_STYLE_PRESETS or key == CUSTOM_STYLE_KEY or
    is_saved_style_key(key)] *)
Definition known_style (style_key : option pystr) : bool :=
  match style_key with
  | Some key =>
    existsb (str_eqb key) AI_STYLE_PRESETS || str_eqb key CUSTOM_STYLE_KEY
    || is_saved_style_key style_key
  | None => false
  end.

Definition get_user_style (s : state) (user_id : option Z) : state * option pystr :=
  match user_of user_id with
  | None => (s, None)
  | Some u =>
    let cached := mjoin (user_style_cache s !! u) in
    if known_style cached then (s, cached)
    else
      let stored := Store.get_user_setting (user_settings s) u AI_STYLE in
      if known_style stored
      then (with_user_style_cache (<[u := stored]> (user_style_cache s)) s, stored)
      else (with_user_style_cache (<[u := None]> (user_style_cache s)) s, None)
  end.

Definition set_active_saved_style (s : state) (user_id : Z) (style_id : option Z)
  : state :=
  let s := with_active_saved_style_cache
             (<[user_id := style_id]> (active_saved_style_cache s)) s in
  match style_id with
  | None =>
    with_user_settings
      (Store.delete_user_setting (user_settings s) user_id AI_STYLE_SAVED_ID) s
  | Some id =>
    with_user_settings
      (Store.set_user_setting (user_settings s) user_id AI_STYLE_SAVED_ID
         (str_of_int id)) s
  end.

Definition get_active_saved_style_id (s : state) (user_id : option Z)
  : state * option Z :=
  match user_of user_id with
  | None => (s, None)
  | Some u =>
    match active_saved_style_cache s !! u with
    | Some cached => (s, cached)
    | None =>
      let value :=
        match Store.get_user_setting (user_settings s) u AI_STYLE_SAVED_ID with
        | Some stored => PyInt.int_of_str stored
        | None => None
        end in
      (with_active_saved_style_cache (<[u := value]> (active_saved_style_cache s)) s,
       value)
    end
  end.

Definition set_user_style (s : state) (user_id : Z) (style_key : pystr)
    (saved_style_id : option Z) : state :=
  let s := with_user_style_cache (<[user_id := Some style_key]> (user_style_cache s)) s in
  let s := with_user_settings
             (Store.set_user_setting (user_settings s) user_id AI_STYLE style_key) s in
  set_active_saved_style s user_id saved_style_id.

Definition reset_user_style (s : state) (user_id : Z) : state :=
  let s := with_user_style_cache (<[user_id := None]> (user_style_cache s)) s in
  let s := with_user_custom_prompt_cache
             (<[user_id := None]> (user_custom_prompt_cache s)) s in
  let s := with_user_settings
             (Store.delete_user_setting (user_settings s) user_id AI_STYLE) s in
  let s := with_user_settings
             (Store.delete_user_setting (user_settings s) user_id
                AI_STYLE_CUSTOM_PROMPT) s in
  set_active_saved_style s user_id None.

Definition get_user_custom_prompt (s : state) (user_id : option Z)
  : state * option pystr :=
  match user_of user_id with
  | None => (s, None)
  | Some u =>
    match user_custom_prompt_cache s !! u with
    | Some cached => (s, cached)
    | None =>
      let value :=
        Store.get_user_setting (user_settings s) u AI_STYLE_CUSTOM_PROMPT in
      (with_user_custom_prompt_cache (<[u := value]> (user_custom_prompt_cache s)) s,
       value)
    end
  end.

Definition set_user_custom_prompt (s : state) (user_id : Z) (prompt : pystr)
  : state :=
  let cleaned := strip prompt in
  let trimmed := slice_to CUSTOM_STYLE_PROMPT_LIMIT cleaned in
  let s := with_user_custom_prompt_cache
             (<[user_id := Some trimmed]> (user_custom_prompt_cache s)) s in
  with_user_settings
    (Store.set_user_setting (user_settings s) user_id AI_STYLE_CUSTOM_PROMPT trimmed)
    s.

Definition invalidate_saved_styles_cache (s : state) (user_id : Z) : state :=
  with_saved_styles_cache (delete user_id (saved_styles_cache s)) s.

Definition get_saved_styles (s : state) (user_id : Z) : state * list Store.style :=
  match saved_styles_cache s !! user_id with
  | Some cached => (s, cached)
  | None =>
    let listed := Store.get_saved_styles (styles s) user_id in
    (with_saved_styles_cache (<[user_id := listed]> (saved_styles_cache s)) s, listed)
  end.

Definition get_saved_style (s : state) (user_id : Z) (style_id : option Z)
  : state * option Store.style :=
  match style_id with
  | None => (s, None)
  | Some id =>
    let '(s, listed) := get_saved_styles s user_id in
    match List.find (fun style => Store.style_id style =? id) listed with
    | Some style => (s, Some style)
    | None =>
      match Store.get_saved_style (styles s) user_id id with
      | Some style =>
        let s := invalidate_saved_styles_cache s user_id in
        (with_saved_styles_cache
           (<[user_id := Store.get_saved_styles (styles s) user_id]>
              (saved_styles_cache s)) s,
         Some style)
      | None => (s, None)
      end
    end
  end.

(** [CURRENT_TIMESTAMP] is the argument [now]. *)
Definition add_saved_style (s : state) (now : pystr) (user_id : Z)
    (name prompt : pystr) : state * Store.style :=
  let '(db, style) := Store.add_saved_style (styles s) now user_id name prompt in
  (invalidate_saved_styles_cache (with_styles db s) user_id, style).

Definition delete_saved_style (s : state) (user_id style_id : Z) : state * bool :=
  let '(db, deleted) := Store.delete_saved_style (styles s) user_id style_id in
  let s := with_styles db s in
  (if deleted then invalidate_saved_styles_cache s user_id else s, deleted).

Definition get_effective_ai_style (s : state) (user_id : option Z) (default : pystr)
  : state * pystr :=
  let '(s, personal) := get_user_style s user_id in
  match personal with
  | Some key =>
    if str_eqb key CUSTOM_STYLE_KEY then (s, CUSTOM_STYLE_KEY)
    else if is_saved_style_key personal then (s, key)
    else if existsb (str_eqb key) AI_STYLE_PRESETS then (s, key)
    else (s, default)
  | None => (s, default)
  end.

(** ** Sequences of calls *)

Inductive call :=
  | GetUserStyle (user_id : option Z)
  | SetUserStyle (user_id : Z) (style_key : pystr) (saved_style_id : option Z)
  | ResetUserStyle (user_id : Z)
  | GetActiveSavedStyleId (user_id : option Z)
  | SetActiveSavedStyle (user_id : Z) (style_id : option Z)
  | GetUserCustomPrompt (user_id : option Z)
  | SetUserCustomPrompt (user_id : Z) (prompt : pystr)
  | GetSavedStyles (user_id : Z)
  | GetSavedStyle (user_id : Z) (style_id : option Z)
  | AddSavedStyle (now : pystr) (user_id : Z) (name prompt : pystr)
  | DeleteSavedStyle (user_id style_id : Z)
  | GetEffectiveAiStyle (user_id : option Z) (default : pystr).

Definition apply_call (s : state) (c : call) : state :=
  match c with
  | GetUserStyle u => fst (get_user_style s u)
  | SetUserStyle u key saved => set_user_style s u key saved
  | ResetUserStyle u => reset_user_style s u
  | GetActiveSavedStyleId u => fst (get_active_saved_style_id s u)
  | SetActiveSavedStyle u id => set_active_saved_style s u id
  | GetUserCustomPrompt u => fst (get_user_custom_prompt s u)
  | SetUserCustomPrompt u prompt => set_user_custom_prompt s u prompt
  | GetSavedStyles u => fst (get_saved_styles s u)
  | GetSavedStyle u id => fst (get_saved_style s u id)
  | AddSavedStyle now u name prompt => fst (add_saved_style s now u name prompt)
  | DeleteSavedStyle u id => fst (delete_saved_style s u id)
  | GetEffectiveAiStyle u default => fst (get_effective_ai_style s u default)
  end.

Definition run (s : state) (calls : list call) : state :=
  fold_left apply_call calls s.

(** The caches agree with the tables: a cached prompt is the stored one, a
    cached style key is the stored one and a cached [None] stands for a
    stored value that is no known style, a cached list of styles is the
    listing of the table. *)
Definition coherent (s : state) : Prop :=
  (forall u v, user_custom_prompt_cache s !! u = Some v ->
     v = Store.get_user_setting (user_settings s) u AI_STYLE_CUSTOM_PROMPT)
  /\ (forall u v, user_style_cache s !! u = Some v ->
        match v with
        | Some key => Store.get_user_setting (user_settings s) u AI_STYLE = Some key
        | None =>
          known_style (Store.get_user_setting (user_settings s) u AI_STYLE) = false
        end)
  /\ (forall u listed, saved_styles_cache s !! u = Some listed ->
        listed = Store.get_saved_styles (styles s) u).
End WithSettings.

End Styles.
(* ===================================================================== *)
(** * Sample configuration and inputs for the other modules *)
(* ===================================================================== *)

Module Samples.
Import Examples.

(** A ring of two lines per conversation and four notes per target. *)
Definition capture : CaptureSettings :=
  {| CHAT_HISTORY_LIMIT := 2;
     USER_MEMORY_CONTEXT_LIMIT := 4;
     MEMORY_CAPTURE_PROBABILITY := float_of_decimal 5 (-1) |}.

(** A digit table with the ASCII digits alone. *)
Definition ascii_only : Unicode := {| unicode_decimal := fun _ => None |}.

Definition rules : RulesSettings :=
  {| RULES_CAPTURE_TIMEOUT := float_of_decimal 300 0;
     RULES_AUTO_REQUEST_COOLDOWN := float_of_decimal 3600 0 |}.

Definition styles : StyleSettings :=
  {| AI_STYLE_PRESETS := [str "polite"; str "rude"];
     CUSTOM_STYLE_KEY := str "custom";
     SAVED_STYLE_PREFIX := str "saved:";
     CUSTOM_STYLE_PROMPT_LIMIT := 10 |}.

Definition three_messages : list Message :=
  [message "one"; message "two"; message "three"].

Definition note (chat_id subject : Z) (body : string) : Capture.user_memory_call :=
  {| Capture.ucall_chat_id := chat_id; Capture.ucall_subject_user_id := subject;
     Capture.ucall_source_user_id := Some 11; Capture.ucall_note := str body |}.

(** Two notes about user 7 in conversation 100 and one in conversation 200. *)
Definition three_notes : list Capture.user_memory_call :=
  [note 100 7 "likes tea"; note 200 7 "plays chess"; note 100 7 "owns a cat"].

(** An answer of the model with a blank fact and padded notes. *)
Definition padded_facts : pystr :=
  Vocabulary.json
    "{'chat_facts': [' tea at five ', '  ', 7], 'user_facts': [{'user_id': 7, 'note': ' likes tea '}, {'user_id': 7, 'note': 'owns a cat'}, {'user_id': 8, 'note': ''}]}".

(** An answer of the model that asks for a reply, with confidence 0.9. *)
Definition confident_answer : pystr :=
  Vocabulary.json "{'should_reply': true, 'confidence': 0.9, 'reason': 'liar'}".

Definition a_minute_and_a_half_later : float := float_of_decimal 1700000090 0.
Definition ten_minutes_later : float := float_of_decimal 1700000600 0.

(** The ring after [three_messages]. *)
Definition two_lines : gmap Z (list pystr) :=
  <[100 := [str "Ann: two"; str "Ann: three"]]> ∅.

(** A rules request of user 11 in conversation 100. *)
Definition one_request : gmap Z (float * option Z) :=
  Rules.start_rules_capture ∅ marked_at 100 (Some 11).

(** Two styles of user 11. *)
Definition two_styles : Store.styles_table :=
  fold_left Store.apply_style_call
    [ Store.AddStyle (str "2024-01-01 00:00:00") 11 (str "pirate") (str "Arr.");
      Store.AddStyle (str "2024-01-02 00:00:00") 11 (str "poet") (str "Rhyme.") ]
    Store.no_styles.

(** User 1 of conversation 100 has let user 5 through. *)
Definition one_exception : gset (Z * Z * Z) := {[ (100, 1, 5) ]}.

(** A user sets a preset, stores a prompt and saves two styles. *)
Definition style_calls : list Styles.call :=
  [ Styles.GetUserStyle (Some 11);
    Styles.SetUserStyle 11 (str "rude") None;
    Styles.GetUserCustomPrompt (Some 11);
    Styles.SetUserCustomPrompt 11 (str "  curt  ");
    Styles.GetSavedStyles 11;
    Styles.AddSavedStyle (str "2024-01-01 00:00:00") 11 (str "pirate") (str "Arr.");
    Styles.GetSavedStyle 11 (Some 1);
    Styles.AddSavedStyle (str "2024-01-02 00:00:00") 11 (str "poet") (str "Rhyme.");
    Styles.DeleteSavedStyle 11 1 ].

(** Swear counts of three users in conversation 100 and one in 200. *)
Definition swear_counts : gmap (Z * Z) Z :=
  <[(100, 1) := 5]> (<[(100, 2) := 9]> (<[(100, 3) := 5]> (<[(200, 1) := 40]> ∅))).

End Samples.

(* ===================================================================== *)
(** * Properties of the memory store *)
(* ===================================================================== *)

Section DatabaseFacts.
Import Database DatabaseInv.

Section Order.
Context {A : Type} (key : A -> Z).

Lemma insert_desc_smallest (r : A) (rows : list A) :
  Forall (fun x => key r < key x) rows ->
  insert_desc key r rows = rows ++ [r].
Proof.
  induction 1 as [|x rows Hx _ IH]; simpl; [reflexivity|].
  destruct (Z.leb_spec (key x) (key r)); [lia|].
  now rewrite IH.
Qed.

Lemma order_by_desc_ascending (rows : list A) :
  ascending key rows -> order_by_desc key rows = rev rows.
Proof.
  induction rows as [|r rows IH]; simpl; [reflexivity|].
  intros [Hr Hrows]. rewrite (IH Hrows).
  apply insert_desc_smallest.
  apply List.Forall_forall. intros x Hx. apply List.in_rev in Hx.
  rewrite List.Forall_forall in Hr. now apply Hr.
Qed.

Lemma ascending_filter (f : A -> bool) (rows : list A) :
  ascending key rows -> ascending key (List.filter f rows).
Proof.
  induction rows as [|r rows IH]; simpl; [trivial|].
  intros [Hr Hrows]. destruct (f r); simpl; auto.
  split; auto.
  rewrite List.Forall_forall in *. intros x Hx.
  apply List.filter_In in Hx. now apply Hr.
Qed.

Lemma ascending_snoc (rows : list A) (r : A) :
  ascending key rows -> Forall (fun x => key x < key r) rows ->
  ascending key (rows ++ [r]).
Proof.
  induction rows as [|x rows IH]; simpl.
  - intros _ _. split; [constructor | exact I].
  - intros [Hx Hrows] Hall. inversion Hall as [|? ? Hxr Hall']; subst.
    split; [|now apply IH].
    apply List.Forall_app. split; [assumption|]. constructor; [assumption|constructor].
Qed.

Lemma ascending_app_inv (l1 l2 : list A) :
  ascending key (l1 ++ l2) ->
  ascending key l2 /\
  Forall (fun x => Forall (fun y => key x < key y) l2) l1.
Proof.
  induction l1 as [|x l1 IH]; simpl.
  - intros Hl2. split; [assumption | constructor].
  - intros [Hx Hrest]. destruct (IH Hrest) as [H2 H1].
    split; [assumption|]. constructor; [|assumption].
    apply List.Forall_app in Hx. tauto.
Qed.

End Order.

Lemma id_in_spec (i : Z) (ids : list Z) : id_in i ids = true <-> In i ids.
Proof.
  unfold id_in. rewrite List.existsb_exists. split.
  - intros (j & Hj & Heq). apply Z.eqb_eq in Heq. now subst.
  - intros Hin. exists i. split; [assumption | apply Z.eqb_refl].
Qed.

Lemma last_n_map {A B} (f : A -> B) (n : nat) (l : list A) :
  last_n n (List.map f l) = List.map f (last_n n l).
Proof. unfold last_n. now rewrite List.length_map, List.skipn_map. Qed.

Lemma firstn_rev_last_n {A} (n : nat) (l : list A) :
  firstn n (rev l) = rev (last_n n l).
Proof. unfold last_n. apply List.firstn_rev. Qed.

(** Keeping the last [n] of a list extended by one element only looks at the
    last [n] of the list. *)
Lemma last_n_snoc {A} (n : nat) (l : list A) (x : A) :
  last_n n (last_n n l ++ [x]) = last_n n (l ++ [x]).
Proof.
  unfold last_n. rewrite !List.length_app, List.length_skipn. simpl.
  destruct (Nat.le_gt_cases (List.length l) n) as [Hle|Hgt].
  - replace (List.length l - n)%nat with 0%nat by lia. simpl.
    now rewrite Nat.sub_0_r.
  - rewrite (List.skipn_app (List.length l + 1 - n)).
    rewrite (List.skipn_app (List.length l - (List.length l - n) + 1 - n)).
    rewrite List.length_skipn, List.skipn_skipn.
    replace (List.length l - (List.length l - n) + 1 - n
             + (List.length l - n))%nat
      with (List.length l + 1 - n)%nat by lia.
    f_equal. f_equal. lia.
Qed.

Lemma filter_keep_suffix (early late : list chat_memory) :
  ascending cm_id (early ++ late) ->
  List.filter
    (fun r => id_in (cm_id r) (List.map cm_id (rev late))) (early ++ late)
  = late.
Proof.
  intros Hasc.
  assert (Hin : forall i, id_in i (List.map cm_id (rev late)) = true
                          <-> In i (List.map cm_id late)).
  { intros i. rewrite id_in_spec, List.map_rev. symmetry. apply List.in_rev. }
  apply ascending_app_inv in Hasc as [Hlate Hearly].
  rewrite List.filter_app.
  replace (List.filter _ early) with (@nil chat_memory).
  - simpl. apply List.forallb_filter_id. apply List.forallb_forall.
    intros r Hr. apply Hin. now apply List.in_map.
  - symmetry. clear Hlate. induction Hearly as [|x early Hx _ IH]; simpl; [reflexivity|].
    destruct (id_in (cm_id x) (List.map cm_id (rev late))) eqn:E; [|exact IH].
    apply Hin in E. exfalso.
    apply List.in_map_iff in E as (y & Hy & Hyin).
    rewrite List.Forall_forall in Hx. specialize (Hx y Hyin). lia.
Qed.

(** On a table in id order, keeping the rows whose id is among the first [n]
    of the descending order keeps the last [n] rows. *)
Lemma filter_keep_last_n (n : nat) (rows : list chat_memory) :
  ascending cm_id rows ->
  List.filter
    (fun r => id_in (cm_id r) (List.map cm_id (firstn n (rev rows)))) rows
  = last_n n rows.
Proof.
  intros Hasc. rewrite firstn_rev_last_n. unfold last_n.
  set (k := (List.length rows - n)%nat).
  pose proof (List.firstn_skipn k rows) as Hsplit.
  rewrite <- Hsplit in Hasc.
  apply filter_keep_suffix in Hasc. now rewrite Hsplit in Hasc.
Qed.

(** The [DELETE] of [add_chat_memory], seen from one conversation. *)
Lemma filter_chat_after_delete (keep : chat_memory -> bool) (c c' : Z)
    (rows : list chat_memory) :
  List.filter (fun r => cm_chat_id r =? c)
    (List.filter (fun r => negb (negb (keep r) && (cm_chat_id r =? c'))) rows)
  = if c =? c'
    then List.filter keep (List.filter (fun r => cm_chat_id r =? c) rows)
    else List.filter (fun r => cm_chat_id r =? c) rows.
Proof.
  induction rows as [|r rows IH]; simpl.
  - now destruct (c =? c').
  - destruct (Z.eqb_spec c c') as [->|Hne].
    + destruct (Z.eqb_spec (cm_chat_id r) c') as [Hr|Hr]; simpl.
      * destruct (keep r); simpl; rewrite ?Hr, ?Z.eqb_refl, IH; reflexivity.
      * destruct (Z.eqb_spec (cm_chat_id r) c'); [contradiction|].
        rewrite Bool.andb_false_r. simpl.
        destruct (Z.eqb_spec (cm_chat_id r) c'); [contradiction|]. exact IH.
    + destruct (Z.eqb_spec (cm_chat_id r) c') as [Hr|Hr]; simpl.
      * destruct (keep r); simpl.
        -- destruct (Z.eqb_spec (cm_chat_id r) c); [congruence|exact IH].
        -- destruct (Z.eqb_spec (cm_chat_id r) c); [congruence|exact IH].
      * rewrite Bool.andb_false_r. simpl.
        destruct (Z.eqb_spec (cm_chat_id r) c); rewrite IH; reflexivity.
Qed.

Section Cap.
Context `{cfg : Settings}.
Hypothesis cap_nonneg : 0 <= CHAT_MEMORY_DB_LIMIT.

Lemma select_chat_memories_ascending (rows : list chat_memory) (c : Z) :
  ascending cm_id rows ->
  select_chat_memories rows c CHAT_MEMORY_DB_LIMIT
  = firstn (Z.to_nat CHAT_MEMORY_DB_LIMIT)
      (rev (List.filter (fun r => cm_chat_id r =? c) rows)).
Proof.
  intros Hasc. unfold select_chat_memories, sql_limit.
  destruct (Z.ltb_spec CHAT_MEMORY_DB_LIMIT 0); [lia|].
  rewrite order_by_desc_ascending; [reflexivity|].
  now apply ascending_filter.
Qed.

Lemma inserted_summaries_snoc (c : Z) (calls : list chat_memory_call)
    (call : chat_memory_call) :
  inserted_summaries c (calls ++ [call])
  = inserted_summaries c calls ++
    (if (call_chat_id call =? c) && str_truthy (call_summary call)
     then [slice_to CHAT_MEMORY_MESSAGE_CHAR_LIMIT (call_summary call)]
     else []).
Proof.
  unfold inserted_summaries. rewrite List.filter_app, List.map_app. simpl.
  now destruct ((call_chat_id call =? c) && str_truthy (call_summary call)).
Qed.

(** One call keeps the invariant. *)
Lemma table_inv_step (db : t) (calls : list chat_memory_call)
    (call : chat_memory_call) :
  table_inv db calls -> table_inv (apply_call db call) (calls ++ [call]).
Proof.
  intros (Hasc & Hseq & Hrows).
  unfold apply_call, add_chat_memory.
  destruct (str_truthy (call_summary call)) eqn:Hs; simpl.
  2:{ repeat split; try assumption.
      intros c. rewrite inserted_summaries_snoc, Hs, Bool.andb_false_r.
      rewrite List.app_nil_r. apply Hrows. }
  set (r0 := {| cm_id := chat_memories_seq db + 1;
                cm_chat_id := call_chat_id call;
                cm_message_id := call_message_id call;
                cm_author_id := call_author_id call;
                cm_author_name := call_author_name call;
                cm_summary :=
                  slice_to CHAT_MEMORY_MESSAGE_CHAR_LIMIT (call_summary call) |}).
  assert (Hasc' : ascending cm_id (chat_memories db ++ [r0])).
  { apply ascending_snoc; [assumption|].
    eapply List.Forall_impl; [|exact Hseq]. simpl. intros; lia. }
  rewrite (select_chat_memories_ascending _ _ Hasc').
  unfold table_inv; simpl. split; [|split].
  - now apply ascending_filter.
  - apply List.Forall_forall. intros r Hr. apply List.filter_In in Hr as [Hr _].
    apply List.in_app_iff in Hr as [Hr|[<-|[]]]; simpl; [|lia].
    rewrite List.Forall_forall in Hseq. specialize (Hseq r Hr). lia.
  - intros c.
    rewrite (filter_chat_after_delete
               (fun r => id_in (cm_id r)
                  (List.map cm_id
                     (firstn (Z.to_nat CHAT_MEMORY_DB_LIMIT)
                        (rev (List.filter
                                (fun r => cm_chat_id r =? call_chat_id call)
                                (chat_memories db ++ [r0]))))))).
    rewrite inserted_summaries_snoc, Hs, Bool.andb_true_r.
    destruct (Z.eqb_spec c (call_chat_id call)) as [->|Hne].
    + rewrite Z.eqb_refl.
      rewrite filter_keep_last_n by now apply ascending_filter.
      rewrite List.filter_app. simpl. rewrite Z.eqb_refl.
      rewrite <- last_n_map, List.map_app, Hrows. simpl.
      apply last_n_snoc.
    + destruct (Z.eqb_spec (call_chat_id call) c); [congruence|].
      rewrite List.filter_app. simpl.
      destruct (Z.eqb_spec (call_chat_id call) c); [congruence|].
      rewrite !List.app_nil_r. apply Hrows.
Qed.

Lemma table_inv_init : table_inv init_db [].
Proof.
  repeat split; simpl; try constructor.
Qed.

Lemma table_inv_run (calls : list chat_memory_call) :
  table_inv (run_calls init_db calls) calls.
Proof.
  induction calls as [|call calls IH] using List.rev_ind.
  - apply table_inv_init.
  - unfold run_calls in *. rewrite List.fold_left_app. simpl.
    now apply table_inv_step.
Qed.

(** C1. After any sequence of [add_chat_memory] calls on a fresh database,
    [get_chat_memories chat_id CHAT_MEMORY_DB_LIMIT] returns at most
    [CHAT_MEMORY_DB_LIMIT] rows, and they are the most recently inserted
    summaries of that conversation, newest first. *)
Theorem get_chat_memories_most_recent (calls : list chat_memory_call) (chat_id : Z) :
  let rows := get_chat_memories (run_calls init_db calls) chat_id CHAT_MEMORY_DB_LIMIT in
  len rows <= CHAT_MEMORY_DB_LIMIT
  /\ rows = firstn (Z.to_nat CHAT_MEMORY_DB_LIMIT)
              (rev (inserted_summaries chat_id calls)).
Proof.
  destruct (table_inv_run calls) as (Hasc & _ & Hrows).
  assert (Heq : get_chat_memories (run_calls init_db calls) chat_id CHAT_MEMORY_DB_LIMIT
                = firstn (Z.to_nat CHAT_MEMORY_DB_LIMIT)
                    (rev (inserted_summaries chat_id calls))).
  { unfold get_chat_memories.
    rewrite (select_chat_memories_ascending _ _ Hasc).
    rewrite firstn_rev_last_n, List.map_rev, <- last_n_map, Hrows.
    rewrite <- firstn_rev_last_n, <- firstn_rev_last_n.
    rewrite List.firstn_firstn. f_equal. lia. }
  simpl. split; [|exact Heq].
  rewrite Heq. unfold len. rewrite List.length_firstn. lia.
Qed.
End Cap.

End DatabaseFacts.

(* ===================================================================== *)
(** * Properties of the varied sampler *)
(* ===================================================================== *)

Section SamplerFacts.
Import Memory Vocabulary.
Context {A : Type}.
Implicit Types (pool entries : list A).

(** One pick of [random_sample]: the pool loses the picked element and
    nothing else. *)
Lemma pool_step pool (j : nat) (x y : A) :
  pool !! j = Some x -> last pool = Some y ->
  x :: List.removelast (<[j := y]> pool) ≡ₚ pool.
Proof.
  intros Hx Hy. apply last_Some in Hy as [init ->].
  destruct (decide (j < List.length init)%nat) as [Hlt|Hge].
  - rewrite insert_app_l by assumption.
    rewrite List.removelast_last.
    rewrite lookup_app_l in Hx by assumption.
    rewrite insert_take_drop by assumption.
    rewrite <- (take_drop_middle init j x Hx) at 3.
    rewrite <- !app_assoc. simpl.
    rewrite (Permutation_middle (take j init) (y :: drop (S j) init) x).
    apply Permutation_app_head. apply perm_skip.
    apply Permutation_cons_append.
  - assert (Hj : j = List.length init).
    { apply lookup_lt_Some in Hx. rewrite length_app in Hx. simpl in Hx. lia. }
    subst j. rewrite list_lookup_middle in Hx by reflexivity.
    injection Hx as <-.
    rewrite list_insert_id by now apply list_lookup_middle.
    rewrite List.removelast_last.
    now rewrite Permutation_app_comm.
Qed.

Lemma random_sample_length (draw : nat -> nat) (k i : nat) pool :
  (k <= List.length pool)%nat ->
  List.length (random_sample draw i pool k) = k.
Proof.
  revert i pool. induction k as [|k IH]; intros i pool Hk; simpl; [reflexivity|].
  assert (Hj : (draw i mod List.length pool < List.length pool)%nat)
    by (apply Nat.mod_upper_bound; lia).
  destruct (lookup_lt_is_Some_2 pool _ Hj) as [x Hx]. rewrite Hx.
  destruct (last pool) as [y|] eqn:Hy.
  2:{ apply last_None in Hy. subst pool. simpl in Hk. lia. }
  simpl. f_equal. apply IH.
  pose proof (Permutation_length (pool_step pool _ x y Hx Hy)) as Hlen.
  simpl in Hlen. lia.
Qed.

(** The sample is drawn without replacement: with what is left of the pool
    it makes up the pool again. *)
Lemma random_sample_without_replacement (draw : nat -> nat) (k i : nat) pool :
  (k <= List.length pool)%nat ->
  exists rest, random_sample draw i pool k ++ rest ≡ₚ pool.
Proof.
  revert i pool. induction k as [|k IH]; intros i pool Hk; simpl.
  - exists pool. reflexivity.
  - assert (Hj : (draw i mod List.length pool < List.length pool)%nat)
      by (apply Nat.mod_upper_bound; lia).
    destruct (lookup_lt_is_Some_2 pool _ Hj) as [x Hx]. rewrite Hx.
    destruct (last pool) as [y|] eqn:Hy.
    2:{ apply last_None in Hy. subst pool. simpl in Hk. lia. }
    pose proof (pool_step pool _ x y Hx Hy) as Hstep.
    destruct (IH (S i) (List.removelast (<[(draw i mod List.length pool)%nat := y]> pool)))
      as [rest Hrest].
    { apply Permutation_length in Hstep. simpl in Hstep. lia. }
    exists rest. simpl. rewrite Hrest. exact Hstep.
Qed.

Lemma len_nonneg (l : list A) : 0 <= len l.
Proof. unfold len. lia. Qed.

Lemma len_firstn (n : nat) (l : list A) :
  len (firstn n l) = Z.min (Z.of_nat n) (len l).
Proof. unfold len. rewrite List.length_firstn. lia. Qed.

Lemma len_skipn (n : nat) (l : list A) :
  len (skipn n l) = Z.max 0 (len l - Z.of_nat n).
Proof. unfold len. rewrite List.length_skipn. lia. Qed.

Lemma slice_to_nonneg (k : Z) (l : list A) :
  0 <= k -> slice_to k l = firstn (Z.to_nat k) l.
Proof. intros Hk. unfold slice_to. now destruct (Z.leb_spec 0 k); [|lia]. Qed.

Lemma slice_from_len_firstn (n : nat) (l : list A) :
  slice_from (len (firstn n l)) l = skipn n l.
Proof.
  unfold slice_from. destruct (Z.leb_spec 0 (len (firstn n l))) as [_|Hneg].
  2:{ pose proof (len_nonneg (firstn n l)). lia. }
  unfold len. rewrite Nat2Z.id, List.length_firstn.
  destruct (Nat.le_gt_cases n (List.length l)) as [Hle|Hgt].
  - now rewrite Nat.min_l.
  - rewrite Nat.min_r by lia.
    rewrite !List.skipn_all2; [reflexivity | lia | lia].
Qed.

Section WithSettings.
Context `{cfg : Settings}.

(** The sampler past its guard: the recency block, then picks among the
    older entries when the budget is not yet used up. *)
Lemma choose_varied_entries_unfold (draw : nat -> nat) entries (limit : Z) :
  0 < limit < len entries ->
  let block := recency_block entries limit in
  let to_pick := limit - len (firstn block entries) in
  choose_varied_entries draw entries limit
  = firstn block entries ++
    (if negb (len (skipn block entries) =? 0) && (0 <? to_pick)
     then random_sample draw 0 (skipn block entries)
            (Z.to_nat (Z.min to_pick (len (skipn block entries))))
     else []).
Proof.
  intros [Hpos Hlt]. simpl. unfold choose_varied_entries, recency_block.
  destruct (Z.leb_spec limit 0); [lia|].
  destruct (Z.leb_spec (len entries) limit); [lia|]. simpl.
  assert (0 <= limit / 2) by (apply Z.div_pos; lia).
  pose proof (len_nonneg entries).
  rewrite slice_to_nonneg by lia.
  rewrite slice_from_len_firstn.
  destruct (negb _ && _); [reflexivity | now rewrite List.app_nil_r].
Qed.

(** C6. [choose_varied_entries] returns its input unchanged when the limit
    is not positive or the input is no longer than the limit, so a second
    pass changes nothing either; and when the input is longer than the
    limit, the output starts with the [MEMORY_MIN_RECENT_SHARE] newest
    (front) entries of the input. *)
Theorem choose_varied_entries_identity_and_recency
    (draw draw' : nat -> nat) entries (limit : Z) :
  (limit <= 0 \/ len entries <= limit ->
     choose_varied_entries draw entries limit = entries
     /\ choose_varied_entries draw' (choose_varied_entries draw entries limit) limit
        = choose_varied_entries draw entries limit)
  /\ (limit < len entries ->
        exists older,
          choose_varied_entries draw entries limit
          = firstn (Z.to_nat MEMORY_MIN_RECENT_SHARE) entries ++ older).
Proof.
  split.
  - intros Hdom.
    assert (Hid : forall d, choose_varied_entries d entries limit = entries).
    { intros d. unfold choose_varied_entries.
      destruct (Z.leb_spec limit 0); [reflexivity|].
      destruct (Z.leb_spec (len entries) limit); [reflexivity|]. lia. }
    now rewrite !Hid.
  - intros Hlong.
    destruct (Z.le_gt_cases limit 0) as [Hle|Hpos].
    + exists (skipn (Z.to_nat MEMORY_MIN_RECENT_SHARE) entries).
      rewrite List.firstn_skipn. unfold choose_varied_entries.
      now destruct (Z.leb_spec limit 0); [|lia].
    + rewrite choose_varied_entries_unfold by lia.
      match goal with |- context [firstn _ _ ++ ?x] => set (sampled := x) end.
      clearbody sampled.
      exists (skipn (Z.to_nat MEMORY_MIN_RECENT_SHARE)
                (firstn (recency_block entries limit) entries) ++ sampled).
      rewrite List.app_assoc. f_equal.
      rewrite <- (List.firstn_skipn (Z.to_nat MEMORY_MIN_RECENT_SHARE)
                    (firstn (recency_block entries limit) entries)) at 1.
      f_equal. rewrite List.firstn_firstn. f_equal.
      unfold recency_block. lia.
Qed.

(** C7, as the code has it. For [0 < limit < len entries] the result is
    the recency block, the first [max MEMORY_MIN_RECENT_SHARE (limit / 2)]
    entries (all of them when the list is shorter), followed by entries
    picked without replacement among the older ones, as many as the budget
    still allows. It has [max limit (min MEMORY_MIN_RECENT_SHARE (len
    entries))] elements: exactly [limit] when [MEMORY_MIN_RECENT_SHARE <=
    limit], more than [limit] otherwise. *)
Theorem choose_varied_entries_shape (draw : nat -> nat) entries (limit : Z) :
  0 < limit < len entries ->
  let block := firstn (recency_block entries limit) entries in
  let older := skipn (recency_block entries limit) entries in
  exists sampled rest,
    choose_varied_entries draw entries limit = block ++ sampled
    /\ sampled ++ rest ≡ₚ older
    /\ len block
       = Z.min (len entries) (Z.max MEMORY_MIN_RECENT_SHARE (limit / 2))
    /\ len sampled = Z.max 0 (limit - len block)
    /\ len (choose_varied_entries draw entries limit)
       = Z.max limit (Z.min MEMORY_MIN_RECENT_SHARE (len entries))
    /\ (MEMORY_MIN_RECENT_SHARE <= limit ->
        len (choose_varied_entries draw entries limit) = limit).
Proof.
  intros Hlim. simpl.
  rewrite (choose_varied_entries_unfold draw entries limit Hlim). simpl.
  assert (Hhalf : 0 <= limit / 2 <= limit).
  { split; [apply Z.div_pos; lia|].
    apply Z.div_le_upper_bound; lia. }
  pose proof (len_nonneg entries) as Hn.
  assert (Hblock : len (firstn (recency_block entries limit) entries)
                   = Z.min (len entries)
                       (Z.max MEMORY_MIN_RECENT_SHARE (limit / 2))).
  { rewrite len_firstn. unfold recency_block. lia. }
  assert (Holder : len (skipn (recency_block entries limit) entries)
                   = len entries - len (firstn (recency_block entries limit) entries)).
  { rewrite len_skipn, len_firstn. lia. }
  set (block := firstn (recency_block entries limit) entries) in *.
  set (older := skipn (recency_block entries limit) entries) in *.
  set (to_pick := limit - len block) in *.
  destruct (negb (len older =? 0) && (0 <? to_pick)) eqn:Hbranch.
  - apply andb_prop in Hbranch as [Hne Hpick].
    apply Z.ltb_lt in Hpick.
    assert (Hk : Z.min to_pick (len older) = to_pick) by lia.
    rewrite Hk.
    assert (Hfit : (Z.to_nat to_pick <= List.length older)%nat).
    { unfold len in Holder, Hk. lia. }
    destruct (random_sample_without_replacement draw _ 0 older Hfit)
      as [rest Hrest].
    pose proof (random_sample_length draw _ 0 older Hfit) as Hlen.
    exists (random_sample draw 0 older (Z.to_nat to_pick)), rest.
    assert (Hs : len (random_sample draw 0 older (Z.to_nat to_pick)) = to_pick).
    { unfold len. rewrite Hlen. lia. }
    assert (Htotal : len (block ++ random_sample draw 0 older (Z.to_nat to_pick))
                     = len block + to_pick).
    { unfold len in *. rewrite List.length_app. lia. }
    repeat split; try assumption; try lia.
  - exists [], older.
    assert (Hpick : to_pick <= 0).
    { apply Bool.andb_false_iff in Hbranch as [Hb|Hb].
      - apply Bool.negb_false_iff, Z.eqb_eq in Hb. lia.
      - apply Z.ltb_ge in Hb. exact Hb. }
    rewrite List.app_nil_r.
    assert (Hnil : len (@nil A) = 0) by reflexivity.
    repeat split; try reflexivity; try assumption; unfold to_pick in *; lia.
Qed.
End WithSettings.

End SamplerFacts.

(* ===================================================================== *)
(** * Properties of the auto-debate decision *)
(* ===================================================================== *)

Section DebateFacts.
Import Memory Debate Vocabulary.
Context `{cfg : Settings} `{rt : Runtime}.

(** ** Cooldown *)

Lemma in_cooldown_after_mark (replies : gmap Z float) (t now : float) (chat_id : Z) :
  float_truthy t = true ->
  flt (fsub now t) AUTO_DEBATE_COOLDOWN = true ->
  in_cooldown (mark_auto_debate_reply replies t chat_id) chat_id now = true.
Proof.
  intros Ht Hnear. unfold in_cooldown, mark_auto_debate_reply.
  rewrite lookup_insert_eq. now rewrite Ht, Hnear.
Qed.

(** C2. After [mark_auto_debate_reply chat_id] at time [t] (a timestamp of the
    clock, hence not zero), a message of that conversation evaluated at a
    time [now] with [now - t < AUTO_DEBATE_COOLDOWN] is answered
    [(False, None)] without the model being called, and the cooldown test
    alone already rejects it. *)
Theorem cooldown_rejects_without_oracle
    (chat_histories : gmap Z (list pystr)) (replies : gmap Z float)
    (t now : float) (message : Message) (targets : option (list Target)) :
  float_truthy t = true ->
  flt (fsub now t) AUTO_DEBATE_COOLDOWN = true ->
  let replies' := mark_auto_debate_reply replies t (chat_id (chat message)) in
  in_cooldown replies' (chat_id (chat message)) now = true
  /\ should_trigger_auto_debate chat_histories replies' now message targets
     = Done (Returned (false, PNone)).
Proof.
  intros Ht Hnear. simpl.
  pose proof (in_cooldown_after_mark replies t now (chat_id (chat message)) Ht Hnear)
    as Hcool.
  split; [exact Hcool|].
  unfold should_trigger_auto_debate. rewrite Hcool.
  destruct AUTO_DEBATE_ENABLED; simpl; [|reflexivity].
  destruct (from_user message) as [user|]; [|reflexivity].
  destruct (is_bot user); [reflexivity|].
  now destruct (_ <? _).
Qed.

(** ** The decision on an answer *)

(** Past the gates the model is asked once and [decide] settles the answer. *)
Lemma should_trigger_asks_oracle
    (chat_histories : gmap Z (list pystr)) (replies : gmap Z float)
    (now : float) (message : Message) (targets : option (list Target)) :
  early_gates_pass message ->
  in_cooldown replies (chat_id (chat message)) now = false ->
  exists req,
    should_trigger_auto_debate chat_histories replies now message targets
    = CallOpenRouter req (fun response => Done (decide response)).
Proof.
  intros (Hon & (user & Huser & Hbot) & Hlen) Hcool.
  unfold should_trigger_auto_debate.
  rewrite Hon, Huser, Hbot, Hcool. simpl.
  destruct (Z.ltb_spec
              (len (strip (or_empty (opt_or (text message) (caption message)))))
              AUTO_DEBATE_MIN_TEXT_LENGTH); [lia|].
  eexists. reflexivity.
Qed.

(** The call either rejects at a gate or asks the model once. *)
Lemma should_trigger_cases
    (chat_histories : gmap Z (list pystr)) (replies : gmap Z float)
    (now : float) (message : Message) (targets : option (list Target)) :
  should_trigger_auto_debate chat_histories replies now message targets
  = Done (Returned (false, PNone))
  \/ exists req,
       should_trigger_auto_debate chat_histories replies now message targets
       = CallOpenRouter req (fun response => Done (decide response)).
Proof.
  unfold should_trigger_auto_debate.
  destruct AUTO_DEBATE_ENABLED; cbn [negb]; [|now left].
  destruct (from_user message) as [user|]; [|now left].
  destruct (is_bot user); [now left|].
  destruct (_ <? _); [now left|].
  destruct (in_cooldown _ _ _); [now left|].
  right. eexists. reflexivity.
Qed.

Lemma shorten_reason_well_typed (d : list (pystr * pyval)) :
  reason_well_typed d = true ->
  shorten_reason (field d "reason" PNone)
  = Returned (match field d "reason" PNone with
              | PStr ((_ :: _) as s) => PStr (cut_reason s)
              | v => v
              end).
Proof.
  unfold reason_well_typed, shorten_reason, cut_reason.
  destruct (field d "reason" PNone) as [| b | z | f | s | l | d'];
    cbn [truthy str_truthy]; try reflexivity.
  - intros Hb. apply Bool.negb_true_iff in Hb. now rewrite Hb.
  - intros Hz. apply Bool.negb_true_iff in Hz. now rewrite Hz.
  - intros Hf. apply Bool.negb_true_iff in Hf. now rewrite Hf.
  - intros _. destruct s; [reflexivity|].
    now destruct (_ <? _).
  - intros Hl. destruct l; [reflexivity|discriminate].
  - intros Hd. destruct d'; [reflexivity|discriminate].
Qed.

Lemma structured_reading_dict (d : list (pystr * pyval)) :
  structured_reading (PDict d)
  = bind (match py_float (field d "confidence" (PInt 0)) with
          | Returned f => Returned f
          | Raised TypeError => Returned fzero
          | Raised ValueError => Returned fzero
          | Raised e => Raised e
          end)
      (fun confidence =>
         Returned (truthy (field d "should_reply" PNone), confidence,
                   field d "reason" PNone)).
Proof.
  unfold structured_reading, get, get_default, field. cbn [bind].
  now destruct (match py_float _ with Returned f => _ | Raised e => _ end).
Qed.

Lemma structured_reading_confidence (d : list (pystr * pyval)) (c : float) :
  confidence_of d = Some c ->
  structured_reading (PDict d)
  = Returned (truthy (field d "should_reply" PNone), c, field d "reason" PNone).
Proof.
  intros Hconf. rewrite structured_reading_dict.
  unfold confidence_of in Hconf.
  destruct (py_float _) as [f|[]]; try discriminate;
    injection Hconf as <-; reflexivity.
Qed.

(** The decision on a decoded, non-empty object. *)
Lemma decide_structured (response : pystr) (d : list (pystr * pyval)) (c : float) :
  response <> [] ->
  json_loads response = Some (PDict d) ->
  d <> [] ->
  confidence_of d = Some c ->
  reason_well_typed d = true ->
  exists reason,
    shorten_reason (field d "reason" PNone) = Returned reason
    /\ decide (Some response)
       = Returned
           (if truthy (field d "should_reply" PNone)
               && fle AUTO_DEBATE_CONFIDENCE_THRESHOLD c
            then (true, reason) else (false, PNone)).
Proof.
  intros Hresp Hjson Hd Hconf Hreason.
  rewrite (shorten_reason_well_typed d Hreason).
  eexists. split; [reflexivity|].
  unfold decide. destruct response as [|ch response]; [contradiction|].
  cbn [opt_truthy str_truthy negb or_empty].
  unfold _parse_json_response. rewrite Hjson.
  assert (Htruthy : truthy (PDict d) = true) by (destruct d; [contradiction|reflexivity]).
  rewrite Htruthy, (structured_reading_confidence d c Hconf). cbn [bind].
  rewrite (shorten_reason_well_typed d Hreason). cbn [bind].
  now destruct (_ && _).
Qed.






(** ** The lexical reading *)

(** What [decide] makes of an answer [json.loads] rejects or decodes to a
    falsy value. *)
Lemma decide_falsy_json (response : pystr) :
  response <> [] ->
  (json_loads response = None
   \/ exists v, json_loads response = Some v /\ truthy v = false) ->
  decide (Some response) = lexical_decision response.
Proof.
  intros Hresp Hparse.
  unfold decide. destruct response as [|ch response]; [contradiction|].
  cbn [opt_truthy str_truthy negb or_empty].
  set (raw := ch :: response) in *.
  assert (Hreading :
            match _parse_json_response raw with
            | Some v => if truthy v then structured_reading v
                        else Returned (heuristic_reading raw)
            | None => Returned (heuristic_reading raw)
            end = Returned (heuristic_reading raw)).
  { unfold _parse_json_response.
    destruct Hparse as [-> | (v & -> & ->)]; reflexivity. }
  rewrite Hreading. unfold heuristic_reading, lexical_decision. cbn [bind].
  destruct (contains (str "true") (lower raw) || contains (str "yes") (lower raw)).
  - destruct (shorten_reason (PStr (strip raw))); reflexivity.
  - reflexivity.
Qed.

(** C9. When the gates pass and the model's answer is rejected by
    [json.loads], or decodes to a falsy value (the empty object, [null], [0],
    the empty string), [should_trigger_auto_debate] settles it by the lexical
    reading of the raw answer, a search for [true] or [yes] in its lower-case
    form, and not by the [should_reply] and [confidence] fields: the two kinds
    of answer are treated alike. *)
Theorem falsy_json_uses_lexical_reading
    (oracle : request -> option pystr)
    (chat_histories : gmap Z (list pystr)) (replies : gmap Z float)
    (now : float) (message : Message) (targets : option (list Target))
    (response : pystr) :
  early_gates_pass message ->
  in_cooldown replies (chat_id (chat message)) now = false ->
  (forall req, oracle req = Some response) ->
  response <> [] ->
  (json_loads response = None
   \/ exists v, json_loads response = Some v /\ truthy v = false) ->
  run_task oracle
    (should_trigger_auto_debate chat_histories replies now message targets)
  = lexical_decision response.
Proof.
  intros Hgates Hcool Horacle Hresp Hparse.
  destruct (should_trigger_asks_oracle chat_histories replies now message targets
              Hgates Hcool) as [req ->].
  cbn [run_task]. rewrite Horacle.
  now apply decide_falsy_json.
Qed.

(** ** Whitespace *)

Lemma lstrip_length (s : pystr) : (List.length (lstrip s) <= List.length s)%nat.
Proof.
  induction s as [|c s IH]; simpl; [lia|].
  destruct (isspace c); simpl; lia.
Qed.

Lemma rstrip_length (s : pystr) : (List.length (rstrip s) <= List.length s)%nat.
Proof.
  unfold rstrip. rewrite List.length_rev.
  pose proof (lstrip_length (rev s)) as Hle. now rewrite List.length_rev in Hle.
Qed.

Lemma lstrip_head (s : pystr) :
  lstrip s = [] \/ exists c t, lstrip s = c :: t /\ isspace c = false.
Proof.
  induction s as [|c s IH]; simpl; [now left|].
  destruct (isspace c) eqn:Hc; [exact IH|].
  right. now exists c, s.
Qed.

Lemma lstrip_snoc (s : pystr) (c : codepoint) :
  isspace c = false -> lstrip (s ++ [c]) = lstrip s ++ [c].
Proof.
  intros Hc. induction s as [|x s IH]; simpl.
  - now rewrite Hc.
  - now destruct (isspace x).
Qed.

Lemma rstrip_cons (c : codepoint) (s : pystr) :
  isspace c = false -> rstrip (c :: s) = c :: rstrip s.
Proof.
  intros Hc. unfold rstrip. simpl.
  rewrite (lstrip_snoc _ _ Hc), List.rev_app_distr. reflexivity.
Qed.

Lemma lstrip_idem (s : pystr) : lstrip (lstrip s) = lstrip s.
Proof.
  induction s as [|c s IH]; simpl; [reflexivity|].
  destruct (isspace c) eqn:Hc; [exact IH|].
  simpl. now rewrite Hc.
Qed.

Lemma rstrip_idem (s : pystr) : rstrip (rstrip s) = rstrip s.
Proof.
  unfold rstrip. now rewrite List.rev_involutive, lstrip_idem.
Qed.

Lemma strip_idem (s : pystr) : strip (strip s) = strip s.
Proof.
  unfold strip.
  destruct (lstrip_head s) as [-> | (c & t & -> & Hc)]; [reflexivity|].
  rewrite (rstrip_cons _ _ Hc). simpl. rewrite Hc.
  now rewrite (rstrip_cons _ _ Hc), rstrip_idem.
Qed.

(** ** The returned reason *)

Lemma cut_reason_strip (s : pystr) : cut_reason (strip s) = cut_reason s.
Proof. unfold cut_reason. now rewrite strip_idem. Qed.

(** What [shorten_reason] makes of a string, for a cap that is not negative. *)
Lemma shorten_reason_str (s : pystr) :
  0 <= AUTO_DEBATE_REASON_MAX_CHARS ->
  shorten_reason (PStr s) = Returned (PStr (cut_reason s)) \/
  (s = [] /\ shorten_reason (PStr s) = Returned (PStr [])).
Proof.
  intros Hcap. destruct s as [|c s]; [right; now split|].
  left. unfold shorten_reason, cut_reason. cbn [truthy str_truthy].
  now destruct (_ <? _).
Qed.

Lemma cut_reason_nil :
  0 <= AUTO_DEBATE_REASON_MAX_CHARS -> cut_reason [] = [].
Proof.
  intros Hcap. unfold cut_reason.
  change (strip []) with (@nil codepoint). change (len (@nil codepoint)) with 0.
  destruct (Z.ltb_spec AUTO_DEBATE_REASON_MAX_CHARS 0); [lia | reflexivity].
Qed.

Lemma shorten_reason_returns_str (v : pyval) (r : pystr) :
  0 <= AUTO_DEBATE_REASON_MAX_CHARS ->
  shorten_reason v = Returned (PStr r) ->
  exists s, v = PStr s /\ r = cut_reason s.
Proof.
  intros Hcap Hv.
  destruct v as [| b | z | f | s | l | d].
  - discriminate.
  - unfold shorten_reason in Hv. destruct (truthy (PBool b)); discriminate.
  - unfold shorten_reason in Hv. destruct (truthy (PInt z)); discriminate.
  - unfold shorten_reason in Hv. destruct (truthy (PFloat f)); discriminate.
  - exists s. split; [reflexivity|].
    destruct (shorten_reason_str s Hcap) as [Heq | [-> Heq]];
      rewrite Heq in Hv; injection Hv as <-; [reflexivity|].
    now rewrite cut_reason_nil.
  - unfold shorten_reason in Hv. destruct (truthy (PList l)); discriminate.
  - unfold shorten_reason in Hv. destruct (truthy (PDict d)); discriminate.
Qed.

(** The reason [decide] returns, when it is a string. *)
Lemma decide_reason_is_cut (response : pystr) (flag : bool) (r : pystr) :
  0 <= AUTO_DEBATE_REASON_MAX_CHARS ->
  decide (Some response) = Returned (flag, PStr r) ->
  exists s,
    supplied_reason response = Some s
    /\ (AUTO_DEBATE_REASON_MAX_CHARS < len (strip s) ->
        r = rstrip (firstn (Z.to_nat AUTO_DEBATE_REASON_MAX_CHARS) (strip s))
            ++ ellipsis
        /\ len r <= AUTO_DEBATE_REASON_MAX_CHARS + 1)
    /\ (len (strip s) <= AUTO_DEBATE_REASON_MAX_CHARS -> r = strip s).
Proof.
  intros Hcap Hdecide.
  assert (Hshape : forall s, r = cut_reason s ->
            (AUTO_DEBATE_REASON_MAX_CHARS < len (strip s) ->
             r = rstrip (firstn (Z.to_nat AUTO_DEBATE_REASON_MAX_CHARS) (strip s))
                 ++ ellipsis
             /\ len r <= AUTO_DEBATE_REASON_MAX_CHARS + 1)
            /\ (len (strip s) <= AUTO_DEBATE_REASON_MAX_CHARS -> r = strip s)).
  { intros s ->. unfold cut_reason, slice_to.
    destruct (Z.leb_spec 0 AUTO_DEBATE_REASON_MAX_CHARS); [|lia].
    destruct (Z.ltb_spec AUTO_DEBATE_REASON_MAX_CHARS (len (strip s))).
    - split; [|lia]. intros _. split; [reflexivity|].
      unfold len. rewrite List.length_app. simpl.
      pose proof (rstrip_length
                    (firstn (Z.to_nat AUTO_DEBATE_REASON_MAX_CHARS) (strip s))) as Hle.
      rewrite List.length_firstn in Hle. lia.
    - split; [lia | reflexivity]. }
  unfold decide in Hdecide. destruct response as [|ch response]; [discriminate|].
  cbn [opt_truthy str_truthy negb or_empty] in Hdecide.
  set (raw := ch :: response) in *.
  unfold supplied_reason. unfold _parse_json_response in Hdecide.
  assert (Hlex : bind (Returned (heuristic_reading raw))
                   (fun '(should_reply, confidence, reason) =>
                      bind (shorten_reason reason) (fun reason =>
                      if should_reply && fle AUTO_DEBATE_CONFIDENCE_THRESHOLD confidence
                      then Returned (true, reason)
                      else Returned (false, PNone)))
                 = Returned (flag, PStr r) ->
                 r = cut_reason raw).
  { unfold heuristic_reading. cbn [bind].
    destruct (contains _ _ || contains _ _); cbn [andb].
    - destruct (shorten_reason (PStr (strip raw))) as [v|e] eqn:Hv; cbn [bind];
        [|discriminate].
      destruct (fle _ _); [|discriminate].
      intros [= <- ->].
      destruct (shorten_reason_returns_str _ _ Hcap Hv) as (s & [= <-] & ->).
      apply cut_reason_strip.
    - cbn [shorten_reason truthy bind]. discriminate. }
  destruct (json_loads raw) as [v|]; [|exists raw; split; [reflexivity|now apply Hshape, Hlex]].
  destruct (truthy v) eqn:Htruthy.
  2:{ exists raw. split; [|now apply Hshape, Hlex].
      destruct v as [| | | | | |[|kv d]]; try reflexivity. discriminate. }
  destruct v as [| b | z | f | s | l | d]; try discriminate Hdecide.
  destruct d as [|kv d]; [discriminate|].
  rewrite structured_reading_dict in Hdecide.
  destruct (match py_float _ with Returned f => _ | Raised e => _ end) as [c|e];
    [|discriminate]. cbn [bind] in Hdecide.
  destruct (shorten_reason (field (kv :: d) "reason" PNone)) as [v|e] eqn:Hv;
    [|discriminate]. cbn [bind] in Hdecide.
  destruct (_ && _); [|discriminate]. injection Hdecide as <- ->.
  destruct (shorten_reason_returns_str _ _ Hcap Hv) as (s & Hfield & ->).
  exists s. rewrite Hfield. split; [reflexivity | now apply Hshape].
Qed.

(** C8, as the code has it. A string reason returned by
    [should_trigger_auto_debate] is the reason the model supplied, stripped of
    surrounding white space; when the stripped text is longer than
    [AUTO_DEBATE_REASON_MAX_CHARS] it is cut to its first
    [AUTO_DEBATE_REASON_MAX_CHARS] characters, trailing white space of the cut
    is dropped and the ellipsis is appended, so the result ends with the
    ellipsis and has at most [AUTO_DEBATE_REASON_MAX_CHARS + 1] characters;
    otherwise the stripped text is returned as it is. *)
Theorem returned_reason_is_cut
    (oracle : request -> option pystr)
    (chat_histories : gmap Z (list pystr)) (replies : gmap Z float)
    (now : float) (message : Message) (targets : option (list Target))
    (flag : bool) (r : pystr) :
  0 <= AUTO_DEBATE_REASON_MAX_CHARS ->
  run_task oracle
    (should_trigger_auto_debate chat_histories replies now message targets)
  = Returned (flag, PStr r) ->
  exists req response s,
    oracle req = Some response
    /\ supplied_reason response = Some s
    /\ (AUTO_DEBATE_REASON_MAX_CHARS < len (strip s) ->
        r = rstrip (firstn (Z.to_nat AUTO_DEBATE_REASON_MAX_CHARS) (strip s))
            ++ ellipsis
        /\ len r <= AUTO_DEBATE_REASON_MAX_CHARS + 1)
    /\ (len (strip s) <= AUTO_DEBATE_REASON_MAX_CHARS -> r = strip s).
Proof.
  intros Hcap Hrun.
  destruct (should_trigger_cases chat_histories replies now message targets)
    as [Hdone | [req Hask]].
  - rewrite Hdone in Hrun. discriminate.
  - rewrite Hask in Hrun. cbn [run_task] in Hrun.
    destruct (oracle req) as [response|] eqn:Horacle; [|discriminate].
    destruct (decide_reason_is_cut response flag r Hcap Hrun) as (s & Hs & Hcut).
    exists req, response, s. repeat split; try assumption; apply Hcut; assumption.
Qed.

(** ** Confidence that cannot be read *)

Lemma fle_zero_false (threshold : float) :
  flt fzero threshold = true -> fle threshold fzero = false.
Proof.
  unfold flt, fle, SFltb, SFleb, fzero.
  destruct threshold as [s | [] | | [] m e]; simpl; congruence.
Qed.

(** A confidence that is missing, or on which [float] raises [TypeError] or
    [ValueError], is read as [0.0] and never triggers under a positive
    threshold; a string [float] accepts is read as that number. *)
Lemma unreadable_confidence_never_triggers
    (response : pystr) (d : list (pystr * pyval)) :
  response <> [] ->
  json_loads response = Some (PDict d) ->
  d <> [] ->
  reason_well_typed d = true ->
  flt fzero AUTO_DEBATE_CONFIDENCE_THRESHOLD = true ->
  (assoc (str "confidence") d = None
   \/ py_float (field d "confidence" (PInt 0)) = Raised TypeError
   \/ py_float (field d "confidence" (PInt 0)) = Raised ValueError) ->
  confidence_of d = Some fzero
  /\ decide (Some response) = Returned (false, PNone).
Proof.
  intros Hresp Hjson Hd Hreason Hpos Hconf.
  assert (Hc : confidence_of d = Some fzero).
  { unfold confidence_of. destruct Hconf as [Hmiss | [-> | ->]]; try reflexivity.
    unfold field. now rewrite Hmiss. }
  split; [exact Hc|].
  destruct (decide_structured response d fzero Hresp Hjson Hd Hc Hreason)
    as (reason & _ & ->).
  now rewrite (fle_zero_false _ Hpos), Bool.andb_false_r.
Qed.

Lemma numeric_string_confidence (d : list (pystr * pyval)) (s : pystr) (f : float) :
  assoc (str "confidence") d = Some (PStr s) ->
  float_of_str s = Some f ->
  confidence_of d = Some f.
Proof.
  intros Hfield Hfloat. unfold confidence_of, field. rewrite Hfield.
  cbn [py_float]. now rewrite Hfloat.
Qed.

End DebateFacts.

(* ===================================================================== *)
(** * Properties of fact extraction and the fallback notes *)
(* ===================================================================== *)

Section MemoryFacts.
Import Memory Vocabulary.
Context `{cfg : Settings} `{rt : Runtime}.

Lemma run_task_bind {A B} (oracle : request -> option pystr)
    (t : Task A) (f : A -> Task B) :
  run_task oracle (task_bind t f) = run_task oracle (f (run_task oracle t)).
Proof.
  induction t as [a | req k IH]; simpl; [reflexivity|]. apply IH.
Qed.

(** An answer that decodes to a JSON array makes [extract_memory_facts]
    raise: [parsed.get("user_facts")] is outside the [isinstance] guard. *)
Lemma facts_of_response_array (response : pystr) (l : list pyval) :
  response <> [] ->
  json_loads response = Some (PList l) ->
  facts_of_response (Some response) = Raised AttributeError.
Proof.
  intros Hresp Hjson. unfold facts_of_response.
  destruct response as [|c response]; [contradiction|].
  cbn [opt_truthy str_truthy negb or_empty]. now rewrite Hjson.
Qed.

(** ** The fallback notes *)

Lemma fallback_note_truthy (author_name summary : pystr) (t : Target) :
  str_truthy (fallback_note author_name summary t) = true.
Proof.
  unfold fallback_note.
  assert (Hlit : exists c rest, str " обычно заводит тему '" = c :: rest)
    by (vm_compute; eauto).
  destruct Hlit as (c & rest & ->). now destruct author_name.
Qed.

Lemma add_chat_memory_user_memories (db : Database.t) (chat_id : Z)
    (message_id author_id : option Z) (author_name : option pystr) (summary : pystr) :
  Database.user_memories
    (Database.add_chat_memory db chat_id message_id author_id author_name summary)
  = Database.user_memories db
  /\ Database.user_memories_seq
       (Database.add_chat_memory db chat_id message_id author_id author_name summary)
     = Database.user_memories_seq db.
Proof.
  unfold Database.add_chat_memory. now destruct (negb (str_truthy summary)).
Qed.

(** The fallback loop appends one row per target that carries a user id. *)
Lemma store_fallback_rows (targets : list Target) (db : Database.t) (chat_id : Z)
    (author_id : option Z) (author_name summary : pystr) :
  Database.user_memories
    (store_fallback db chat_id author_id author_name summary targets)
  = Database.user_memories db
    ++ fallback_rows (Database.user_memories_seq db) chat_id author_id
         author_name summary (with_user_id targets).
Proof.
  revert db. induction targets as [|t targets IH]; intros db.
  - simpl. now rewrite List.app_nil_r.
  - unfold store_fallback in *. cbn [fold_left]. rewrite IH. clear IH.
    unfold with_user_id. cbn [List.filter].
    destruct (target_user_id t) as [i|] eqn:Hid; cbn [id_truthy]; [|reflexivity].
    destruct (Z.eqb_spec i 0) as [->|Hne]; cbn [negb]; [reflexivity|].
    unfold Database.add_user_memory. rewrite fallback_note_truthy.
    cbn [negb Database.user_memories Database.user_memories_seq fallback_rows].
    rewrite Hid, <- List.app_assoc. reflexivity.
Qed.

Lemma fallback_rows_length (seq chat_id : Z) (author_id : option Z)
    (author_name summary : pystr) (targets : list Target) :
  List.length (fallback_rows seq chat_id author_id author_name summary targets)
  = List.length targets.
Proof.
  revert seq. induction targets as [|t targets IH]; intros seq; simpl;
    [reflexivity | now rewrite IH].
Qed.

(** Each row of the fallback is filed under its target's user id in the
    conversation of the message, comes from the author, and holds the note
    cut to [CHAT_MEMORY_MESSAGE_CHAR_LIMIT]; the note ends with the target's
    name, else with [@username], else with a generic phrase. *)
Lemma fallback_rows_recorded (targets : list Target) (seq chat_id : Z)
    (author_id : option Z) (author_name summary : pystr) :
  Forall (fun t => id_truthy (target_user_id t) = true) targets ->
  Forall2
    (fun t row =>
       target_user_id t = Some (Database.um_subject_user_id row)
       /\ Database.um_subject_user_id row <> 0
       /\ Database.um_chat_id row = chat_id
       /\ Database.um_source_user_id row = author_id
       /\ exists ending,
            Database.um_note row
            = slice_to CHAT_MEMORY_MESSAGE_CHAR_LIMIT
                (author_name ++ str " обычно заводит тему '" ++ summary
                 ++ str "' когда общается с " ++ ending)
            /\ (if opt_truthy (target_name t) then target_name t = Some ending
                else if opt_truthy (target_username t)
                     then exists u,
                            target_username t = Some u /\ ending = str "@" ++ u
                     else ending = str "этот пользователь"))
    targets
    (fallback_rows seq chat_id author_id author_name summary targets).
Proof.
  intros Hids. revert seq.
  induction Hids as [|t targets Ht _ IH]; intros seq; cbn [fallback_rows];
    constructor; [|apply IH].
  cbn [Database.um_subject_user_id Database.um_chat_id Database.um_source_user_id
       Database.um_note].
  destruct (target_user_id t) as [i|]; [|discriminate].
  cbn [id_truthy] in Ht. apply Bool.negb_true_iff in Ht.
  split; [reflexivity|]. split; [now apply Z.eqb_neq|].
  split; [reflexivity|]. split; [reflexivity|].
  exists (target_display t). split; [reflexivity|].
  unfold target_display.
  destruct (target_name t) as [name|]; cbn [opt_truthy or_empty].
  - destruct (str_truthy name); [reflexivity|].
    destruct (target_username t) as [u|]; cbn [opt_truthy or_empty];
      [|reflexivity].
    destruct (str_truthy u); [now exists u | reflexivity].
  - destruct (target_username t) as [u|]; cbn [opt_truthy or_empty];
      [|reflexivity].
    destruct (str_truthy u); [now exists u | reflexivity].
Qed.

(** C5, as the code has it. When the message has text and the extraction
    yields no chat fact and no user fact, [store_structured_memories]
    returns; in a group or supergroup conversation it appends to
    [user_memories] exactly one row per supplied target whose [user_id] is
    truthy, in the order of the targets, and none for the other targets:
    the row is filed under that target's user id in the conversation of the
    message, comes from the author, and holds the fallback note cut to
    [CHAT_MEMORY_MESSAGE_CHAR_LIMIT], a note that ends with the target's
    name, else with [@username], else with a generic phrase. With no target
    nothing is appended, and in any other kind of conversation the database
    is left as it was. *)
Theorem fallback_note_per_target_with_id
    (oracle : request -> option pystr) (db : Database.t) (message : Message)
    (targets : list Target) :
  opt_truthy (opt_or (text message) (caption message)) = true ->
  run_task oracle (extract_memory_facts message targets) = Returned ([], []) ->
  let result := run_task oracle (store_structured_memories db message targets) in
  let group :=
    str_eqb (chat_type (chat message)) (str "group")
    || str_eqb (chat_type (chat message)) (str "supergroup") in
  let author_id := option_map user_id (from_user message) in
  let author_name := get_display_name (from_user message) in
  let summary := summarize_message_text message in
  let notes :=
    fallback_rows (Database.user_memories_seq db) (chat_id (chat message))
      author_id author_name summary (with_user_id targets) in
  snd result = Returned tt
  /\ (group = true ->
      Database.user_memories (fst result) = Database.user_memories db ++ notes
      /\ List.length notes = List.length (with_user_id targets)
      /\ Forall2
           (fun t row =>
              target_user_id t = Some (Database.um_subject_user_id row)
              /\ Database.um_subject_user_id row <> 0
              /\ Database.um_chat_id row = chat_id (chat message)
              /\ Database.um_source_user_id row = author_id
              /\ exists ending,
                   Database.um_note row
                   = slice_to CHAT_MEMORY_MESSAGE_CHAR_LIMIT
                       (author_name ++ str " обычно заводит тему '" ++ summary
                        ++ str "' когда общается с " ++ ending)
                   /\ (if opt_truthy (target_name t)
                       then target_name t = Some ending
                       else if opt_truthy (target_username t)
                            then exists u,
                                   target_username t = Some u
                                   /\ ending = str "@" ++ u
                            else ending = str "этот пользователь"))
           (with_user_id targets) notes
      /\ (targets = [] ->
          Database.user_memories (fst result) = Database.user_memories db))
  /\ (group = false -> fst result = db).
Proof.
  intros Htext Hextract. cbv zeta.
  unfold store_structured_memories.
  destruct (str_eqb (chat_type (chat message)) (str "group")
            || str_eqb (chat_type (chat message)) (str "supergroup")) eqn:Hgroup;
    cbn [negb].
  2: { split; [reflexivity|]. split; [discriminate | reflexivity]. }
  rewrite run_task_bind, Hextract. cbn [run_task fst snd].
  unfold store_facts. cbn [fold_left]. rewrite Htext.
  change (len (@nil pystr) =? 0) with true.
  change (len (@nil (Z * list pystr)) =? 0) with true. cbn [andb].
  set (db0 := Database.add_chat_memory db _ _ _ _ _).
  destruct (add_chat_memory_user_memories db (chat_id (chat message))
              (Some (message_id message)) (option_map user_id (from_user message))
              (Some (get_display_name (from_user message)))
              (summarize_message_text message)) as [Hrows Hseq].
  fold db0 in Hrows, Hseq. clearbody db0.
  assert (Hall :
    Database.user_memories
      (if negb (len targets =? 0) && true
       then store_fallback db0 (chat_id (chat message))
              (option_map user_id (from_user message))
              (get_display_name (from_user message))
              (summarize_message_text message) targets
       else db0)
    = Database.user_memories db
      ++ fallback_rows (Database.user_memories_seq db) (chat_id (chat message))
           (option_map user_id (from_user message))
           (get_display_name (from_user message))
           (summarize_message_text message) (with_user_id targets)).
  { destruct targets as [|t targets].
    - change (negb (len (@nil Target) =? 0) && true) with false.
      cbn. now rewrite Hrows, List.app_nil_r.
    - change (negb (len (t :: targets) =? 0) && true) with true.
      cbv iota. now rewrite store_fallback_rows, Hrows, Hseq. }
  split; [reflexivity|]. split; [|discriminate].
  intros _. split; [exact Hall|].
  split; [apply fallback_rows_length|]. split.
  - apply fallback_rows_recorded. apply List.Forall_forall.
    intros t Ht. unfold with_user_id in Ht.
    now apply List.filter_In in Ht as [_ Ht].
  - intros ->. rewrite Hall. cbn. now rewrite List.app_nil_r.
Qed.

End MemoryFacts.

(* ===================================================================== *)
(** * The properties on concrete inputs *)
(* ===================================================================== *)

Section Instances.
Import Database Memory Debate Vocabulary Examples.

(** ** Memory store *)

Lemma get_chat_memories_most_recent_witness :
  0 <= @CHAT_MEMORY_DB_LIMIT settings
  /\ (let rows :=
        get_chat_memories (@run_calls settings init_db five_calls) 100
          (@CHAT_MEMORY_DB_LIMIT settings) in
      len rows <= @CHAT_MEMORY_DB_LIMIT settings
      /\ rows = firstn (Z.to_nat (@CHAT_MEMORY_DB_LIMIT settings))
                  (rev (@inserted_summaries settings 100 five_calls))).
Proof.
  assert (Hcap : 0 <= @CHAT_MEMORY_DB_LIMIT settings) by (vm_compute; discriminate).
  split; [exact Hcap|].
  exact (@get_chat_memories_most_recent settings Hcap five_calls 100).
Defined.

Example get_chat_memories_after_five_calls :
  get_chat_memories (@run_calls settings init_db five_calls) 100 2
  = [str "c"; str "b"]
  /\ get_chat_memories (@run_calls settings init_db five_calls) 200 2 = [str "x"].
Proof. split; vm_compute; reflexivity. Qed.

(** ** Varied sampler *)

Lemma choose_varied_entries_identity_and_recency_witness :
  (3 <= 0 \/ len [10; 20; 30] <= 3)
  /\ @choose_varied_entries settings Z draws [10; 20; 30] 3 = [10; 20; 30]
  /\ 3 < len [10; 20; 30; 40; 50]
  /\ exists older,
       @choose_varied_entries settings Z draws [10; 20; 30; 40; 50] 3
       = firstn (Z.to_nat (@MEMORY_MIN_RECENT_SHARE settings)) [10; 20; 30; 40; 50]
         ++ older.
Proof.
  assert (Hshort : 3 <= 0 \/ len [10; 20; 30] <= 3)
    by (right; vm_compute; discriminate).
  assert (Hlong : 3 < len [10; 20; 30; 40; 50]) by (vm_compute; reflexivity).
  split; [exact Hshort|]. split.
  - exact (proj1 (proj1 (@choose_varied_entries_identity_and_recency Z settings
                           draws draws [10; 20; 30] 3) Hshort)).
  - split; [exact Hlong|].
    exact (proj2 (@choose_varied_entries_identity_and_recency Z settings
                    draws draws [10; 20; 30; 40; 50] 3) Hlong).
Defined.

Example choose_varied_entries_of_five :
  @choose_varied_entries settings Z draws [10; 20; 30; 40; 50] 3 = [10; 20; 40].
Proof. vm_compute. reflexivity. Qed.

(** With [MEMORY_MIN_RECENT_SHARE = 2] and a limit of 1 the result has two
    elements, not one. *)
Lemma choose_varied_entries_exceeds_limit :
  0 < 1 < len [10; 20; 30]
  /\ @choose_varied_entries settings Z draws [10; 20; 30] 1 = [10; 20]
  /\ len (@choose_varied_entries settings Z draws [10; 20; 30] 1) <> 1.
Proof.
  split; [split; vm_compute; reflexivity|].
  split; [vm_compute; reflexivity | vm_compute; discriminate].
Qed.

Lemma choose_varied_entries_shape_witness :
  0 < 4 < len [10; 20; 30; 40; 50; 60]
  /\ exists sampled rest,
       @choose_varied_entries settings Z draws [10; 20; 30; 40; 50; 60] 4
       = [10; 20] ++ sampled
       /\ sampled ++ rest ≡ₚ [30; 40; 50; 60]
       /\ len sampled = 2
       /\ len (@choose_varied_entries settings Z draws [10; 20; 30; 40; 50; 60] 4) = 4.
Proof.
  assert (Hlim : 0 < 4 < len [10; 20; 30; 40; 50; 60])
    by (split; vm_compute; reflexivity).
  split; [exact Hlim|].
  destruct (@choose_varied_entries_shape Z settings draws
              [10; 20; 30; 40; 50; 60] 4 Hlim)
    as (sampled & rest & Heq & Hperm & _ & Hlen & _ & Hexact).
  exists sampled, rest. split; [exact Heq|]. split; [exact Hperm|].
  split; [exact Hlen|]. apply Hexact. vm_compute. discriminate.
Defined.

(** ** Auto-debate *)

Lemma cooldown_rejects_without_oracle_witness :
  float_truthy marked_at = true
  /\ flt (fsub ten_seconds_later marked_at) (@AUTO_DEBATE_COOLDOWN settings) = true
  /\ (let replies' :=
        mark_auto_debate_reply ∅ marked_at (chat_id (chat (message "that is nonsense"))) in
      in_cooldown (cfg := settings) replies'
        (chat_id (chat (message "that is nonsense"))) ten_seconds_later = true
      /\ should_trigger_auto_debate (cfg := settings) (rt := Reference.runtime)
           ∅ replies' ten_seconds_later (message "that is nonsense") None
         = Done (Returned (false, PNone))).
Proof.
  assert (Ht : float_truthy marked_at = true) by reflexivity.
  assert (Hnear : flt (fsub ten_seconds_later marked_at)
                    (@AUTO_DEBATE_COOLDOWN settings) = true)
    by (vm_compute; reflexivity).
  split; [exact Ht|]. split; [exact Hnear|].
  exact (@cooldown_rejects_without_oracle settings Reference.runtime ∅ ∅
           marked_at ten_seconds_later (message "that is nonsense") None Ht Hnear).
Defined.

(** Two qualifying messages ten seconds apart under a cooldown of 60 seconds,
    the model affirming both with confidence 0.9: the first triggers after one
    request; once the caller has marked the reply, the second is rejected
    with no request sent. *)
Example second_of_two_messages_is_rejected :
  let oracle := answering_json
                  "{'should_reply': true, 'confidence': 0.9, 'reason': '- bad'}" in
  let first :=
    should_trigger_auto_debate (cfg := settings) (rt := Reference.runtime)
      ∅ ∅ marked_at (message "that is nonsense") None in
  let second :=
    should_trigger_auto_debate (cfg := settings) (rt := Reference.runtime)
      ∅ (mark_auto_debate_reply ∅ marked_at 100) ten_seconds_later
      (message "that is nonsense") None in
  run_task oracle first = Returned (true, PStr (str "- bad"))
  /\ calls_made oracle first = 1%nat
  /\ run_task oracle second = Returned (false, PNone)
  /\ calls_made oracle second = 0%nat.
Proof. repeat split; vm_compute; reflexivity. Qed.



(** The same answer with confidence 0.9 triggers. *)
Example confident_answer_triggers :
  run_task (answering_json "{'should_reply': true, 'confidence': 0.9}")
    (should_trigger_auto_debate (cfg := settings) (rt := Reference.runtime)
       ∅ ∅ marked_at (message "that is nonsense") None)
  = Returned (true, PNone).
Proof. vm_compute. reflexivity. Qed.

Lemma falsy_json_uses_lexical_reading_witness :
  let msg := message "that is nonsense" in
  let asked (text : string) :=
    run_task (answering_json text)
      (should_trigger_auto_debate (cfg := settings) (rt := Reference.runtime)
         ∅ ∅ marked_at msg None) in
  let lexical (text : string) :=
    lexical_decision (cfg := settings) (rt := Reference.runtime) (json text) in
  early_gates_pass (cfg := settings) msg
  /\ in_cooldown (cfg := settings) ∅ (chat_id (chat msg)) marked_at = false
  /\ (forall req, answering_json "{}" req = Some (json "{}"))
  /\ json "{}" <> []
  /\ (exists v, Reference.loads (json "{}") = Some v /\ truthy v = false)
  /\ asked "{}"%string = lexical "{}"%string
  /\ asked "null"%string = lexical "null"%string
  /\ asked "0"%string = lexical "0"%string
  /\ asked "''"%string = lexical "''"%string.
Proof.
  cbv zeta.
  assert (Hgates : early_gates_pass (cfg := settings) (message "that is nonsense")).
  { split; [reflexivity|]. split; [exists ann; split; reflexivity|].
    vm_compute. discriminate. }
  assert (Hcool : in_cooldown (cfg := settings) ∅
                    (chat_id (chat (message "that is nonsense"))) marked_at = false)
    by reflexivity.
  assert (Hfalsy : forall text,
            json text <> [] ->
            (exists v, Reference.loads (json text) = Some v /\ truthy v = false) ->
            run_task (answering_json text)
              (should_trigger_auto_debate (cfg := settings) (rt := Reference.runtime)
                 ∅ ∅ marked_at (message "that is nonsense") None)
            = lexical_decision (cfg := settings) (rt := Reference.runtime) (json text)).
  { intros text Hne Hv.
    exact (@falsy_json_uses_lexical_reading settings Reference.runtime
             (answering_json text) ∅ ∅ marked_at (message "that is nonsense") None
             (json text) Hgates Hcool (fun _ => eq_refl) Hne (or_intror Hv)). }
  assert (Hne : json "{}" <> []) by (vm_compute; discriminate).
  assert (Hv : exists v, Reference.loads (json "{}") = Some v /\ truthy v = false)
    by (exists (PDict []); split; vm_compute; reflexivity).
  split; [exact Hgates|]. split; [exact Hcool|].
  split; [intros req; reflexivity|].
  split; [exact Hne|]. split; [exact Hv|].
  split; [exact (Hfalsy "{}"%string Hne Hv)|].
  split; [|split]; apply Hfalsy;
    first [ vm_compute; discriminate
          | eexists; split; vm_compute; reflexivity ].
Defined.

(** A falsy answer is not affirmative, an unparseable one that says [Yes] is. *)
Example lexical_reading_of_answers :
  decide (cfg := settings) (rt := Reference.runtime) (Some (json "{}"))
  = Returned (false, PNone)
  /\ decide (cfg := settings) (rt := Reference.runtime) (Some (str "Yes"))
     = Returned (true, PStr (str "Yes")).
Proof. split; vm_compute; reflexivity. Qed.

Lemma returned_reason_is_cut_witness :
  let oracle :=
    answering_json "{'should_reply': true, 'confidence': 0.9, 'reason': ' abcdefgh '}" in
  0 <= @AUTO_DEBATE_REASON_MAX_CHARS settings
  /\ run_task oracle
       (should_trigger_auto_debate (cfg := settings) (rt := Reference.runtime)
          ∅ ∅ marked_at (message "that is nonsense") None)
     = Returned (true, PStr (str "abcde…"))
  /\ exists req response s,
       oracle req = Some response
       /\ supplied_reason (rt := Reference.runtime) response = Some s
       /\ (@AUTO_DEBATE_REASON_MAX_CHARS settings < len (strip s) ->
           str "abcde…"
           = rstrip (firstn (Z.to_nat (@AUTO_DEBATE_REASON_MAX_CHARS settings))
                       (strip s)) ++ ellipsis
           /\ len (str "abcde…") <= @AUTO_DEBATE_REASON_MAX_CHARS settings + 1)
       /\ (len (strip s) <= @AUTO_DEBATE_REASON_MAX_CHARS settings ->
           str "abcde…" = strip s).
Proof.
  cbv zeta.
  assert (Hcap : 0 <= @AUTO_DEBATE_REASON_MAX_CHARS settings)
    by (vm_compute; discriminate).
  assert (Hrun :
            run_task
              (answering_json
                 "{'should_reply': true, 'confidence': 0.9, 'reason': ' abcdefgh '}")
              (should_trigger_auto_debate (cfg := settings) (rt := Reference.runtime)
                 ∅ ∅ marked_at (message "that is nonsense") None)
            = Returned (true, PStr (str "abcde…"))) by (vm_compute; reflexivity).
  split; [exact Hcap|]. split; [exact Hrun|].
  exact (@returned_reason_is_cut settings Reference.runtime _ ∅ ∅ marked_at
           (message "that is nonsense") None true (str "abcde…") Hcap Hrun).
Defined.

(** A reason of eight characters under a cap of five comes back with six
    characters, not five; a short reason with surrounding blanks comes back
    without them. *)
Lemma returned_reason_exceeds_cap :
  let asked (text : string) :=
    run_task (answering_json text)
      (should_trigger_auto_debate (cfg := settings) (rt := Reference.runtime)
         ∅ ∅ marked_at (message "that is nonsense") None) in
  @AUTO_DEBATE_REASON_MAX_CHARS settings = 5
  /\ asked "{'should_reply': true, 'confidence': 0.9, 'reason': 'abcdefgh'}"%string
     = Returned (true, PStr (str "abcde…"))
  /\ len (str "abcde…") <> @AUTO_DEBATE_REASON_MAX_CHARS settings
  /\ asked "{'should_reply': true, 'confidence': 0.9, 'reason': ' hi '}"%string
     = Returned (true, PStr (str "hi"))
  /\ str "hi" <> str " hi ".
Proof.
  cbv zeta.
  split; [reflexivity|].
  split; [vm_compute; reflexivity|].
  split; [vm_compute; discriminate|].
  split; [vm_compute; reflexivity | vm_compute; discriminate].
Qed.

(** C10. A confidence that is an integer beyond the range of a float is not
    read as [0.0]: [float] raises [OverflowError], the handler catches only
    [TypeError] and [ValueError], and the call ends with the exception
    instead of [(False, None)]. *)
Theorem confidence_overflow_escapes :
  Reference.loads huge_confidence_answer
  = Some (PDict [ (str "should_reply", PBool true);
                  (str "confidence", PInt (10 ^ 400)) ])
  /\ py_float (rt := Reference.runtime) (PInt (10 ^ 400)) = Raised OverflowError
  /\ run_task (fun _ => Some huge_confidence_answer)
       (should_trigger_auto_debate (cfg := settings) (rt := Reference.runtime)
          ∅ ∅ marked_at (message "that is nonsense") None)
     = Raised OverflowError.
Proof. repeat split; vm_compute; reflexivity. Qed.

(** The cases the handler does cover, and a numeric string. *)
Example confidence_readings :
  confidence_of (rt := Reference.runtime) [ (str "should_reply", PBool true) ]
  = Some fzero
  /\ confidence_of (rt := Reference.runtime) [ (str "confidence", PNone) ]
     = Some fzero
  /\ confidence_of (rt := Reference.runtime) [ (str "confidence", PStr (str "high")) ]
     = Some fzero
  /\ confidence_of (rt := Reference.runtime) [ (str "confidence", PStr (str "0.9")) ]
     = Some (float_of_decimal 9 (-1))
  /\ run_task (answering_json "{'should_reply': true, 'confidence': '0.9'}")
       (should_trigger_auto_debate (cfg := settings) (rt := Reference.runtime)
          ∅ ∅ marked_at (message "that is nonsense") None)
     = Returned (true, PNone)
  /\ run_task (answering_json "{'should_reply': true, 'confidence': null}")
       (should_trigger_auto_debate (cfg := settings) (rt := Reference.runtime)
          ∅ ∅ marked_at (message "that is nonsense") None)
     = Returned (false, PNone).
Proof. repeat split; vm_compute; reflexivity. Qed.

(** ** Fact extraction *)

(** C4. An answer that is a JSON array is not turned into empty results:
    [extract_memory_facts] raises [AttributeError] on it. *)
Theorem extract_memory_facts_array_raises :
  Reference.loads (json "[]") = Some (PList [])
  /\ run_task (answering_json "[]")
       (extract_memory_facts (cfg := settings) (rt := Reference.runtime)
          (message "hello") [bob])
     = Raised AttributeError
  /\ run_task (answering_json "['a fact']")
       (extract_memory_facts (cfg := settings) (rt := Reference.runtime)
          (message "hello") [bob])
     = Raised AttributeError.
Proof. repeat split; vm_compute; reflexivity. Qed.

(** Answers that are not JSON at all, and the empty object, give empty
    results. *)
Example extract_memory_facts_empty_results :
  run_task (answering_json "not json")
    (extract_memory_facts (cfg := settings) (rt := Reference.runtime)
       (message "hello") [bob])
  = Returned ([], [])
  /\ run_task (answering_json "{}")
       (extract_memory_facts (cfg := settings) (rt := Reference.runtime)
          (message "hello") [bob])
     = Returned ([], []).
Proof. split; vm_compute; reflexivity. Qed.

Lemma fallback_note_per_target_with_id_witness :
  let oracle := answering_json "{}" in
  let msg := message "hello" in
  let result :=
    run_task oracle
      (store_structured_memories (cfg := settings) (rt := Reference.runtime)
         init_db msg [bob; nameless]) in
  opt_truthy (opt_or (text msg) (caption msg)) = true
  /\ run_task oracle
       (extract_memory_facts (cfg := settings) (rt := Reference.runtime) msg
          [bob; nameless])
     = Returned ([], [])
  /\ (str_eqb (chat_type (chat msg)) (str "group")
      || str_eqb (chat_type (chat msg)) (str "supergroup") = true)
  /\ snd result = Returned tt
  /\ List.map (fun r => (um_subject_user_id r, um_source_user_id r, um_note r))
       (user_memories (fst result))
     = [ (7, Some 11, str "Ann обычно заводит тему 'hello' когда общается с Bob") ].
Proof.
  cbv zeta.
  assert (Htext : opt_truthy (opt_or (text (message "hello"))
                                (caption (message "hello"))) = true)
    by (vm_compute; reflexivity).
  assert (Hextract :
            run_task (answering_json "{}")
              (extract_memory_facts (cfg := settings) (rt := Reference.runtime)
                 (message "hello") [bob; nameless])
            = Returned ([], [])) by (vm_compute; reflexivity).
  assert (Hgroup : str_eqb (chat_type (chat (message "hello"))) (str "group")
                   || str_eqb (chat_type (chat (message "hello"))) (str "supergroup")
                   = true) by (vm_compute; reflexivity).
  repeat (split; [assumption|]).
  destruct (@fallback_note_per_target_with_id settings Reference.runtime
              (answering_json "{}") init_db (message "hello") [bob; nameless]
              Htext Hextract) as (Hout & Hin & _).
  split; [exact Hout|].
  destruct (Hin Hgroup) as (Hrows & _).
  rewrite Hrows. vm_compute. reflexivity.
Defined.

(** The same message in a private conversation: nothing is recorded. *)
Example private_conversation_records_nothing :
  let private :=
    {| chat := {| chat_id := 100; chat_type := str "private" |};
       from_user := Some ann; message_id := 1;
       text := Some (str "hello"); caption := None;
       content_type := str "text" |} in
  run_task (answering_json "{}")
    (store_structured_memories (cfg := settings) (rt := Reference.runtime)
       init_db private [bob])
  = (init_db, Returned tt).
Proof. vm_compute. reflexivity. Qed.

(** One target is supplied, but its dictionary has no [user_id]: no fallback
    note is recorded. One target is supplied with a user id and no name: the
    note recorded for it ends with a generic phrase and does not name it. *)
Lemma fallback_note_not_per_target :
  let oracle := answering_json "{}" in
  let notes (targets : list Target) :=
    List.map um_note
      (user_memories
         (fst (run_task oracle
                 (store_structured_memories (cfg := settings)
                    (rt := Reference.runtime) init_db (message "hello") targets)))) in
  run_task oracle
    (extract_memory_facts (cfg := settings) (rt := Reference.runtime)
       (message "hello") [nameless])
  = Returned ([], [])
  /\ opt_truthy (text (message "hello")) = true
  /\ List.length [nameless] = 1%nat
  /\ notes [nameless] = []
  /\ notes [id_only]
     = [str "Ann обычно заводит тему 'hello' когда общается с этот пользователь"].
Proof. cbv zeta. repeat split; vm_compute; reflexivity. Qed.

End Instances.

(* ===================================================================== *)
(** * Properties of the history ring, the capture gate and the context *)
(* ===================================================================== *)

Section CaptureFacts.
Import Database DatabaseInv Memory Debate Capture Vocabulary.
Context `{cfg : Settings} `{cap : CaptureSettings}.

(** ** The history ring *)

Lemma last_n_fits {A} (n : nat) (l : list A) :
  (List.length l <= n)%nat -> last_n n l = l.
Proof.
  intros Hle. unfold last_n.
  replace (List.length l - n)%nat with 0%nat by lia. reflexivity.
Qed.

Lemma last_n_bound {A} (n : nat) (l : list A) :
  (List.length (last_n n l) <= n)%nat.
Proof. unfold last_n. rewrite List.length_skipn. lia. Qed.

Lemma last_n_last_n {A} (a b : nat) (l : list A) :
  last_n a (last_n b l) = last_n (Nat.min a b) l.
Proof.
  unfold last_n. rewrite List.length_skipn, List.skipn_skipn. f_equal. lia.
Qed.

Lemma deque_append_last_n {A} (n : nat) (l : list A) (x : A) :
  deque_append (Z.of_nat n) (last_n n l) x = last_n n (l ++ [x]).
Proof.
  rewrite <- last_n_snoc. unfold deque_append.
  pose proof (last_n_bound n l) as Hb.
  set (d := last_n n l) in *. clearbody d.
  unfold len. rewrite List.length_app. simpl.
  destruct (Z.ltb_spec (Z.of_nat n) (Z.of_nat (List.length d + 1))) as [Hfull|Hroom].
  - unfold last_n. rewrite List.length_app. simpl.
    replace (List.length d + 1 - n)%nat with 1%nat by lia. reflexivity.
  - symmetry. apply last_n_fits. rewrite List.length_app. simpl. lia.
Qed.

Lemma logged_entries_snoc (c : Z) (messages : list Message) (m : Message) :
  logged_entries c (messages ++ [m])
  = logged_entries c messages ++
    match from_user m with
    | Some user =>
      if is_group m && (chat_id (chat m) =? c) then [history_entry m user] else []
    | None => []
    end.
Proof.
  unfold logged_entries. rewrite List.flat_map_app. simpl.
  now rewrite List.app_nil_r.
Qed.

Lemma store_chat_history_step (h : gmap Z (list pystr)) (messages : list Message)
    (m : Message) :
  0 <= CHAT_HISTORY_LIMIT ->
  ring_inv h messages ->
  exists h', store_chat_history h m = Returned h' /\ ring_inv h' (messages ++ [m]).
Proof.
  intros Hcap Hinv. unfold store_chat_history.
  destruct (is_group m) eqn:Hgroup; cbn [negb].
  2:{ exists h. split; [reflexivity|]. intros c.
      rewrite logged_entries_snoc, Hgroup. cbn [andb].
      destruct (from_user m); rewrite List.app_nil_r; apply Hinv. }
  destruct (from_user m) as [user|] eqn:Huser.
  2:{ exists h. split; [reflexivity|]. intros c.
      rewrite logged_entries_snoc, Huser, List.app_nil_r. apply Hinv. }
  destruct (Z.ltb_spec CHAT_HISTORY_LIMIT 0); [lia|].
  eexists. split; [reflexivity|]. intros c.
  rewrite logged_entries_snoc, Huser, Hgroup. cbn [andb].
  destruct (Z.eqb_spec (chat_id (chat m)) c) as [<-|Hne].
  - rewrite lookup_insert_eq. rewrite (Hinv (chat_id (chat m))).
    rewrite <- (Z2Nat.id CHAT_HISTORY_LIMIT) at 1 by assumption.
    apply deque_append_last_n.
  - rewrite lookup_insert_ne by assumption.
    rewrite List.app_nil_r. apply Hinv.
Qed.

Lemma store_all_inv (messages : list Message) :
  0 <= CHAT_HISTORY_LIMIT ->
  exists h, store_all ∅ messages = Returned h /\ ring_inv h messages.
Proof.
  intros Hcap. induction messages as [|m messages IH] using List.rev_ind.
  - exists ∅. split; [reflexivity|]. intros c. now rewrite lookup_empty.
  - destruct IH as (h & Hrun & Hinv).
    destruct (store_chat_history_step h messages m Hcap Hinv) as (h' & Hstep & Hinv').
    exists h'. split; [|exact Hinv'].
    unfold store_all in *. rewrite List.fold_left_app. cbn [fold_left].
    rewrite Hrun. exact Hstep.
Qed.

Lemma get_chat_history_entries_lookup (h : gmap Z (list pystr)) (c : Z) :
  get_chat_history_entries h c
  = match h !! c with Some history => history | None => [] end.
Proof.
  unfold get_chat_history_entries. now destruct (h !! c) as [[|x l]|].
Qed.

(** X1. After any sequence of messages passed to [store_chat_history],
    starting with no history, the history of a conversation is the last
    [CHAT_HISTORY_LIMIT] lines logged for it, oldest first: lines of group
    messages with a sender, in arrival order. It never holds more than
    [CHAT_HISTORY_LIMIT] lines. *)
Theorem store_chat_history_keeps_last (messages : list Message) :
  0 <= CHAT_HISTORY_LIMIT ->
  exists h,
    store_all ∅ messages = Returned h
    /\ forall c,
         get_chat_history_entries h c
         = last_n (Z.to_nat CHAT_HISTORY_LIMIT) (logged_entries c messages)
         /\ len (get_chat_history_entries h c) <= CHAT_HISTORY_LIMIT.
Proof.
  intros Hcap. destruct (store_all_inv messages Hcap) as (h & Hrun & Hinv).
  exists h. split; [exact Hrun|]. intros c.
  rewrite get_chat_history_entries_lookup, (Hinv c). split; [reflexivity|].
  pose proof (last_n_bound (Z.to_nat CHAT_HISTORY_LIMIT) (logged_entries c messages)).
  unfold len. lia.
Qed.

(** X2. The dialogue sent to the model after a sequence of stored messages:
    for a positive [AUTO_DEBATE_HISTORY_LIMIT] it is the last
    [min AUTO_DEBATE_HISTORY_LIMIT CHAT_HISTORY_LIMIT] logged lines of the
    conversation; for a limit of 0 the slice [history[-0:]] keeps the whole
    history. *)
Theorem dialogue_context_after_store (messages : list Message)
    (h : gmap Z (list pystr)) (c : Z) :
  0 <= CHAT_HISTORY_LIMIT ->
  store_all ∅ messages = Returned h ->
  (0 < AUTO_DEBATE_HISTORY_LIMIT ->
   _build_dialogue_context h c
   = last_n (Z.to_nat (Z.min AUTO_DEBATE_HISTORY_LIMIT CHAT_HISTORY_LIMIT))
       (logged_entries c messages))
  /\ (AUTO_DEBATE_HISTORY_LIMIT = 0 ->
      _build_dialogue_context h c
      = last_n (Z.to_nat CHAT_HISTORY_LIMIT) (logged_entries c messages)).
Proof.
  intros Hcap Hrun.
  destruct (store_all_inv messages Hcap) as (h' & Hrun' & Hinv).
  rewrite Hrun in Hrun'. injection Hrun' as <-.
  unfold _build_dialogue_context.
  rewrite get_chat_history_entries_lookup, (Hinv c).
  set (ring := last_n (Z.to_nat CHAT_HISTORY_LIMIT) (logged_entries c messages)).
  split.
  - intros Hpos. unfold slice_from.
    destruct (Z.leb_spec 0 (- AUTO_DEBATE_HISTORY_LIMIT)); [lia|].
    replace (Z.to_nat (len ring + - AUTO_DEBATE_HISTORY_LIMIT))
      with (List.length ring - Z.to_nat AUTO_DEBATE_HISTORY_LIMIT)%nat
      by (unfold len; lia).
    change (skipn (List.length ring - Z.to_nat AUTO_DEBATE_HISTORY_LIMIT) ring)
      with (last_n (Z.to_nat AUTO_DEBATE_HISTORY_LIMIT) ring).
    unfold ring. rewrite last_n_last_n. f_equal. lia.
  - intros ->. reflexivity.
Qed.

(** ** The sampler keeps to its input *)

(** X3. Whatever the limit and the random source, [choose_varied_entries]
    returns entries of its input, each at most as often as the input has it:
    together with the entries it leaves out, the result is a rearrangement of
    the input. *)
Theorem choose_varied_entries_rearranges {A} (draw : nat -> nat)
    (entries : list A) (limit : Z) :
  exists rest, choose_varied_entries draw entries limit ++ rest ≡ₚ entries.
Proof.
  destruct (Z.le_gt_cases limit 0) as [Hle|Hpos].
  { exists []. unfold choose_varied_entries.
    destruct (Z.leb_spec limit 0); [|lia]. now rewrite List.app_nil_r. }
  destruct (Z.le_gt_cases (len entries) limit) as [Hshort|Hlong].
  { exists []. unfold choose_varied_entries.
    destruct (Z.leb_spec limit 0); [lia|].
    destruct (Z.leb_spec (len entries) limit); [|lia]. now rewrite List.app_nil_r. }
  rewrite choose_varied_entries_unfold by lia. cbv zeta.
  set (block := recency_block entries limit).
  destruct (negb (len (skipn block entries) =? 0)
            && (0 <? limit - len (firstn block entries))).
  - destruct (random_sample_without_replacement draw
                (Z.to_nat (Z.min (limit - len (firstn block entries))
                             (len (skipn block entries))))
                0 (skipn block entries)) as [rest Hrest].
    { unfold len. lia. }
    exists rest. rewrite <- List.app_assoc, Hrest.
    now rewrite List.firstn_skipn.
  - exists (skipn block entries).
    now rewrite List.app_nil_r, List.firstn_skipn.
Qed.

(** ** User memories *)

Lemma inserted_notes_snoc (c subject : Z) (calls : list user_memory_call)
    (call : user_memory_call) :
  inserted_notes c subject (calls ++ [call])
  = inserted_notes c subject calls ++
    (if (ucall_chat_id call =? c) && (ucall_subject_user_id call =? subject)
        && str_truthy (ucall_note call)
     then [slice_to CHAT_MEMORY_MESSAGE_CHAR_LIMIT (ucall_note call)]
     else []).
Proof.
  unfold inserted_notes. rewrite List.filter_app, List.map_app. simpl.
  now destruct ((ucall_chat_id call =? c) && (ucall_subject_user_id call =? subject)
                && str_truthy (ucall_note call)).
Qed.

Lemma user_table_inv_step (db : Database.t) (calls : list user_memory_call)
    (call : user_memory_call) :
  user_table_inv db calls ->
  user_table_inv (apply_user_call db call) (calls ++ [call]).
Proof.
  intros (Hasc & Hseq & Hrows).
  unfold apply_user_call, add_user_memory.
  destruct (str_truthy (ucall_note call)) eqn:Hs; cbn [negb].
  - unfold user_table_inv. cbn [user_memories user_memories_seq].
    split; [|split].
    + apply ascending_snoc; [assumption|].
      eapply List.Forall_impl; [|exact Hseq]. cbn. intros; lia.
    + apply List.Forall_app. split.
      * eapply List.Forall_impl; [|exact Hseq]. cbn. intros; lia.
      * constructor; [cbn; lia | constructor].
    + intros c subject. rewrite inserted_notes_snoc, Hs, Bool.andb_true_r.
      rewrite List.filter_app, List.map_app, Hrows. cbn.
      now destruct ((ucall_chat_id call =? c)
                    && (ucall_subject_user_id call =? subject)).
  - repeat split; try assumption.
    intros c subject. rewrite inserted_notes_snoc, Hs, Bool.andb_false_r.
    rewrite List.app_nil_r. apply Hrows.
Qed.

Lemma user_table_inv_run (calls : list user_memory_call) :
  user_table_inv (run_user_calls init_db calls) calls.
Proof.
  induction calls as [|call calls IH] using List.rev_ind.
  - repeat split; cbn; constructor.
  - unfold run_user_calls in *. rewrite List.fold_left_app. cbn [fold_left].
    now apply user_table_inv_step.
Qed.

(** X4. User memories are never evicted: after any sequence of
    [add_user_memory] calls on a fresh database, [get_user_memories] returns
    the notes inserted for that subject in that conversation, newest first,
    cut to [limit] entries, and all of them when [limit] is negative. *)
Theorem get_user_memories_keeps_all (calls : list user_memory_call)
    (c subject limit : Z) :
  get_user_memories (run_user_calls init_db calls) c subject limit
  = sql_limit limit (rev (inserted_notes c subject calls)).
Proof.
  destruct (user_table_inv_run calls) as (Hasc & _ & Hrows).
  unfold get_user_memories.
  rewrite order_by_desc_ascending by now apply ascending_filter.
  rewrite <- (Hrows c subject), <- List.map_rev.
  unfold sql_limit. destruct (limit <? 0); [reflexivity|].
  now rewrite List.firstn_map.
Qed.

(** ** Conversations do not disturb each other *)

(** X5. Inserting a chat memory, with the eviction that follows it, leaves
    what [get_chat_memories] returns for every other conversation as it was,
    whatever the database held. *)
Theorem add_chat_memory_other_conversation (db : Database.t) (c c' : Z)
    (message_id author_id : option Z) (author_name : option pystr)
    (summary : pystr) (limit : Z) :
  c <> c' ->
  get_chat_memories
    (add_chat_memory db c' message_id author_id author_name summary) c limit
  = get_chat_memories db c limit.
Proof.
  intros Hne. unfold get_chat_memories, select_chat_memories, add_chat_memory.
  destruct (negb (str_truthy summary)); [reflexivity|].
  cbv zeta. cbn [chat_memories].
  rewrite (filter_chat_after_delete
             (fun r => id_in (cm_id r)
                (List.map cm_id
                   (select_chat_memories
                      (chat_memories db ++
                       [ {| cm_id := chat_memories_seq db + 1; cm_chat_id := c';
                            cm_message_id := message_id; cm_author_id := author_id;
                            cm_author_name := author_name;
                            cm_summary :=
                              slice_to CHAT_MEMORY_MESSAGE_CHAR_LIMIT summary |} ])
                      c' CHAT_MEMORY_DB_LIMIT)))).
  destruct (Z.eqb_spec c c'); [contradiction|].
  rewrite List.filter_app. cbn.
  destruct (Z.eqb_spec c' c); [congruence|].
  now rewrite List.app_nil_r.
Qed.

(** ** The memory context *)

Lemma insert_desc_In {A} (key : A -> Z) (r x : A) (rows : list A) :
  In x (insert_desc key r rows) -> x = r \/ In x rows.
Proof.
  induction rows as [|y rows IH]; cbn.
  - intros [<-|[]]. now left.
  - destruct (key y <=? key r); cbn.
    + intros [<-|H]; [now left | now right].
    + intros [<-|H]; [right; now left|].
      destruct (IH H) as [->|Hin]; [now left | right; now right].
Qed.

Lemma order_by_desc_In {A} (key : A -> Z) (x : A) (rows : list A) :
  In x (order_by_desc key rows) -> In x rows.
Proof.
  induction rows as [|r rows IH]; cbn; [trivial|].
  intros H. apply insert_desc_In in H as [->|H]; [now left | right; now apply IH].
Qed.

Lemma sql_limit_In {A} (n : Z) (x : A) (rows : list A) :
  In x (sql_limit n rows) -> In x rows.
Proof.
  unfold sql_limit. destruct (n <? 0); [trivial|].
  intros Hin. rewrite <- (List.firstn_skipn (Z.to_nat n) rows).
  apply List.in_or_app. now left.
Qed.

Lemma get_user_memories_In (db : Database.t) (c subject limit : Z) (note : pystr) :
  In note (get_user_memories db c subject limit) ->
  exists row,
    In row (user_memories db)
    /\ um_chat_id row = c /\ um_subject_user_id row = subject
    /\ um_note row = note.
Proof.
  unfold get_user_memories. intros Hin.
  apply List.in_map_iff in Hin as (row & Hnote & Hin).
  apply sql_limit_In, order_by_desc_In, List.filter_In in Hin as [Hin Hkey].
  apply andb_prop in Hkey as [Hc Hs].
  apply Z.eqb_eq in Hc, Hs. now exists row.
Qed.

Lemma target_context_In (db : Database.t) (c : Z) (draw : nat -> nat) (t : Target)
    (line : pystr) :
  In line (target_context db c draw t) ->
  exists target_id row,
    target_user_id t = Some target_id /\ target_id <> 0
    /\ In row (user_memories db)
    /\ um_chat_id row = c /\ um_subject_user_id row = target_id
    /\ line = context_name t target_id ++ str ": " ++ um_note row.
Proof.
  unfold target_context.
  destruct (target_user_id t) as [target_id|]; [|intros []].
  destruct (Z.eqb_spec target_id 0); [intros []|].
  destruct (get_user_memories db c target_id USER_MEMORY_CONTEXT_LIMIT)
    as [|newest notes] eqn:Hnotes; [intros []|].
  intros Hin. apply List.in_map_iff in Hin as (note & <- & Hin).
  destruct (choose_varied_entries_rearranges draw (newest :: notes)
              (Z.max 1 (USER_MEMORY_CONTEXT_LIMIT / 2))) as [rest Hperm].
  assert (Hstored : In note (newest :: notes)).
  { eapply Permutation_in; [exact Hperm|]. apply List.in_or_app. now left. }
  rewrite <- Hnotes in Hstored.
  apply get_user_memories_In in Hstored as (row & Hrow & Hc & Hs & <-).
  now exists target_id, row.
Qed.

(** X6. The memory context only quotes what is stored: every line of
    [build_user_memory_context] is the display name of one of the targets, a
    colon, and a note stored in [user_memories] for that target's user id in
    that conversation. Targets without a user id contribute nothing. *)
Theorem build_user_memory_context_quotes_stored (db : Database.t) (c : Z)
    (draws : nat -> nat -> nat) (targets : list Target) (line : pystr) :
  In line (build_user_memory_context db c draws targets) ->
  exists t target_id row,
    In t targets
    /\ target_user_id t = Some target_id /\ target_id <> 0
    /\ In row (user_memories db)
    /\ um_chat_id row = c /\ um_subject_user_id row = target_id
    /\ line = context_name t target_id ++ str ": " ++ um_note row.
Proof.
  unfold build_user_memory_context. generalize 0%nat as i.
  induction targets as [|t targets IH]; intros i; cbn [build_user_memory_context_from].
  - intros [].
  - intros Hin. apply List.in_app_or in Hin as [Hin|Hin].
    + apply target_context_In in Hin as (target_id & row & H1 & H2 & H3 & H4 & H5 & H6).
      exists t, target_id, row. repeat split; try assumption. now left.
    + destruct (IH _ Hin) as (t' & target_id & row & Ht & Hrest).
      exists t', target_id, row. split; [now right | exact Hrest].
Qed.

(** ** What the extraction returns *)

Section Extraction.
Context `{rt : Runtime}.

Lemma strip_clean (s : pystr) : str_truthy (strip s) = true -> clean_fact (strip s).
Proof.
  intros Hs. split; [|apply strip_idem].
  intros Hnil. rewrite Hnil in Hs. discriminate.
Qed.

Lemma collect_chat_facts_clean (items : list pyval) :
  Forall clean_fact (collect_chat_facts items)
  /\ (List.length (collect_chat_facts items) <= List.length items)%nat.
Proof.
  induction items as [|v items [IHc IHl]]; cbn; [split; [constructor | lia]|].
  unfold collect_chat_facts in *.
  destruct v as [| | | | s | |]; cbn; try (split; [assumption | lia]).
  destruct (str_truthy (strip s)) eqn:Hs; cbn; [|split; [assumption | lia]].
  split; [constructor; [now apply strip_clean | assumption] | lia].
Qed.

Lemma slice_items_length (k : Z) (v : pyval) (items : list pyval) :
  0 <= k -> slice_items k v = Returned items -> len items <= k.
Proof.
  intros Hk. unfold slice_items, slice_to, len.
  destruct (Z.leb_spec 0 k); [|lia].
  destruct v; try discriminate; intros [= <-];
    rewrite ?List.length_map, List.length_firstn; lia.
Qed.

Lemma setdefault_append_fresh (uid : Z) (note : pystr) (facts : list (Z * list pystr)) :
  ~ In uid (List.map fst facts) ->
  setdefault_append uid note facts = facts ++ [(uid, [note])].
Proof.
  induction facts as [|[u notes] facts IH]; cbn; [reflexivity|].
  intros Hnot. destruct (Z.eqb_spec u uid) as [->|Hne].
  - exfalso. apply Hnot. now left.
  - rewrite IH; [reflexivity|]. intros Hin. apply Hnot. now right.
Qed.

Lemma setdefault_append_keys (uid : Z) (note : pystr) (facts : list (Z * list pystr)) :
  In uid (List.map fst facts) ->
  List.map fst (setdefault_append uid note facts) = List.map fst facts.
Proof.
  induction facts as [|[u notes] facts IH]; cbn; [intros []|].
  intros Hin. destruct (Z.eqb_spec u uid) as [->|Hne]; cbn; [reflexivity|].
  f_equal. apply IH. destruct Hin as [Heq|Hin]; [contradiction | exact Hin].
Qed.

Lemma setdefault_append_notes (uid : Z) (note : pystr) (facts : list (Z * list pystr)) :
  clean_fact note ->
  Forall (fun entry => snd entry <> [] /\ Forall clean_fact (snd entry)) facts ->
  Forall (fun entry => snd entry <> [] /\ Forall clean_fact (snd entry))
    (setdefault_append uid note facts).
Proof.
  intros Hnote. induction 1 as [|[u notes] facts [Hne Hclean] Hrest IH]; cbn.
  - constructor; [|constructor]. cbn. split; [discriminate|].
    constructor; [assumption | constructor].
  - destruct (u =? uid); constructor; cbn; try assumption.
    + split; [now destruct notes|].
      apply List.Forall_app. split; [assumption|].
      constructor; [assumption | constructor].
    + now split.
Qed.

Lemma nodup_snoc (uid : Z) (keys : list Z) :
  List.NoDup keys -> ~ In uid keys -> List.NoDup (keys ++ [uid]).
Proof.
  induction 1 as [|k keys Hk Hnd IH]; cbn; intros Hnot.
  - constructor; [intros [] | constructor].
  - constructor.
    + rewrite List.in_app_iff. intros [Hin|[<-|[]]]; [contradiction|].
      apply Hnot. now left.
    + apply IH. intros Hin. apply Hnot. now right.
Qed.

Lemma setdefault_append_inv (uid : Z) (note : pystr) (facts : list (Z * list pystr)) :
  clean_fact note -> facts_inv facts -> facts_inv (setdefault_append uid note facts).
Proof.
  intros Hnote [Hnd Hall]. split; [|now apply setdefault_append_notes].
  destruct (List.in_dec Z.eq_dec uid (List.map fst facts)) as [Hin|Hnot].
  - now rewrite setdefault_append_keys.
  - rewrite setdefault_append_fresh by assumption.
    rewrite List.map_app. cbn. now apply nodup_snoc.
Qed.

Lemma collect_user_fact_inv (facts : list (Z * list pystr)) (entry : pyval) :
  facts_inv facts -> facts_inv (collect_user_fact facts entry).
Proof.
  intros Hinv. unfold collect_user_fact.
  destruct entry as [| | | | | | d]; try assumption.
  destruct (as_int _) as [u|]; [|assumption].
  destruct (match assoc (str "note") d with Some v => v | None => PNone end);
    try assumption.
  destruct (str_truthy (strip s)) eqn:Hs; [|assumption].
  apply setdefault_append_inv; [now apply strip_clean | assumption].
Qed.

Lemma fold_collect_user_fact_inv (entries : list pyval) (facts : list (Z * list pystr)) :
  facts_inv facts -> facts_inv (fold_left collect_user_fact entries facts).
Proof.
  revert facts. induction entries as [|e entries IH]; intros facts Hinv; cbn;
    [assumption|].
  apply IH. now apply collect_user_fact_inv.
Qed.

Lemma facts_of_response_clean (response : option pystr)
    (chat_facts : list pystr) (user_facts : list (Z * list pystr)) :
  0 <= MAX_MEMORY_FACTS ->
  facts_of_response response = Returned (chat_facts, user_facts) ->
  len chat_facts <= MAX_MEMORY_FACTS
  /\ Forall clean_fact chat_facts
  /\ facts_inv user_facts.
Proof.
  intros Hmax. unfold facts_of_response.
  assert (Hempty : len (@nil pystr) <= MAX_MEMORY_FACTS
                   /\ Forall clean_fact (@nil pystr) /\ facts_inv [])
    by (repeat split; [exact Hmax | constructor | constructor | constructor]).
  destruct (negb (opt_truthy response)); [now intros [= <- <-]|].
  destruct (json_loads (or_empty response)) as [parsed|]; [|now intros [= <- <-]].
  destruct parsed as [| b | z | f | s | l | d]; try discriminate.
  cbn [bind get get_default].
  destruct (slice_items MAX_MEMORY_FACTS _) as [items|e] eqn:Hitems;
    [|discriminate]. cbn [bind].
  destruct (iter_items _) as [entries|e]; [|discriminate]. cbn [bind].
  intros [= <- <-].
  destruct (collect_chat_facts_clean items) as [Hclean Hlen].
  apply slice_items_length in Hitems; [|exact Hmax].
  split; [unfold len in *; lia|]. split; [exact Hclean|].
  apply fold_collect_user_fact_inv. split; constructor.
Qed.

(** X7. Whatever the model answers, when [extract_memory_facts] returns it
    returns at most [MAX_MEMORY_FACTS] chat facts, every fact and note is
    stripped and not blank, and the user facts have one entry per user id,
    each with at least one note. *)
Theorem extract_memory_facts_clean (oracle : request -> option pystr)
    (message : Message) (targets : list Target)
    (chat_facts : list pystr) (user_facts : list (Z * list pystr)) :
  0 <= MAX_MEMORY_FACTS ->
  run_task oracle (extract_memory_facts message targets)
  = Returned (chat_facts, user_facts) ->
  len chat_facts <= MAX_MEMORY_FACTS
  /\ Forall clean_fact chat_facts
  /\ List.NoDup (List.map fst user_facts)
  /\ Forall (fun entry => snd entry <> [] /\ Forall clean_fact (snd entry))
       user_facts.
Proof.
  intros Hmax. unfold extract_memory_facts.
  destruct (negb _ || negb _); cbn [run_task].
  - intros [= <- <-]. repeat split; try constructor. exact Hmax.
  - intros Hfacts.
    destruct (facts_of_response_clean _ _ _ Hmax Hfacts) as (H1 & H2 & H3 & H4).
    now repeat split.
Qed.

End Extraction.

End CaptureFacts.

(* ===================================================================== *)
(** * Further properties of the auto-debate decision *)
(* ===================================================================== *)

Section DebateSafety.
Import Memory Debate Vocabulary.
Context `{cfg : Settings} `{rt : Runtime}.

(** X8. When the model gives no answer (a failed call or an empty
    completion), [should_trigger_auto_debate] returns [(False, None)] and
    raises nothing, whatever the message and the state. *)
Theorem silent_oracle_never_triggers
    (oracle : request -> option pystr)
    (chat_histories : gmap Z (list pystr)) (replies : gmap Z float)
    (now : float) (message : Message) (targets : option (list Target)) :
  (forall req, oracle req = None \/ oracle req = Some []) ->
  run_task oracle
    (should_trigger_auto_debate chat_histories replies now message targets)
  = Returned (false, PNone).
Proof.
  intros Hsilent.
  destruct (should_trigger_cases chat_histories replies now message targets)
    as [-> | [req ->]]; [reflexivity|].
  cbn [run_task]. now destruct (Hsilent req) as [-> | ->].
Qed.

(** X9. A trigger is never returned for a message that fails a gate: when
    the call returns [(True, reason)] the feature is enabled, the sender is
    present and not a bot, the stripped text is long enough, the conversation
    is not in its cooldown, and the model gave a non-empty answer. *)
Theorem trigger_implies_gates
    (oracle : request -> option pystr)
    (chat_histories : gmap Z (list pystr)) (replies : gmap Z float)
    (now : float) (message : Message) (targets : option (list Target))
    (reason : pyval) :
  run_task oracle
    (should_trigger_auto_debate chat_histories replies now message targets)
  = Returned (true, reason) ->
  early_gates_pass message
  /\ in_cooldown replies (chat_id (chat message)) now = false
  /\ exists req response, oracle req = Some response /\ response <> [].
Proof.
  unfold should_trigger_auto_debate, early_gates_pass.
  destruct AUTO_DEBATE_ENABLED; cbn [negb run_task]; [|discriminate].
  destruct (from_user message) as [user|]; [|discriminate].
  destruct (is_bot user) eqn:Hbot; [discriminate|].
  destruct (Z.ltb_spec
              (len (strip (or_empty (opt_or (text message) (caption message)))))
              AUTO_DEBATE_MIN_TEXT_LENGTH); [discriminate|].
  destruct (in_cooldown replies (chat_id (chat message)) now); [discriminate|].
  cbn [run_task]. intros Hdecide.
  split; [split; [reflexivity|]; split; [now exists user | assumption]|].
  split; [reflexivity|].
  destruct (oracle _) as [[|ch response]|] eqn:Horacle; try discriminate.
  eexists _, (ch :: response). split; [exact Horacle | discriminate].
Qed.

(** X10. Cooldowns are kept per conversation: recording a reply in one
    conversation does not change the decision for a message of another. *)
Theorem mark_other_conversation
    (chat_histories : gmap Z (list pystr)) (replies : gmap Z float)
    (t now : float) (c : Z) (message : Message) (targets : option (list Target)) :
  chat_id (chat message) <> c ->
  should_trigger_auto_debate chat_histories (mark_auto_debate_reply replies t c)
    now message targets
  = should_trigger_auto_debate chat_histories replies now message targets.
Proof.
  intros Hne. unfold should_trigger_auto_debate, in_cooldown, mark_auto_debate_reply.
  rewrite lookup_insert_ne by congruence. reflexivity.
Qed.

(** X11. The cooldown ends: once [now - t < AUTO_DEBATE_COOLDOWN] no longer
    holds for the recorded time [t], a message that passes the other gates
    is put to the model again. *)
Theorem cooldown_ends
    (chat_histories : gmap Z (list pystr)) (replies : gmap Z float)
    (t now : float) (message : Message) (targets : option (list Target)) :
  early_gates_pass message ->
  flt (fsub now t) AUTO_DEBATE_COOLDOWN = false ->
  exists req,
    should_trigger_auto_debate chat_histories
      (mark_auto_debate_reply replies t (chat_id (chat message)))
      now message targets
    = CallOpenRouter req (fun response => Done (decide response)).
Proof.
  intros Hgates Hfar. apply should_trigger_asks_oracle; [exact Hgates|].
  unfold in_cooldown, mark_auto_debate_reply.
  rewrite lookup_insert_eq, Hfar. apply Bool.andb_false_r.
Qed.

End DebateSafety.

(* ===================================================================== *)
(** * Properties of the other tables *)
(* ===================================================================== *)

Section StoreFacts.
Import DatabaseInv Store.

(** ** Support cooldown *)

(** X12. After a support message accepted at time [t], a further attempt at
    a time [t'] not before [t] is refused while [t' - t < cooldown_seconds],
    with the remaining wait [cooldown_seconds - (t' - t)], which is positive
    and at most the cooldown, and the refusal leaves the recorded time as it
    was; from [t + cooldown_seconds] on the attempt is accepted and
    recorded. *)
Theorem support_cooldown_window (last_support_time : gmap Z Z)
    (t t' user_id cooldown_seconds : Z) :
  let first := can_send_support_message last_support_time t user_id cooldown_seconds in
  fst (snd first) = true ->
  t <= t' ->
  (t' - t < cooldown_seconds ->
   can_send_support_message (fst first) t' user_id cooldown_seconds
   = (fst first, (false, cooldown_seconds - (t' - t)))
   /\ 0 < cooldown_seconds - (t' - t) <= cooldown_seconds)
  /\ (cooldown_seconds <= t' - t ->
      can_send_support_message (fst first) t' user_id cooldown_seconds
      = (<[user_id := t']> (fst first), (true, 0))).
Proof.
  cbv zeta. intros Hok Hle.
  assert (Hrec : fst (can_send_support_message last_support_time t user_id
                        cooldown_seconds) !! user_id = Some t).
  { unfold can_send_support_message in *.
    destruct (last_support_time !! user_id) as [last|]; cbn in *.
    - destruct (t - last <? cooldown_seconds); [discriminate|].
      cbn. apply lookup_insert_eq.
    - apply lookup_insert_eq. }
  set (tbl := fst (can_send_support_message last_support_time t user_id
                     cooldown_seconds)) in *. clearbody tbl.
  unfold can_send_support_message. rewrite Hrec. split; intros Hwait.
  - destruct (Z.ltb_spec (t' - t) cooldown_seconds); [|lia].
    split; [reflexivity | lia].
  - destruct (Z.ltb_spec (t' - t) cooldown_seconds); [lia | reflexivity].
Qed.

(** ** Saved styles *)

Lemma insert_asc_smallest {A} (key : A -> Z) (r : A) (rows : list A) :
  Forall (fun x => key r < key x) rows -> insert_asc key r rows = r :: rows.
Proof.
  destruct 1 as [|x rows Hx _]; cbn; [reflexivity|].
  destruct (Z.leb_spec (key r) (key x)); [reflexivity | lia].
Qed.

Lemma order_by_asc_ascending {A} (key : A -> Z) (rows : list A) :
  ascending key rows -> order_by_asc key rows = rows.
Proof.
  induction rows as [|r rows IH]; cbn; [reflexivity|].
  intros [Hr Hrows]. rewrite (IH Hrows). now apply insert_asc_smallest.
Qed.

Lemma styles_inv_step (db : styles_table) (c : style_call) :
  styles_inv db -> styles_inv (apply_style_call db c).
Proof.
  intros [Hasc Hseq]. destruct c as [now user_id name prompt | user_id style_id];
    unfold styles_inv; cbn.
  - split.
    + apply ascending_snoc; [assumption|].
      eapply List.Forall_impl; [|exact Hseq]. cbn. intros; lia.
    + apply List.Forall_app. split.
      * eapply List.Forall_impl; [|exact Hseq]. cbn. intros; lia.
      * constructor; [cbn; lia | constructor].
  - split; [now apply ascending_filter|].
    apply List.Forall_forall. intros r Hr. apply List.filter_In in Hr as [Hr _].
    rewrite List.Forall_forall in Hseq. now apply Hseq.
Qed.

Lemma styles_inv_run (calls : list style_call) :
  styles_inv (fold_left apply_style_call calls no_styles).
Proof.
  induction calls as [|c calls IH] using List.rev_ind.
  - split; cbn; constructor.
  - rewrite List.fold_left_app. cbn. now apply styles_inv_step.
Qed.

Lemma style_seq_monotone (calls : list style_call) (db : styles_table) :
  saved_styles_seq db <= saved_styles_seq (fold_left apply_style_call calls db).
Proof.
  revert db. induction calls as [|c calls IH]; intros db; cbn; [lia|].
  etransitivity; [|apply IH]. destruct c; cbn; lia.
Qed.

(** X13. Style ids are never reused: in any sequence of additions and
    deletions, a style added later gets a strictly larger id than every style
    added before it, deleted or not. *)
Theorem saved_style_ids_increase (db : styles_table) (between : list style_call)
    (now1 now2 : pystr) (user1 user2 : Z) (name1 prompt1 name2 prompt2 : pystr) :
  let first := add_saved_style db now1 user1 name1 prompt1 in
  let later :=
    add_saved_style (fold_left apply_style_call between (fst first))
      now2 user2 name2 prompt2 in
  style_id (snd first) < style_id (snd later).
Proof.
  cbv zeta. cbn [add_saved_style snd fst style_id].
  pose proof (style_seq_monotone between
                (fst (add_saved_style db now1 user1 name1 prompt1))) as Hmono.
  cbn in Hmono. lia.
Qed.

Lemma filter_none {A} (f : A -> bool) (l : list A) :
  (forall x, In x l -> f x = false) -> List.filter f l = [].
Proof.
  induction l as [|x l IH]; cbn; [reflexivity|].
  intros Hall. rewrite (Hall x) by now left. apply IH.
  intros y Hy. apply Hall. now right.
Qed.

(** X14. After any sequence of additions and deletions on an empty table,
    [get_saved_styles] lists the surviving styles of the user in the order
    they were added; a style just added comes last in that list and is found
    by [get_saved_style] under the id that [add_saved_style] returned, with
    the name and prompt given. *)
Theorem saved_styles_listing (calls : list style_call)
    (now : pystr) (user_id : Z) (name prompt : pystr) :
  let db := fold_left apply_style_call calls no_styles in
  let added := add_saved_style db now user_id name prompt in
  let listed :=
    {| style_id := style_id (snd added); style_name := name;
       style_prompt := prompt; style_created_at := Some now |} in
  get_saved_styles db user_id
  = List.map style_of_row
      (List.filter (fun r => ss_user_id r =? user_id) (saved_styles db))
  /\ get_saved_styles (fst added) user_id = get_saved_styles db user_id ++ [listed]
  /\ get_saved_style (fst added) user_id (style_id (snd added)) = Some listed.
Proof.
  cbv zeta. set (db := fold_left apply_style_call calls no_styles).
  pose proof (styles_inv_run calls) as Hinv. fold db in Hinv.
  pose proof (styles_inv_step db (AddStyle now user_id name prompt) Hinv) as Hinv'.
  destruct Hinv as [Hasc Hseq]. destruct Hinv' as [Hasc' _].
  cbn [apply_style_call] in Hasc'.
  assert (Hlist : forall d, ascending ss_id (saved_styles d) ->
            get_saved_styles d user_id
            = List.map style_of_row
                (List.filter (fun r => ss_user_id r =? user_id) (saved_styles d))).
  { intros d Hd. unfold get_saved_styles.
    rewrite order_by_asc_ascending; [reflexivity | now apply ascending_filter]. }
  split; [now apply Hlist|]. split.
  - rewrite (Hlist _ Hasc'), (Hlist _ Hasc). cbn.
    rewrite List.filter_app, List.map_app. cbn. now rewrite Z.eqb_refl.
  - unfold get_saved_style. cbn.
    rewrite List.filter_app. cbn. rewrite !Z.eqb_refl. cbn.
    rewrite filter_none; [reflexivity|].
    intros r Hr. rewrite List.Forall_forall in Hseq. specialize (Hseq r Hr).
    destruct (Z.eqb_spec (ss_id r) (saved_styles_seq db + 1)); [lia|].
    apply Bool.andb_false_r.
Qed.

(** X15. [delete_saved_style] removes a style only for its owner: it returns
    whether the user had a style with that id, afterwards the user has none
    with that id, and what [get_saved_style] returns for every other user or
    id is unchanged. *)
Theorem delete_saved_style_effect (db : styles_table) (user_id style_id : Z) :
  let result := delete_saved_style db user_id style_id in
  snd result = match get_saved_style db user_id style_id with
               | Some _ => true
               | None => false
               end
  /\ get_saved_style (fst result) user_id style_id = None
  /\ forall user' id',
       (user', id') <> (user_id, style_id) ->
       get_saved_style (fst result) user' id' = get_saved_style db user' id'.
Proof.
  cbv zeta. unfold delete_saved_style, get_saved_style. cbn [fst snd saved_styles].
  split; [|split].
  - induction (saved_styles db) as [|r rows IH]; cbn; [reflexivity|].
    now destruct ((ss_user_id r =? user_id) && (ss_id r =? style_id)).
  - rewrite filter_none; [reflexivity|].
    intros r Hr. apply List.filter_In in Hr as [_ Hr].
    now apply Bool.negb_true_iff in Hr.
  - intros user' id' Hother.
    induction (saved_styles db) as [|r rows IH]; cbn; [reflexivity|].
    destruct (Z.eqb_spec (ss_user_id r) user_id) as [Hu|Hu];
      destruct (Z.eqb_spec (ss_id r) style_id) as [Hi|Hi]; cbn;
      destruct (Z.eqb_spec (ss_user_id r) user') as [Hu'|Hu'];
      destruct (Z.eqb_spec (ss_id r) id') as [Hi'|Hi']; cbn;
      try reflexivity; try exact IH.
    exfalso. apply Hother. congruence.
Qed.

(** ** Blocks *)

(** X16. [toggle_block] flips one block and nothing else: it returns whether
    the block is now set, [is_blocked] then reports that state with the
    message given at the toggle, and every other block is as before. *)
Theorem toggle_block_flips (blocks : gmap (Z * Z * Z) (option pystr))
    (chat_id blocker_id blocked_id : Z) (personal_message : option pystr) :
  let result := toggle_block blocks chat_id blocker_id blocked_id personal_message in
  snd result = negb (fst (is_blocked blocks chat_id blocker_id blocked_id))
  /\ is_blocked (fst result) chat_id blocker_id blocked_id
     = (snd result, if snd result then personal_message else None)
  /\ forall c a b,
       (c, a, b) <> (chat_id, blocker_id, blocked_id) ->
       is_blocked (fst result) c a b = is_blocked blocks c a b.
Proof.
  cbv zeta. unfold toggle_block, is_blocked.
  destruct (blocks !! (chat_id, blocker_id, blocked_id)) eqn:Hrow; cbn.
  - rewrite lookup_delete_eq. repeat split.
    intros c a b Hne. now rewrite lookup_delete_ne by congruence.
  - rewrite lookup_insert_eq. repeat split.
    intros c a b Hne. now rewrite lookup_insert_ne by congruence.
Qed.

(** X17. Switching a global block on clears the blocker's exceptions in that
    conversation and no others; switching it off leaves all exceptions in
    place. Either way [get_global_block] then reports the new state. *)
Theorem toggle_global_block_clears_exceptions
    (global_blocks : gmap (Z * Z) (option pystr))
    (exceptions : gset (Z * Z * Z)) (chat_id blocker_id : Z)
    (message : option pystr) :
  let result := toggle_global_block global_blocks exceptions chat_id blocker_id message in
  let on := snd result in
  on = negb (fst (get_global_block global_blocks chat_id blocker_id))
  /\ get_global_block (fst (fst result)) chat_id blocker_id
     = (on, if on then message else None)
  /\ (on = true ->
      forall allowed_id,
        is_global_block_exception (snd (fst result)) chat_id blocker_id allowed_id
        = false)
  /\ (on = false -> snd (fst result) = exceptions)
  /\ forall c b a,
       (c, b) <> (chat_id, blocker_id) ->
       is_global_block_exception (snd (fst result)) c b a
       = is_global_block_exception exceptions c b a.
Proof.
  cbv zeta. unfold toggle_global_block, get_global_block, is_global_block_exception.
  destruct (global_blocks !! (chat_id, blocker_id)) eqn:Hrow; cbn.
  - rewrite lookup_delete_eq. repeat split; try discriminate.
  - rewrite lookup_insert_eq. repeat split; try discriminate.
    + intros _ allowed_id. apply bool_decide_eq_false.
      rewrite elem_of_filter. cbn. tauto.
    + intros c b a Hne. apply bool_decide_ext.
      rewrite elem_of_filter. cbn. tauto.
Qed.

(** ** Support bans *)

Lemma bool_of_int_of_bool (b : bool) : bool_of_int (int_of_bool b) = b.
Proof. now destruct b. Qed.

(** X18. The two support bans are independent and reported as stored:
    [toggle_support_media_ban] flips the media flag and keeps the full ban,
    [toggle_support_full_ban] flips the full ban and keeps the media flag,
    each returns the flag that [get_support_ban] reports afterwards, and
    other users are not touched. A user without a row counts as not banned. *)
Theorem support_ban_toggles (support_bans : gmap Z (Z * Z)) (user_id : Z) :
  let current := current_ban support_bans user_id in
  let media := toggle_support_media_ban support_bans user_id in
  let full := toggle_support_full_ban support_bans user_id in
  get_support_ban (fst media) user_id = Some (negb (fst current), snd current)
  /\ snd media = negb (fst current)
  /\ get_support_ban (fst full) user_id = Some (fst current, negb (snd current))
  /\ snd full = negb (snd current)
  /\ forall other,
       other <> user_id ->
       get_support_ban (fst media) other = get_support_ban support_bans other
       /\ get_support_ban (fst full) other = get_support_ban support_bans other.
Proof.
  cbv zeta.
  unfold toggle_support_media_ban, toggle_support_full_ban, _upsert_support_ban.
  cbn [fst snd].
  assert (Hread : forall m a,
            get_support_ban (<[user_id := (int_of_bool m, int_of_bool a)]> support_bans)
              user_id = Some (m, a)).
  { intros m a. unfold get_support_ban.
    now rewrite lookup_insert_eq, !bool_of_int_of_bool. }
  rewrite !Hread.
  split; [reflexivity|]. split; [reflexivity|].
  split; [reflexivity|]. split; [reflexivity|].
  intros other Hne. unfold get_support_ban.
  now rewrite !lookup_insert_ne by congruence.
Qed.

(** ** Swear ranking *)

Lemma ranks_before_total (a b : Z * Z) :
  ranks_before a b = false -> ranks_before b a = true.
Proof.
  unfold ranks_before. destruct a as [ua na], b as [ub nb]. cbn.
  destruct (Z.ltb_spec nb na), (Z.ltb_spec na nb), (Z.eqb_spec na nb),
    (Z.eqb_spec nb na), (Z.leb_spec ua ub), (Z.leb_spec ub ua);
    cbn; intros; try reflexivity; try discriminate; lia.
Qed.

Lemma ranks_before_trans (a b c : Z * Z) :
  ranks_before a b = true -> ranks_before b c = true -> ranks_before a c = true.
Proof.
  unfold ranks_before. destruct a as [ua na], b as [ub nb], c as [uc nc]. cbn.
  destruct (Z.ltb_spec nb na), (Z.ltb_spec nc nb), (Z.ltb_spec nc na),
    (Z.eqb_spec na nb), (Z.eqb_spec nb nc), (Z.eqb_spec na nc),
    (Z.leb_spec ua ub), (Z.leb_spec ub uc), (Z.leb_spec ua uc);
    cbn; intros; try reflexivity; try discriminate; lia.
Qed.

Lemma insert_ranked_In (r x : Z * Z) (rows : list (Z * Z)) :
  In x (insert_ranked r rows) <-> x = r \/ In x rows.
Proof.
  induction rows as [|y rows IH]; cbn; [intuition|].
  destruct (ranks_before r y); cbn; [intuition|].
  rewrite IH. intuition.
Qed.

Lemma order_by_rank_In (x : Z * Z) (rows : list (Z * Z)) :
  In x (order_by_rank rows) <-> In x rows.
Proof.
  induction rows as [|r rows IH]; cbn; [reflexivity|].
  rewrite insert_ranked_In, IH. intuition.
Qed.

Lemma insert_ranked_ranked (r : Z * Z) (rows : list (Z * Z)) :
  ranked rows -> ranked (insert_ranked r rows).
Proof.
  induction rows as [|x rows IH]; cbn; [intros _; split; [constructor | exact I]|].
  intros [Hx Hrows]. destruct (ranks_before r x) eqn:Hrx; cbn.
  - split; [|now split]. constructor; [assumption|].
    eapply List.Forall_impl; [|exact Hx]. cbn. intros y Hy.
    now apply (ranks_before_trans r x y).
  - split; [|now apply IH].
    apply List.Forall_forall. intros y Hy. apply insert_ranked_In in Hy as [->|Hy].
    + now apply ranks_before_total.
    + rewrite List.Forall_forall in Hx. now apply Hx.
Qed.

Lemma order_by_rank_ranked (rows : list (Z * Z)) : ranked (order_by_rank rows).
Proof.
  induction rows as [|r rows IH]; cbn; [exact I | now apply insert_ranked_ranked].
Qed.

Lemma ranked_firstn (n : nat) (rows : list (Z * Z)) :
  ranked rows -> ranked (firstn n rows).
Proof.
  revert rows. induction n as [|n IH]; intros [|r rows]; cbn; try tauto.
  intros [Hr Hrows]. split; [|now apply IH].
  apply List.Forall_forall. intros x Hx. rewrite List.Forall_forall in Hr.
  apply Hr. rewrite <- (List.firstn_skipn n rows). apply List.in_or_app. now left.
Qed.

Lemma chat_rows_In (swear_stats : gmap (Z * Z) Z) (chat_id user_id count : Z) :
  In (user_id, count) (chat_rows swear_stats chat_id)
  <-> swear_stats !! (chat_id, user_id) = Some count.
Proof.
  unfold chat_rows. rewrite List.in_map_iff. split.
  - intros ([[c u] n] & [= <- <-] & Hin).
    apply List.filter_In in Hin as [Hin Hc]. cbn in Hc. apply Z.eqb_eq in Hc as ->.
    now apply list_elem_of_In, elem_of_map_to_list in Hin.
  - intros Hrow. exists (chat_id, user_id, count). split; [reflexivity|].
    apply List.filter_In. split; [|cbn; apply Z.eqb_refl].
    now apply list_elem_of_In, elem_of_map_to_list.
Qed.

(** X19. [get_swear_ranking] is in order and complete: counts never
    increase along the list and equal counts are listed by increasing user
    id; a non-negative [limit] bounds its length; with a negative limit it
    lists exactly the users of the conversation that have a row, each with
    the count stored. *)
Theorem swear_ranking_ranked (swear_stats : gmap (Z * Z) Z) (chat_id limit : Z) :
  ranked (get_swear_ranking swear_stats chat_id limit)
  /\ (0 <= limit -> len (get_swear_ranking swear_stats chat_id limit) <= limit)
  /\ (forall user_id count,
        In (user_id, count) (get_swear_ranking swear_stats chat_id limit) ->
        swear_stats !! (chat_id, user_id) = Some count)
  /\ (limit < 0 ->
      forall user_id count,
        swear_stats !! (chat_id, user_id) = Some count ->
        In (user_id, count) (get_swear_ranking swear_stats chat_id limit)).
Proof.
  unfold get_swear_ranking, Database.sql_limit.
  pose proof (order_by_rank_ranked (chat_rows swear_stats chat_id)) as Hranked.
  destruct (Z.ltb_spec limit 0) as [Hneg|Hpos].
  - split; [exact Hranked|]. split; [lia|]. split.
    + intros u n Hin. now apply order_by_rank_In, chat_rows_In in Hin.
    + intros _ u n Hrow. now apply order_by_rank_In, chat_rows_In.
  - split; [now apply ranked_firstn|]. split; [|split; [|lia]].
    + intros _. unfold len. rewrite List.length_firstn. lia.
    + intros u n Hin. apply chat_rows_In, order_by_rank_In.
      rewrite <- (List.firstn_skipn (Z.to_nat limit)).
      apply List.in_or_app. now left.
Qed.

End StoreFacts.

(* ===================================================================== *)
(** * Properties of rules.py and styles.py *)
(* ===================================================================== *)

Section IntFacts.
Import PyInt.
Context `{uni : Unicode}.

Lemma digits_value_app (acc : Z) (ds1 ds2 : pystr) :
  digits_value acc (ds1 ++ ds2) = digits_value (digits_value acc ds1) ds2.
Proof. unfold digits_value. apply List.fold_left_app. Qed.

(** The digits [str] writes for a number that is not negative. *)
Lemma digits_of_pos_spec (fuel : nat) (p : Z) (acc : pystr) :
  (0 < fuel)%nat ->
  0 <= p < 10 ^ Z.of_nat fuel ->
  exists ds,
    digits_of_pos fuel p acc = ds ++ acc
    /\ ds <> []
    /\ forallb ascii_digit ds = true
    /\ digits_value 0 ds = p
    /\ forall n : nat, (1 <= n)%nat -> p < 10 ^ Z.of_nat n -> (List.length ds <= n)%nat.
Proof.
  revert p acc. induction fuel as [|fuel IH]; intros p acc Hfuel Hp; [lia|].
  cbn [digits_of_pos].
  assert (Hmod : 0 <= p mod 10 < 10) by (apply Z.mod_pos_bound; lia).
  assert (Hdig : ascii_digit (48 + Z.to_N (p mod 10))%N = true).
  { unfold ascii_digit. apply andb_true_intro. split; apply N.leb_le; lia. }
  assert (Hval : Z.of_N (48 + Z.to_N (p mod 10) - 48)%N = p mod 10) by lia.
  destruct (Z.eqb_spec (p / 10) 0) as [Hsmall|Hbig].
  - exists [(48 + Z.to_N (p mod 10))%N]. cbn [app].
    split; [reflexivity|]. split; [discriminate|].
    split; [cbn; now rewrite Hdig|]. split.
    + cbn. rewrite Hval. pose proof (Z.div_mod p 10). lia.
    + intros n Hn _. cbn. lia.
  - assert (Hdiv : 0 <= p / 10 < 10 ^ Z.of_nat fuel).
    { split; [apply Z.div_pos; lia|].
      apply Z.div_lt_upper_bound; [lia|].
      replace (Z.of_nat (S fuel)) with (Z.succ (Z.of_nat fuel)) in Hp by lia.
      rewrite Z.pow_succ_r in Hp by lia. lia. }
    assert (Hfuel' : (0 < fuel)%nat).
    { destruct fuel; [|lia]. cbn in Hdiv.
      assert (0 < p / 10) by (pose proof (Z.div_pos p 10); lia). lia. }
    destruct (IH (p / 10) ((48 + Z.to_N (p mod 10))%N :: acc) Hfuel' Hdiv)
      as (ds & Heq & Hne & Hall & Hvalue & Hlen).
    exists (ds ++ [(48 + Z.to_N (p mod 10))%N]).
    split; [now rewrite Heq, <- List.app_assoc|].
    split; [now destruct ds|].
    split; [rewrite List.forallb_app, Hall; cbn; now rewrite Hdig|]. split.
    + rewrite digits_value_app, Hvalue. cbn. rewrite Hval.
      pose proof (Z.div_mod p 10). lia.
    + intros n Hn Hpn. rewrite List.length_app. cbn.
      destruct n as [|[|n]]; [lia| |].
      * exfalso. apply Hbig. apply Z.div_small. cbn in Hpn. lia.
      * assert (List.length ds <= S n)%nat; [|lia].
        apply Hlen; [lia|].
        apply Z.div_lt_upper_bound; [lia|].
        replace (Z.of_nat (S (S n))) with (Z.succ (Z.of_nat (S n))) in Hpn by lia.
        rewrite Z.pow_succ_r in Hpn by lia. lia.
Qed.

Lemma decimal_value_ascii (c : codepoint) :
  ascii_digit c = true ->
  (c =? 95)%N = false /\ decimal_value c = Some (Z.of_N (c - 48))
  /\ int_space c = false /\ (c =? 45)%N = false /\ (c =? 43)%N = false.
Proof.
  unfold ascii_digit, decimal_value, int_space. intros Hc. rewrite Hc.
  apply andb_prop in Hc as [Hlo Hhi]. apply N.leb_le in Hlo, Hhi.
  repeat split; try (apply N.eqb_neq; lia).
  destruct (N.leb_spec 9 c), (N.leb_spec c 13), (N.eqb_spec c 32),
    (N.ltb_spec 127 c); cbn; try reflexivity; lia.
Qed.

Lemma scan_digits_ascii (ds : pystr) (acc : Z) (n : nat) (after_underscore : bool) :
  forallb ascii_digit ds = true -> ds <> [] ->
  scan_digits ds acc n after_underscore
  = Some (digits_value acc ds, (n + List.length ds)%nat, []).
Proof.
  revert acc n after_underscore.
  induction ds as [|c ds IH]; intros acc n au Hall Hne; [contradiction|].
  cbn in Hall. apply andb_prop in Hall as [Hc Hall].
  destruct (decimal_value_ascii c Hc) as (Hus & Hdec & _).
  cbn [scan_digits]. rewrite Hus, Hdec.
  destruct ds as [|c' ds].
  - cbn. do 3 f_equal. lia.
  - rewrite IH by (assumption || discriminate). cbn. do 3 f_equal. lia.
Qed.

Lemma fuel_enough (p : Z) :
  0 <= p -> 0 <= p < 10 ^ Z.of_nat (S (Z.to_nat (Z.log2 p))).
Proof.
  intros Hp. split; [assumption|].
  destruct (Z.eq_dec p 0) as [->|Hnz]; [cbn; lia|].
  pose proof (Z.log2_spec p ltac:(lia)) as [_ Hup].
  pose proof (Z.log2_nonneg p) as Hlog.
  replace (Z.of_nat (S (Z.to_nat (Z.log2 p)))) with (Z.succ (Z.log2 p)) by lia.
  eapply Z.lt_le_trans; [exact Hup|].
  apply Z.pow_le_mono_l. lia.
Qed.

(** The limit of the conversions, as a number of digits and as a bound. *)
Lemma max_str_digits_bound : 10 ^ Z.of_nat max_str_digits = 10 ^ 4300.
Proof. reflexivity. Qed.

(** What [int] makes of the digits [str] writes for a number below a bound of
    at most [max_str_digits] digits. *)
Lemma scan_digits_of_pos (bound p : Z) :
  bound = 10 ^ Z.of_nat max_str_digits ->
  0 <= p < bound ->
  exists c ds,
    digits_of_pos (S (Z.to_nat (Z.log2 p))) p [] = c :: ds
    /\ ascii_digit c = true
    /\ scan_digits (c :: ds) 0 0 true = Some (p, List.length (c :: ds), [])
    /\ (max_str_digits <? List.length (c :: ds))%nat = false.
Proof.
  intros Hbound [Hlo Hhi].
  assert (Hfuel : (0 < S (Z.to_nat (Z.log2 p)))%nat) by apply Nat.lt_0_succ.
  destruct (digits_of_pos_spec (S (Z.to_nat (Z.log2 p))) p [] Hfuel
              (fuel_enough p Hlo))
    as (ds & Heq & Hne & Hall & Hval & Hlen).
  rewrite List.app_nil_r in Heq.
  destruct ds as [|c ds]; [contradiction|].
  exists c, ds. split; [exact Heq|].
  split; [cbn [forallb] in Hall; now apply andb_prop in Hall as [Hc _]|].
  split.
  - rewrite scan_digits_ascii by assumption. now rewrite Hval.
  - apply Nat.ltb_ge. apply Hlen.
    + unfold max_str_digits. apply Nat.lt_0_succ.
    + now rewrite <- Hbound.
Qed.

(** [int] reads back what [str] wrote, for numbers of at most 4300 digits. *)
Lemma int_of_str_of_int (z : Z) :
  Z.abs z < 10 ^ 4300 -> int_of_str (str_of_int z) = Some z.
Proof.
  rewrite <- max_str_digits_bound.
  remember (10 ^ Z.of_nat max_str_digits) as bound eqn:Hbound.
  intros Hz. unfold str_of_int, int_of_str.
  destruct (Z.ltb_spec z 0) as [Hneg|Hpos].
  - assert (Hp : 0 <= - z < bound) by lia.
    destruct (scan_digits_of_pos bound (- z) Hbound Hp)
      as (c & ds & -> & Hc & Hscan & Hlen).
    cbn [skip_space]. change (int_space 45%N) with false. cbv iota.
    rewrite N.eqb_refl, Hscan, Hlen.
    cbn [skip_space]. f_equal. apply Z.opp_involutive.
  - assert (Hp : 0 <= z < bound) by lia.
    destruct (scan_digits_of_pos bound z Hbound Hp)
      as (c & ds & -> & Hc & Hscan & Hlen).
    destruct (decimal_value_ascii c Hc) as (_ & _ & Hsp & Hminus & Hplus).
    cbn [skip_space]. rewrite Hsp, Hminus, Hplus, Hscan, Hlen.
    reflexivity.
Qed.

(** Every 64-bit integer is within the limit of the text conversions. *)
Lemma within_text_limit (z : Z) : Z.abs z < 2 ^ 63 -> Z.abs z < 10 ^ 4300.
Proof.
  intros Hz. eapply Z.lt_le_trans; [exact Hz|].
  transitivity (10 ^ 63).
  - apply Z.pow_le_mono_l. lia.
  - apply Z.pow_le_mono_r; lia.
Qed.

End IntFacts.

Section RulesFacts.
Import PyInt Rules.
Context `{uni : Unicode} `{rules : RulesSettings}.

Lemma str_of_int_truthy (z : Z) : str_truthy (str_of_int z) = true.
Proof.
  unfold str_of_int. destruct (z <? 0) eqn:Hneg; [reflexivity|].
  apply Z.ltb_ge in Hneg.
  destruct (digits_of_pos_spec (S (Z.to_nat (Z.log2 z))) z []
              ltac:(lia) (fuel_enough z Hneg)) as (ds & Heq & Hne & _).
  rewrite Heq. now destruct ds.
Qed.

(** X20. The time of the last rules request survives its trip through the
    settings table as text: after [mark_rules_request] with the clock at
    [now] seconds, [_get_last_request_ts] returns [now] for that
    conversation, and what it returns for every other conversation is
    unchanged. *)
Theorem last_request_round_trip (chat_settings : gmap (Z * pystr) pystr)
    (now chat_id : Z) :
  Z.abs now < 10 ^ 4300 ->
  _get_last_request_ts (mark_rules_request chat_settings now chat_id) chat_id
  = Some now
  /\ forall other,
       other <> chat_id ->
       _get_last_request_ts (mark_rules_request chat_settings now chat_id) other
       = _get_last_request_ts chat_settings other.
Proof.
  intros Hnow.
  unfold _get_last_request_ts, mark_rules_request, Store.get_chat_setting,
    Store.set_chat_setting.
  split.
  - rewrite lookup_insert_eq, str_of_int_truthy. cbn [negb].
    now apply int_of_str_of_int.
  - intros other Hne. now rewrite lookup_insert_ne by congruence.
Qed.

(** X21. A rules capture that was seen expired, or was cancelled, stays off
    whatever the clock shows later, until it is started again; and checking
    one conversation never changes the pending request of another. *)
Theorem rules_capture_stays_off (pending_rules_requests : gmap Z (float * option Z))
    (now later : float) (chat_id : Z) :
  let checked := is_rules_capture_active pending_rules_requests now chat_id in
  (snd checked = false ->
   is_rules_capture_active (fst checked) later chat_id = (fst checked, false))
  /\ is_rules_capture_active (cancel_rules_capture pending_rules_requests chat_id)
       later chat_id
     = (cancel_rules_capture pending_rules_requests chat_id, false)
  /\ forall other,
       other <> chat_id -> fst checked !! other = pending_rules_requests !! other.
Proof.
  cbv zeta. unfold is_rules_capture_active, cancel_rules_capture.
  split; [|split].
  - destruct (pending_rules_requests !! chat_id) as [[ts who]|] eqn:Hrow; cbn.
    + destruct (flt RULES_CAPTURE_TIMEOUT (fsub now ts)); cbn; [|discriminate].
      intros _. now rewrite lookup_delete_eq.
    + intros _. now rewrite Hrow.
  - now rewrite lookup_delete_eq.
  - intros other Hne.
    destruct (pending_rules_requests !! chat_id) as [[ts who]|]; cbn; [|reflexivity].
    destruct (flt RULES_CAPTURE_TIMEOUT (fsub now ts)); cbn; [|reflexivity].
    now rewrite lookup_delete_ne by congruence.
Qed.

End RulesFacts.

(* ===================================================================== *)
(** * styles.py: the caches and the tables behind them *)
(* ===================================================================== *)

Section StylesFacts.
Import Styles.
Context `{sty : StyleSettings} `{uni : Unicode}.

Lemma keys_distinct :
  AI_STYLE <> AI_STYLE_SAVED_ID
  /\ AI_STYLE <> AI_STYLE_CUSTOM_PROMPT
  /\ AI_STYLE_SAVED_ID <> AI_STYLE_CUSTOM_PROMPT.
Proof. repeat split; intros E; vm_compute in E; discriminate. Qed.

Lemma pair_key_ne (u u' : Z) (k k' : pystr) : k <> k' -> (u, k) <> (u', k').
Proof. congruence. Qed.

Lemma pair_user_ne (u u' : Z) (k k' : pystr) : u <> u' -> (u, k) <> (u', k').
Proof. congruence. Qed.

Ltac key_ne :=
  pose proof keys_distinct as (? & ? & ?);
  first [ apply pair_user_ne; congruence
        | apply pair_key_ne; first [assumption | apply not_eq_sym; assumption] ].

Ltac st :=
  cbn [user_style_cache user_custom_prompt_cache active_saved_style_cache
       saved_styles_cache user_settings styles with_user_style_cache
       with_user_custom_prompt_cache with_active_saved_style_cache
       with_saved_styles_cache with_user_settings with_styles start
       invalidate_saved_styles_cache fst snd] in *.

Ltac settings_lookup :=
  unfold Store.get_user_setting, Store.set_user_setting,
    Store.delete_user_setting in *;
  repeat first
    [ rewrite lookup_insert_eq
    | rewrite lookup_delete_eq
    | rewrite lookup_insert_ne by key_ne
    | rewrite lookup_delete_ne by key_ne ].

Lemma listing_add_other (db : Store.styles_table) (now : pystr) (u u' : Z)
    (name prompt : pystr) :
  u' <> u ->
  Store.get_saved_styles (fst (Store.add_saved_style db now u name prompt)) u'
  = Store.get_saved_styles db u'.
Proof.
  intros Hne. unfold Store.get_saved_styles. cbn.
  rewrite List.filter_app. cbn.
  destruct (Z.eqb_spec u u') as [->|_]; [congruence|]. now rewrite app_nil_r.
Qed.

Lemma listing_delete_other (db : Store.styles_table) (u id u' : Z) :
  u' <> u ->
  Store.get_saved_styles (fst (Store.delete_saved_style db u id)) u'
  = Store.get_saved_styles db u'.
Proof.
  intros Hne. unfold Store.get_saved_styles. cbn. do 2 f_equal.
  induction (Store.saved_styles db) as [|r rows IH]; [reflexivity|]. cbn.
  destruct (Z.eqb_spec (Store.ss_user_id r) u) as [Hu|Hu]; cbn.
  - destruct (Store.ss_id r =? id); cbn.
    + destruct (Z.eqb_spec (Store.ss_user_id r) u'); [congruence|]. exact IH.
    + rewrite IH. reflexivity.
  - rewrite IH. reflexivity.
Qed.

Lemma delete_miss (db : Store.styles_table) (u id : Z) :
  snd (Store.delete_saved_style db u id) = false ->
  Store.saved_styles (fst (Store.delete_saved_style db u id))
  = Store.saved_styles db.
Proof.
  cbn. induction (Store.saved_styles db) as [|r rows IH]; [reflexivity|]. cbn.
  intros H. apply orb_false_iff in H as [Hr Hrest]. rewrite Hr. cbn.
  now rewrite IH.
Qed.

Lemma coherent_start (settings : gmap (Z * pystr) pystr) (db : Store.styles_table) :
  coherent (start settings db).
Proof.
  unfold coherent, start. cbn [user_custom_prompt_cache user_style_cache
    saved_styles_cache user_settings styles].
  split; [|split]; intros u v; rewrite lookup_empty; discriminate.
Qed.

Lemma coherent_get_user_style (s : state) (u : option Z) :
  coherent s -> coherent (fst (get_user_style s u)).
Proof.
  intros (P & K & L). unfold get_user_style.
  destruct (user_of u) as [u0|]; [|now repeat split].
  destruct (known_style (mjoin (user_style_cache s !! u0))); [now repeat split|].
  destruct (known_style (Store.get_user_setting (user_settings s) u0 AI_STYLE))
    eqn:Hknown; st; (split; [exact P|split; [|exact L]]); intros u1 v; st.
  - destruct (decide (u1 = u0)) as [->|Hne].
    + rewrite lookup_insert_eq. intros [= <-].
      destruct (Store.get_user_setting (user_settings s) u0 AI_STYLE);
        [reflexivity|discriminate].
    + rewrite lookup_insert_ne by congruence. apply K.
  - destruct (decide (u1 = u0)) as [->|Hne].
    + rewrite lookup_insert_eq. intros [= <-]. exact Hknown.
    + rewrite lookup_insert_ne by congruence. apply K.
Qed.

Lemma coherent_set_active_saved_style (s : state) (u : Z) (id : option Z) :
  coherent s -> coherent (set_active_saved_style s u id).
Proof.
  intros (P & K & L). unfold set_active_saved_style.
  destruct id; st; (split; [|split; [|exact L]]); intros u1 v; st;
    intros Hc; [specialize (P _ _ Hc)|specialize (K _ _ Hc)
               |specialize (P _ _ Hc)|specialize (K _ _ Hc)];
    settings_lookup; assumption.
Qed.

Lemma coherent_set_user_style (s : state) (u : Z) (key : pystr) (saved : option Z) :
  coherent s -> coherent (set_user_style s u key saved).
Proof.
  intros (P & K & L). unfold set_user_style.
  apply coherent_set_active_saved_style.
  st; (split; [|split; [|exact L]]); intros u1 v; st.
  - intros Hc. specialize (P _ _ Hc). settings_lookup. assumption.
  - destruct (decide (u1 = u)) as [->|Hne].
    + rewrite lookup_insert_eq. intros [= <-]. now settings_lookup.
    + rewrite lookup_insert_ne by congruence. intros Hc. specialize (K _ _ Hc).
      settings_lookup. assumption.
Qed.

Lemma coherent_reset_user_style (s : state) (u : Z) :
  coherent s -> coherent (reset_user_style s u).
Proof.
  intros (P & K & L). unfold reset_user_style.
  apply coherent_set_active_saved_style.
  st; (split; [|split; [|exact L]]); intros u1 v; st.
  - destruct (decide (u1 = u)) as [->|Hne].
    + rewrite lookup_insert_eq. intros [= <-]. now settings_lookup.
    + rewrite lookup_insert_ne by congruence. intros Hc. specialize (P _ _ Hc).
      settings_lookup. assumption.
  - destruct (decide (u1 = u)) as [->|Hne].
    + rewrite lookup_insert_eq. intros [= <-]. now settings_lookup.
    + rewrite lookup_insert_ne by congruence. intros Hc. specialize (K _ _ Hc).
      settings_lookup. assumption.
Qed.

Lemma coherent_get_active_saved_style_id (s : state) (u : option Z) :
  coherent s -> coherent (fst (get_active_saved_style_id s u)).
Proof.
  intros Hs. unfold get_active_saved_style_id.
  destruct (user_of u) as [u0|]; [|exact Hs].
  destruct (active_saved_style_cache s !! u0); exact Hs.
Qed.

Lemma coherent_get_user_custom_prompt (s : state) (u : option Z) :
  coherent s -> coherent (fst (get_user_custom_prompt s u)).
Proof.
  intros (P & K & L). unfold get_user_custom_prompt.
  destruct (user_of u) as [u0|]; [|now repeat split].
  destruct (user_custom_prompt_cache s !! u0); [now repeat split|].
  st; (split; [|split; [exact K|exact L]]); intros u1 v; st.
  destruct (decide (u1 = u0)) as [->|Hne].
  - rewrite lookup_insert_eq. now intros [= <-].
  - rewrite lookup_insert_ne by congruence. apply P.
Qed.

Lemma coherent_set_user_custom_prompt (s : state) (u : Z) (prompt : pystr) :
  coherent s -> coherent (set_user_custom_prompt s u prompt).
Proof.
  intros (P & K & L). unfold set_user_custom_prompt.
  st; (split; [|split; [|exact L]]); intros u1 v; st.
  - destruct (decide (u1 = u)) as [->|Hne].
    + rewrite lookup_insert_eq. intros [= <-]. now settings_lookup.
    + rewrite lookup_insert_ne by congruence. intros Hc. specialize (P _ _ Hc).
      settings_lookup. assumption.
  - intros Hc. specialize (K _ _ Hc). settings_lookup. assumption.
Qed.

Lemma coherent_get_saved_styles (s : state) (u : Z) :
  coherent s -> coherent (fst (get_saved_styles s u)).
Proof.
  intros (P & K & L). unfold get_saved_styles.
  destruct (saved_styles_cache s !! u); [now repeat split|].
  st; (split; [exact P|split; [exact K|]]); intros u1 v; st.
  destruct (decide (u1 = u)) as [->|Hne].
  - rewrite lookup_insert_eq. now intros [= <-].
  - rewrite lookup_insert_ne by congruence. apply L.
Qed.

Lemma coherent_get_saved_style (s : state) (u : Z) (id : option Z) :
  coherent s -> coherent (fst (get_saved_style s u id)).
Proof.
  intros Hs. unfold get_saved_style. destruct id as [id|]; [|exact Hs].
  pose proof (coherent_get_saved_styles s u Hs) as Hs1.
  destruct (get_saved_styles s u) as [s1 listed]. cbn [fst] in Hs1.
  destruct (find _ listed); [exact Hs1|].
  destruct (Store.get_saved_style (styles s1) u id); [|exact Hs1].
  destruct Hs1 as (P & K & L).
  st; (split; [exact P|split; [exact K|]]); intros u1 v; st.
  destruct (decide (u1 = u)) as [->|Hne].
  - rewrite lookup_insert_eq. now intros [= <-].
  - rewrite lookup_insert_ne, lookup_delete_ne by congruence. apply L.
Qed.

Lemma coherent_add_saved_style (s : state) (now : pystr) (u : Z)
    (name prompt : pystr) :
  coherent s -> coherent (fst (add_saved_style s now u name prompt)).
Proof.
  intros (P & K & L). unfold add_saved_style.
  pose proof (listing_add_other (styles s) now u) as Hother.
  destruct (Store.add_saved_style (styles s) now u name prompt) as [db style] eqn:E.
  st; (split; [exact P|split; [exact K|]]); intros u1 v; st.
  destruct (decide (u1 = u)) as [->|Hne].
  - now rewrite lookup_delete_eq.
  - rewrite lookup_delete_ne by congruence. intros Hc.
    specialize (Hother u1 name prompt Hne). rewrite E in Hother. st.
    rewrite Hother. now apply L.
Qed.

Lemma coherent_delete_saved_style (s : state) (u id : Z) :
  coherent s -> coherent (fst (delete_saved_style s u id)).
Proof.
  intros (P & K & L). unfold delete_saved_style.
  pose proof (listing_delete_other (styles s) u id) as Hother.
  pose proof (delete_miss (styles s) u id) as Hmiss.
  destruct (Store.delete_saved_style (styles s) u id) as [db deleted] eqn:E.
  cbn [fst snd] in *. destruct deleted;
    st; (split; [exact P|split; [exact K|]]); intros u1 v; st.
  - destruct (decide (u1 = u)) as [->|Hne].
    + now rewrite lookup_delete_eq.
    + rewrite lookup_delete_ne by congruence. intros Hc.
      rewrite (Hother u1 Hne). now apply L.
  - intros Hc. unfold Store.get_saved_styles. rewrite (Hmiss eq_refl).
    now apply L.
Qed.

Lemma coherent_get_effective_ai_style (s : state) (u : option Z) (default : pystr) :
  coherent s -> coherent (fst (get_effective_ai_style s u default)).
Proof.
  intros Hs. unfold get_effective_ai_style.
  pose proof (coherent_get_user_style s u Hs) as Hs1.
  destruct (get_user_style s u) as [s1 [key|]]; cbn [fst] in Hs1; [|exact Hs1].
  destruct (str_eqb key CUSTOM_STYLE_KEY); [exact Hs1|].
  destruct (is_saved_style_key (Some key)); [exact Hs1|].
  destruct (existsb (str_eqb key) AI_STYLE_PRESETS); exact Hs1.
Qed.

Lemma coherent_step (s : state) (c : call) :
  coherent s -> coherent (apply_call s c).
Proof.
  destruct c; cbn [apply_call].
  - apply coherent_get_user_style.
  - apply coherent_set_user_style.
  - apply coherent_reset_user_style.
  - apply coherent_get_active_saved_style_id.
  - apply coherent_set_active_saved_style.
  - apply coherent_get_user_custom_prompt.
  - apply coherent_set_user_custom_prompt.
  - apply coherent_get_saved_styles.
  - apply coherent_get_saved_style.
  - apply coherent_add_saved_style.
  - apply coherent_delete_saved_style.
  - apply coherent_get_effective_ai_style.
Qed.

Lemma coherent_run (calls : list call) (s : state) :
  coherent s -> coherent (run s calls).
Proof.
  revert s. induction calls as [|c calls IH]; intros s Hs; [exact Hs|].
  st. apply IH. now apply coherent_step.
Qed.

(** X22. The prompt cache never changes an answer: after any sequence of
    calls of this module on a process started with empty caches,
    [get_user_custom_prompt] returns what the settings table holds for the
    user; and what [set_user_custom_prompt] stores, and a process restarted
    on the same tables reads back, is the prompt stripped and cut to
    [CUSTOM_STYLE_PROMPT_LIMIT]. *)
Theorem custom_prompt_cache_transparent (settings : gmap (Z * pystr) pystr)
    (db : Store.styles_table) (calls : list call) (user_id : Z) (prompt : pystr) :
  user_id <> 0 ->
  let s := run (start settings db) calls in
  let s' := set_user_custom_prompt s user_id prompt in
  snd (get_user_custom_prompt s (Some user_id))
  = Store.get_user_setting (user_settings s) user_id AI_STYLE_CUSTOM_PROMPT
  /\ snd (get_user_custom_prompt s' (Some user_id))
     = Some (slice_to CUSTOM_STYLE_PROMPT_LIMIT (strip prompt))
  /\ snd (get_user_custom_prompt (start (user_settings s') (styles s'))
            (Some user_id))
     = Some (slice_to CUSTOM_STYLE_PROMPT_LIMIT (strip prompt)).
Proof.
  intros Hu. cbv zeta.
  pose proof (coherent_run calls _ (coherent_start settings db)) as (P & _ & _).
  set (s := run (start settings db) calls) in *.
  assert (Huser : user_of (Some user_id) = Some user_id).
  { unfold user_of. destruct (Z.eqb_spec user_id 0); [contradiction | reflexivity]. }
  split; [|split]; unfold get_user_custom_prompt; rewrite Huser.
  - destruct (user_custom_prompt_cache s !! user_id) as [cached|] eqn:Hc;
      [|reflexivity].
    st. now apply P.
  - unfold set_user_custom_prompt. st. now rewrite lookup_insert_eq.
  - st. rewrite lookup_empty. st. unfold set_user_custom_prompt. st.
    now settings_lookup.
Qed.

(** X23. The style cache never changes an answer: after any sequence of
    calls of this module on a process started with empty caches,
    [get_user_style] returns the key the settings table holds for the user
    when that key is a preset, the custom key or a saved-style key, and
    [None] otherwise; [get_effective_ai_style] returns that key, and the
    default when there is none. *)
Theorem user_style_cache_transparent (settings : gmap (Z * pystr) pystr)
    (db : Store.styles_table) (calls : list call) (user_id : Z) (default : pystr) :
  user_id <> 0 ->
  let s := run (start settings db) calls in
  let stored := Store.get_user_setting (user_settings s) user_id AI_STYLE in
  snd (get_user_style s (Some user_id))
  = (if known_style stored then stored else None)
  /\ snd (get_effective_ai_style s (Some user_id) default)
     = match stored with
       | Some key => if known_style stored then key else default
       | None => default
       end.
Proof.
  intros Hu. cbv zeta.
  pose proof (coherent_run calls _ (coherent_start settings db)) as (_ & K & _).
  set (s := run (start settings db) calls) in *.
  assert (Huser : user_of (Some user_id) = Some user_id).
  { unfold user_of. destruct (Z.eqb_spec user_id 0); [contradiction | reflexivity]. }
  assert (Hget : snd (get_user_style s (Some user_id))
                 = if known_style
                        (Store.get_user_setting (user_settings s) user_id AI_STYLE)
                   then Store.get_user_setting (user_settings s) user_id AI_STYLE
                   else None).
  { unfold get_user_style. rewrite Huser.
    destruct (known_style (mjoin (user_style_cache s !! user_id))) eqn:Hcached.
    - cbn [snd].
      destruct (user_style_cache s !! user_id) as [[key|]|] eqn:Hc;
        cbn [mjoin option_join] in Hcached |- *; st; try discriminate.
      specialize (K _ _ Hc). st. rewrite K. st. now rewrite Hcached.
    - now destruct (known_style
                      (Store.get_user_setting (user_settings s) user_id AI_STYLE)). }
  split; [exact Hget|].
  unfold get_effective_ai_style.
  destruct (get_user_style s (Some user_id)) as [s1 personal]. cbn [snd] in Hget.
  subst personal.
  destruct (Store.get_user_setting (user_settings s) user_id AI_STYLE) as [key|];
    [|reflexivity].
  destruct (known_style (Some key)) eqn:Hknown; [|reflexivity].
  destruct (str_eqb key CUSTOM_STYLE_KEY) eqn:Hcustom.
  { apply bool_decide_eq_true_1 in Hcustom. now subst key. }
  destruct (is_saved_style_key (Some key)) eqn:Hsaved; [reflexivity|].
  destruct (existsb (str_eqb key) AI_STYLE_PRESETS) eqn:Hpreset; [reflexivity|].
  exfalso. cbn [known_style] in Hknown.
  rewrite Hpreset, Hsaved, Hcustom in Hknown. discriminate.
Qed.

(** X24. The list cache never changes an answer: after any sequence of calls
    of this module on a process started with empty caches,
    [get_saved_styles] returns the listing of the table as it is now, so a
    style added or deleted through this module is never hidden by a stale
    list. *)
Theorem saved_styles_cache_transparent (settings : gmap (Z * pystr) pystr)
    (db : Store.styles_table) (calls : list call) (user_id : Z) :
  let s := run (start settings db) calls in
  snd (get_saved_styles s user_id) = Store.get_saved_styles (styles s) user_id.
Proof.
  cbv zeta.
  pose proof (coherent_run calls _ (coherent_start settings db)) as (_ & _ & L).
  set (s := run (start settings db) calls) in *.
  unfold get_saved_styles.
  destruct (saved_styles_cache s !! user_id) as [cached|] eqn:Hc; [|reflexivity].
  st. now apply L.
Qed.

Lemma styles_of_get_user_style (s : state) (u : option Z) :
  styles (fst (get_user_style s u)) = styles s.
Proof.
  unfold get_user_style. destruct (user_of u); [|reflexivity].
  destruct (known_style _); [reflexivity|]. now destruct (known_style _).
Qed.

Lemma styles_of_apply_call (s : state) (c : call) :
  styles (apply_call s c) = styles s
  \/ exists sc, styles (apply_call s c) = Store.apply_style_call (styles s) sc.
Proof.
  destruct c as [u|u key saved|u|u|u id|u|u prompt|u|u id|now u name prompt
                |u id|u default]; cbn [apply_call].
  - left. apply styles_of_get_user_style.
  - left. unfold set_user_style, set_active_saved_style. now destruct saved.
  - left. reflexivity.
  - left. unfold get_active_saved_style_id.
    destruct (user_of u) as [u0|]; [|reflexivity].
    now destruct (active_saved_style_cache s !! u0).
  - left. unfold set_active_saved_style. now destruct id.
  - left. unfold get_user_custom_prompt.
    destruct (user_of u) as [u0|]; [|reflexivity].
    now destruct (user_custom_prompt_cache s !! u0).
  - left. reflexivity.
  - left. unfold get_saved_styles. now destruct (saved_styles_cache s !! u).
  - left. unfold get_saved_style. destruct id as [id|]; [|reflexivity].
    unfold get_saved_styles.
    destruct (saved_styles_cache s !! u) as [cached|]; st.
    + destruct (find _ cached); [reflexivity|].
      now destruct (Store.get_saved_style (styles s) u id).
    + destruct (find _ _); [reflexivity|].
      now destruct (Store.get_saved_style (styles s) u id).
  - right. exists (Store.AddStyle now u name prompt). reflexivity.
  - right. exists (Store.DeleteStyle u id).
    unfold delete_saved_style. cbn [Store.apply_style_call].
    now destruct (Store.delete_saved_style (styles s) u id) as [db [|]].
  - left. unfold get_effective_ai_style.
    pose proof (styles_of_get_user_style s u) as H.
    destruct (get_user_style s u) as [s1 [key|]]; cbn [fst] in H; [|exact H].
    destruct (str_eqb key CUSTOM_STYLE_KEY); [exact H|].
    destruct (is_saved_style_key (Some key)); [exact H|].
    now destruct (existsb (str_eqb key) AI_STYLE_PRESETS).
Qed.

Lemma styles_inv_styles_run (calls : list call) (s : state) :
  Store.styles_inv (styles s) -> Store.styles_inv (styles (run s calls)).
Proof.
  revert s. induction calls as [|c calls IH]; intros s Hs; [exact Hs|].
  st. apply IH. destruct (styles_of_apply_call s c) as [->|[sc ->]];
    [exact Hs | now apply styles_inv_step].
Qed.

Lemma find_in_listing (rows : list Store.saved_style) (user_id id : Z) :
  List.find (fun style => Store.style_id style =? id)
    (List.map Store.style_of_row
       (List.filter (fun r => Store.ss_user_id r =? user_id) rows))
  = match List.filter
            (fun r => (Store.ss_user_id r =? user_id) && (Store.ss_id r =? id)) rows
    with
    | r :: _ => Some (Store.style_of_row r)
    | [] => None
    end.
Proof.
  induction rows as [|r rows IH]; cbn; [reflexivity|].
  destruct (Store.ss_user_id r =? user_id); cbn; [|exact IH].
  destruct (Store.ss_id r =? id); [reflexivity | exact IH].
Qed.

(** X25. [get_saved_style] answers as the table does: on a process started
    with empty caches and no saved styles, after any sequence of calls of
    this module, it returns the user's style with the given id as the table
    holds it now, and [None] when the user has none with that id or no id is
    given. *)
Theorem get_saved_style_agrees (settings : gmap (Z * pystr) pystr)
    (calls : list call) (user_id : Z) (style_id : option Z) :
  let s := run (start settings Store.no_styles) calls in
  snd (get_saved_style s user_id style_id)
  = match style_id with
    | Some id => Store.get_saved_style (styles s) user_id id
    | None => None
    end.
Proof.
  cbv zeta.
  pose proof (coherent_run calls _ (coherent_start settings Store.no_styles))
    as (_ & _ & L).
  assert (Hinv : Store.styles_inv
                   (styles (run (start settings Store.no_styles) calls))).
  { apply styles_inv_styles_run. split; cbn; constructor. }
  set (s := run (start settings Store.no_styles) calls) in *.
  destruct style_id as [id|]; [|reflexivity].
  assert (Hlisted : snd (get_saved_styles s user_id)
                    = Store.get_saved_styles (styles s) user_id
                    /\ styles (fst (get_saved_styles s user_id)) = styles s).
  { unfold get_saved_styles.
    destruct (saved_styles_cache s !! user_id) as [cached|] eqn:Hc;
      [|now split].
    st. split; [now apply L | reflexivity]. }
  unfold get_saved_style.
  destruct (get_saved_styles s user_id) as [s1 listed].
  cbn [fst snd] in Hlisted. destruct Hlisted as [-> Hsame].
  destruct Hinv as [Hasc _].
  unfold Store.get_saved_styles at 1.
  rewrite order_by_asc_ascending by now apply ascending_filter.
  rewrite find_in_listing, Hsame. unfold Store.get_saved_style.
  now destruct (List.filter _ (Store.saved_styles (styles s))).
Qed.

(** X26. The active saved style survives a restart: the id that
    [set_active_saved_style] records is what [get_active_saved_style_id]
    returns, from the cache and also in a process restarted on the same
    tables, where it is read back from its decimal text; after the id is
    cleared, a restarted process reads [None]. *)
Theorem active_saved_style_survives_restart (s : state) (user_id style_id : Z) :
  user_id <> 0 ->
  Z.abs style_id < 10 ^ 4300 ->
  let s' := set_active_saved_style s user_id (Some style_id) in
  let cleared := set_active_saved_style s' user_id None in
  snd (get_active_saved_style_id s' (Some user_id)) = Some style_id
  /\ snd (get_active_saved_style_id (start (user_settings s') (styles s'))
            (Some user_id)) = Some style_id
  /\ snd (get_active_saved_style_id
            (start (user_settings cleared) (styles cleared)) (Some user_id)) = None.
Proof.
  intros Hu Hid. cbv zeta.
  assert (Huser : user_of (Some user_id) = Some user_id).
  { unfold user_of. destruct (Z.eqb_spec user_id 0); [contradiction | reflexivity]. }
  split; [|split]; unfold get_active_saved_style_id; rewrite Huser.
  - unfold set_active_saved_style. st. now rewrite lookup_insert_eq.
  - st. rewrite lookup_empty. unfold set_active_saved_style. st.
    settings_lookup. now apply int_of_str_of_int.
  - st. rewrite lookup_empty. unfold set_active_saved_style. st.
    now settings_lookup.
Qed.

Lemma startswith_app (p s : pystr) : startswith p (p ++ s) = true.
Proof.
  induction p as [|c p IH]; cbn; [now destruct s|]. now rewrite N.eqb_refl.
Qed.

Lemma after_colon_app (stem rest : pystr) :
  Forall (fun c => c <> 58%N) stem ->
  after_colon (stem ++ 58%N :: rest) = Some rest.
Proof.
  induction 1 as [|c stem Hc _ IH]; cbn; [reflexivity|].
  destruct (N.eqb_spec c 58); [contradiction | exact IH].
Qed.

(** X27. A saved-style key gives its id back: when [SAVED_STYLE_PREFIX] ends
    in its only colon, [extract_saved_style_id] of the prefix followed by the
    decimal text of an id is that id; a key that does not start with the
    prefix, or no key, gives [None]. *)
Theorem extract_saved_style_id_round_trip (stem : pystr) (id : Z) :
  SAVED_STYLE_PREFIX = stem ++ [58%N] ->
  Forall (fun c => c <> 58%N) stem ->
  Z.abs id < 10 ^ 4300 ->
  extract_saved_style_id (Some (SAVED_STYLE_PREFIX ++ str_of_int id)) = Some id
  /\ extract_saved_style_id None = None
  /\ forall key,
       startswith SAVED_STYLE_PREFIX key = false ->
       extract_saved_style_id (Some key) = None.
Proof.
  intros Hprefix Hstem Hid. split; [|split].
  - unfold extract_saved_style_id, is_saved_style_key.
    rewrite startswith_app. cbn [negb].
    rewrite Hprefix, <- app_assoc. cbn [app].
    rewrite after_colon_app by assumption. now apply int_of_str_of_int.
  - reflexivity.
  - intros key Hkey. unfold extract_saved_style_id, is_saved_style_key.
    now rewrite Hkey.
Qed.

End StylesFacts.

(* ===================================================================== *)
(** * The further properties on concrete inputs *)
(* ===================================================================== *)

Section MoreInstances.
Import Database DatabaseInv Memory Debate Capture Vocabulary Examples Samples.
#[local] Existing Instance Examples.settings.
#[local] Existing Instance Samples.capture.
#[local] Existing Instance Samples.ascii_only.
#[local] Existing Instance Samples.rules.
#[local] Existing Instance Samples.styles.
#[local] Existing Instance Reference.runtime.

(** ** History ring *)

Lemma store_chat_history_keeps_last_witness :
  0 <= CHAT_HISTORY_LIMIT
  /\ exists h,
       store_all ∅ three_messages = Returned h
       /\ forall c,
            get_chat_history_entries h c
            = last_n (Z.to_nat CHAT_HISTORY_LIMIT) (logged_entries c three_messages)
            /\ len (get_chat_history_entries h c) <= CHAT_HISTORY_LIMIT.
Proof.
  assert (Hcap : 0 <= CHAT_HISTORY_LIMIT) by (vm_compute; discriminate).
  exact (conj Hcap (store_chat_history_keeps_last three_messages Hcap)).
Defined.

Example history_after_three_messages :
  store_all ∅ three_messages = Returned two_lines
  /\ get_chat_history_entries two_lines 100 = [str "Ann: two"; str "Ann: three"]
  /\ get_chat_history_entries two_lines 200 = [].
Proof. repeat split; vm_compute; reflexivity. Qed.

Lemma dialogue_context_after_store_witness :
  0 <= CHAT_HISTORY_LIMIT
  /\ store_all ∅ three_messages = Returned two_lines
  /\ (0 < AUTO_DEBATE_HISTORY_LIMIT ->
      _build_dialogue_context two_lines 100
      = last_n (Z.to_nat (Z.min AUTO_DEBATE_HISTORY_LIMIT CHAT_HISTORY_LIMIT))
          (logged_entries 100 three_messages))
  /\ (AUTO_DEBATE_HISTORY_LIMIT = 0 ->
      _build_dialogue_context two_lines 100
      = last_n (Z.to_nat CHAT_HISTORY_LIMIT) (logged_entries 100 three_messages)).
Proof.
  assert (Hcap : 0 <= CHAT_HISTORY_LIMIT) by (vm_compute; discriminate).
  assert (Hrun : store_all ∅ three_messages = Returned two_lines)
    by (vm_compute; reflexivity).
  split; [exact Hcap|]. split; [exact Hrun|].
  exact (dialogue_context_after_store three_messages two_lines 100 Hcap Hrun).
Defined.

(** ** Memory store *)

Lemma add_chat_memory_other_conversation_witness :
  200 <> 100
  /\ get_chat_memories
       (add_chat_memory (run_calls init_db five_calls) 100 None None None (str "d"))
       200 2
     = get_chat_memories (run_calls init_db five_calls) 200 2.
Proof.
  assert (Hne : 200 <> 100) by discriminate.
  exact (conj Hne
           (add_chat_memory_other_conversation (run_calls init_db five_calls)
              200 100 None None None (str "d") 2 Hne)).
Defined.

Example user_memories_after_three_notes :
  get_user_memories (run_user_calls init_db three_notes) 100 7 4
  = [str "owns a cat"; str "likes tea"]
  /\ get_user_memories (run_user_calls init_db three_notes) 100 7 (-1)
     = [str "owns a cat"; str "likes tea"]
  /\ get_user_memories (run_user_calls init_db three_notes) 100 7 1
     = [str "owns a cat"].
Proof. repeat split; vm_compute; reflexivity. Qed.

Lemma build_user_memory_context_quotes_stored_witness :
  In (str "Bob: likes tea")
    (build_user_memory_context (run_user_calls init_db three_notes) 100
       (fun _ => draws) [nameless; bob])
  /\ exists t target_id row,
       In t [nameless; bob]
       /\ target_user_id t = Some target_id /\ target_id <> 0
       /\ In row (user_memories (run_user_calls init_db three_notes))
       /\ um_chat_id row = 100 /\ um_subject_user_id row = target_id
       /\ str "Bob: likes tea" = context_name t target_id ++ str ": " ++ um_note row.
Proof.
  assert (Hline : In (str "Bob: likes tea")
                    (build_user_memory_context (run_user_calls init_db three_notes)
                       100 (fun _ => draws) [nameless; bob]))
    by (vm_compute; right; left; reflexivity).
  exact (conj Hline
           (build_user_memory_context_quotes_stored
              (run_user_calls init_db three_notes) 100 (fun _ => draws)
              [nameless; bob] (str "Bob: likes tea") Hline)).
Defined.

Example memory_context_of_bob :
  build_user_memory_context (run_user_calls init_db three_notes) 100
    (fun _ => draws) [nameless; bob]
  = [str "Bob: owns a cat"; str "Bob: likes tea"].
Proof. vm_compute. reflexivity. Qed.

Lemma extract_memory_facts_clean_witness :
  0 <= MAX_MEMORY_FACTS
  /\ run_task (fun _ => Some padded_facts)
       (extract_memory_facts (message "hello") [bob])
     = Returned ([str "tea at five"],
                 [(7, [str "likes tea"; str "owns a cat"])])
  /\ len [str "tea at five"] <= MAX_MEMORY_FACTS
  /\ Forall clean_fact [str "tea at five"]
  /\ List.NoDup (List.map fst [(7, [str "likes tea"; str "owns a cat"])])
  /\ Forall (fun entry : Z * list pystr =>
               snd entry <> [] /\ Forall clean_fact (snd entry))
       [(7, [str "likes tea"; str "owns a cat"])].
Proof.
  assert (Hcap : 0 <= MAX_MEMORY_FACTS) by (vm_compute; discriminate).
  assert (Hrun : run_task (fun _ => Some padded_facts)
                   (extract_memory_facts (message "hello") [bob])
                 = Returned ([str "tea at five"],
                             [(7, [str "likes tea"; str "owns a cat"])]))
    by (vm_compute; reflexivity).
  split; [exact Hcap|]. split; [exact Hrun|].
  exact (extract_memory_facts_clean (fun _ => Some padded_facts)
           (message "hello") [bob] _ _ Hcap Hrun).
Defined.

(** ** Auto-debate *)

Lemma silent_oracle_never_triggers_witness :
  (forall req : request,
     (fun _ : request => @None pystr) req = None
     \/ (fun _ : request => @None pystr) req = Some [])
  /\ run_task (fun _ => None)
       (should_trigger_auto_debate ∅ ∅ marked_at (message "that is nonsense") None)
     = Returned (false, PNone).
Proof.
  assert (Hsilent : forall req : request,
            (fun _ : request => @None pystr) req = None
            \/ (fun _ : request => @None pystr) req = Some [])
    by (intros req; left; reflexivity).
  exact (conj Hsilent
           (silent_oracle_never_triggers (fun _ => None) ∅ ∅ marked_at
              (message "that is nonsense") None Hsilent)).
Defined.

Lemma trigger_implies_gates_witness :
  run_task (fun _ => Some confident_answer)
    (should_trigger_auto_debate ∅ ∅ marked_at (message "that is nonsense") None)
  = Returned (true, PStr (str "liar"))
  /\ early_gates_pass (message "that is nonsense")
  /\ in_cooldown ∅ (chat_id (chat (message "that is nonsense"))) marked_at = false
  /\ exists req response,
       (fun _ : request => Some confident_answer) req = Some response
       /\ response <> [].
Proof.
  assert (Hrun : run_task (fun _ => Some confident_answer)
                   (should_trigger_auto_debate ∅ ∅ marked_at
                      (message "that is nonsense") None)
                 = Returned (true, PStr (str "liar")))
    by (vm_compute; reflexivity).
  exact (conj Hrun
           (trigger_implies_gates (fun _ => Some confident_answer) ∅ ∅ marked_at
              (message "that is nonsense") None (PStr (str "liar")) Hrun)).
Defined.

Lemma mark_other_conversation_witness :
  chat_id (chat (message "that is nonsense")) <> 200
  /\ should_trigger_auto_debate ∅ (mark_auto_debate_reply ∅ marked_at 200)
       ten_seconds_later (message "that is nonsense") None
     = should_trigger_auto_debate ∅ ∅ ten_seconds_later
         (message "that is nonsense") None.
Proof.
  assert (Hne : chat_id (chat (message "that is nonsense")) <> 200)
    by (vm_compute; discriminate).
  exact (conj Hne
           (mark_other_conversation ∅ ∅ marked_at ten_seconds_later 200
              (message "that is nonsense") None Hne)).
Defined.

Lemma cooldown_ends_witness :
  early_gates_pass (message "that is nonsense")
  /\ flt (fsub a_minute_and_a_half_later marked_at) AUTO_DEBATE_COOLDOWN = false
  /\ exists req,
       should_trigger_auto_debate ∅
         (mark_auto_debate_reply ∅ marked_at
            (chat_id (chat (message "that is nonsense"))))
         a_minute_and_a_half_later (message "that is nonsense") None
       = CallOpenRouter req (fun response => Done (decide response)).
Proof.
  assert (Hgates : early_gates_pass (message "that is nonsense")).
  { split; [reflexivity|]. split.
    - exists ann. split; reflexivity.
    - vm_compute. discriminate. }
  assert (Hfar : flt (fsub a_minute_and_a_half_later marked_at)
                   AUTO_DEBATE_COOLDOWN = false)
    by (vm_compute; reflexivity).
  split; [exact Hgates|]. split; [exact Hfar|].
  exact (cooldown_ends ∅ ∅ marked_at a_minute_and_a_half_later
           (message "that is nonsense") None Hgates Hfar).
Defined.

(** ** The other tables *)

Lemma support_cooldown_window_witness :
  let first := Store.can_send_support_message ∅ 1000 5 60 in
  fst (snd first) = true
  /\ 1000 <= 1030
  /\ (1030 - 1000 < 60 ->
      Store.can_send_support_message (fst first) 1030 5 60
      = (fst first, (false, 60 - (1030 - 1000)))
      /\ 0 < 60 - (1030 - 1000) <= 60)
  /\ (60 <= 1030 - 1000 ->
      Store.can_send_support_message (fst first) 1030 5 60
      = (<[5 := 1030]> (fst first), (true, 0))).
Proof.
  assert (Hsent : fst (snd (Store.can_send_support_message ∅ 1000 5 60)) = true)
    by reflexivity.
  assert (Hlater : 1000 <= 1030) by discriminate.
  split; [exact Hsent|]. split; [exact Hlater|].
  exact (support_cooldown_window ∅ 1000 1030 5 60 Hsent Hlater).
Defined.

Example support_messages_half_a_minute_apart :
  snd (Store.can_send_support_message
         (fst (Store.can_send_support_message ∅ 1000 5 60)) 1030 5 60)
  = (false, 30).
Proof. vm_compute. reflexivity. Qed.

Lemma delete_saved_style_effect_witness :
  (11, 2) <> (11, 1)
  /\ Store.get_saved_style (fst (Store.delete_saved_style two_styles 11 1)) 11 2
     = Store.get_saved_style two_styles 11 2.
Proof.
  assert (Hne : (11, 2) <> (11, 1)) by discriminate.
  exact (conj Hne
           (proj2 (proj2 (delete_saved_style_effect two_styles 11 1)) 11 2 Hne)).
Defined.

Example styles_after_a_deletion :
  List.map Store.style_name
    (Store.get_saved_styles (fst (Store.delete_saved_style two_styles 11 1)) 11)
  = [str "poet"]
  /\ snd (Store.delete_saved_style two_styles 12 1) = false.
Proof. split; vm_compute; reflexivity. Qed.

Lemma toggle_block_flips_witness :
  (100, 1, 3) <> (100, 1, 2)
  /\ Store.is_blocked (fst (Store.toggle_block ∅ 100 1 2 (Some (str "bye")))) 100 1 3
     = Store.is_blocked ∅ 100 1 3.
Proof.
  assert (Hne : (100, 1, 3) <> (100, 1, 2)) by discriminate.
  exact (conj Hne
           (proj2 (proj2 (toggle_block_flips ∅ 100 1 2 (Some (str "bye"))))
              100 1 3 Hne)).
Defined.

Lemma toggle_global_block_clears_exceptions_witness :
  snd (Store.toggle_global_block ∅ one_exception 100 1 None) = true
  /\ forall allowed_id,
       Store.is_global_block_exception
         (snd (fst (Store.toggle_global_block ∅ one_exception 100 1 None)))
         100 1 allowed_id
       = false.
Proof.
  assert (Hon : snd (Store.toggle_global_block ∅ one_exception 100 1 None) = true)
    by reflexivity.
  exact (conj Hon
           (proj1 (proj2 (proj2
              (toggle_global_block_clears_exceptions ∅ one_exception 100 1 None)))
              Hon)).
Defined.

Lemma support_ban_toggles_witness :
  6 <> 5
  /\ Store.get_support_ban (fst (Store.toggle_support_media_ban ∅ 5)) 6
     = Store.get_support_ban ∅ 6
  /\ Store.get_support_ban (fst (Store.toggle_support_full_ban ∅ 5)) 6
     = Store.get_support_ban ∅ 6.
Proof.
  assert (Hne : 6 <> 5) by discriminate.
  exact (conj Hne
           (proj2 (proj2 (proj2 (proj2 (support_ban_toggles ∅ 5)))) 6 Hne)).
Defined.

Lemma swear_ranking_ranked_witness :
  0 <= 2 /\ len (Store.get_swear_ranking swear_counts 100 2) <= 2.
Proof.
  assert (Hlimit : 0 <= 2) by discriminate.
  exact (conj Hlimit
           (proj1 (proj2 (swear_ranking_ranked swear_counts 100 2)) Hlimit)).
Defined.

Example swear_ranking_of_three :
  Store.get_swear_ranking swear_counts 100 2 = [(2, 9); (1, 5)]
  /\ Store.get_swear_ranking swear_counts 100 (-1) = [(2, 9); (1, 5); (3, 5)].
Proof. split; vm_compute; reflexivity. Qed.

(** ** Rules *)

Lemma last_request_round_trip_witness :
  Z.abs 1700000000 < 10 ^ 4300
  /\ Rules._get_last_request_ts (Rules.mark_rules_request ∅ 1700000000 100) 100
     = Some 1700000000
  /\ forall other,
       other <> 100 ->
       Rules._get_last_request_ts (Rules.mark_rules_request ∅ 1700000000 100) other
       = Rules._get_last_request_ts ∅ other.
Proof.
  assert (Hnow : Z.abs 1700000000 < 10 ^ 4300)
    by (apply within_text_limit; reflexivity).
  exact (conj Hnow (last_request_round_trip ∅ 1700000000 100 Hnow)).
Defined.

Lemma rules_capture_stays_off_witness :
  snd (Rules.is_rules_capture_active one_request ten_minutes_later 100) = false
  /\ Rules.is_rules_capture_active
       (fst (Rules.is_rules_capture_active one_request ten_minutes_later 100))
       ten_seconds_later 100
     = (fst (Rules.is_rules_capture_active one_request ten_minutes_later 100),
        false).
Proof.
  assert (Hexpired :
            snd (Rules.is_rules_capture_active one_request ten_minutes_later 100)
            = false)
    by (vm_compute; reflexivity).
  exact (conj Hexpired
           (proj1 (rules_capture_stays_off one_request ten_minutes_later
                     ten_seconds_later 100) Hexpired)).
Defined.

Example rules_capture_within_the_timeout :
  snd (Rules.is_rules_capture_active one_request ten_seconds_later 100) = true.
Proof. vm_compute. reflexivity. Qed.

(** ** Styles *)

Lemma custom_prompt_cache_transparent_witness :
  11 <> 0
  /\ (let s := Styles.run (Styles.start ∅ Store.no_styles) style_calls in
      let s' := Styles.set_user_custom_prompt s 11 (str "  terse and dry  ") in
      snd (Styles.get_user_custom_prompt s (Some 11))
      = Store.get_user_setting (Styles.user_settings s) 11
          Styles.AI_STYLE_CUSTOM_PROMPT
      /\ snd (Styles.get_user_custom_prompt s' (Some 11))
         = Some (slice_to CUSTOM_STYLE_PROMPT_LIMIT (strip (str "  terse and dry  ")))
      /\ snd (Styles.get_user_custom_prompt
                (Styles.start (Styles.user_settings s') (Styles.styles s'))
                (Some 11))
         = Some (slice_to CUSTOM_STYLE_PROMPT_LIMIT
                   (strip (str "  terse and dry  ")))).
Proof.
  assert (Hu : 11 <> 0) by discriminate.
  exact (conj Hu
           (custom_prompt_cache_transparent ∅ Store.no_styles style_calls 11
              (str "  terse and dry  ") Hu)).
Defined.

Lemma user_style_cache_transparent_witness :
  11 <> 0
  /\ (let s := Styles.run (Styles.start ∅ Store.no_styles) style_calls in
      let stored :=
        Store.get_user_setting (Styles.user_settings s) 11 Styles.AI_STYLE in
      snd (Styles.get_user_style s (Some 11))
      = (if Styles.known_style stored then stored else None)
      /\ snd (Styles.get_effective_ai_style s (Some 11) (str "polite"))
         = match stored with
           | Some key => if Styles.known_style stored then key else str "polite"
           | None => str "polite"
           end).
Proof.
  assert (Hu : 11 <> 0) by discriminate.
  exact (conj Hu
           (user_style_cache_transparent ∅ Store.no_styles style_calls 11
              (str "polite") Hu)).
Defined.

Lemma active_saved_style_survives_restart_witness :
  11 <> 0
  /\ Z.abs 3 < 10 ^ 4300
  /\ (let s' :=
        Styles.set_active_saved_style (Styles.start ∅ Store.no_styles) 11 (Some 3) in
      let cleared := Styles.set_active_saved_style s' 11 None in
      snd (Styles.get_active_saved_style_id s' (Some 11)) = Some 3
      /\ snd (Styles.get_active_saved_style_id
                (Styles.start (Styles.user_settings s') (Styles.styles s'))
                (Some 11)) = Some 3
      /\ snd (Styles.get_active_saved_style_id
                (Styles.start (Styles.user_settings cleared) (Styles.styles cleared))
                (Some 11)) = None).
Proof.
  assert (Hu : 11 <> 0) by discriminate.
  assert (Hid : Z.abs 3 < 10 ^ 4300) by (apply within_text_limit; reflexivity).
  split; [exact Hu|]. split; [exact Hid|].
  exact (active_saved_style_survives_restart (Styles.start ∅ Store.no_styles)
           11 3 Hu Hid).
Defined.

Lemma extract_saved_style_id_round_trip_witness :
  SAVED_STYLE_PREFIX = str "saved" ++ [58%N]
  /\ Forall (fun c => c <> 58%N) (str "saved")
  /\ Z.abs 42 < 10 ^ 4300
  /\ Styles.extract_saved_style_id (Some (SAVED_STYLE_PREFIX ++ str_of_int 42))
     = Some 42
  /\ Styles.extract_saved_style_id None = None
  /\ forall key,
       startswith SAVED_STYLE_PREFIX key = false ->
       Styles.extract_saved_style_id (Some key) = None.
Proof.
  assert (Hprefix : SAVED_STYLE_PREFIX = str "saved" ++ [58%N]) by reflexivity.
  assert (Hstem : Forall (fun c => c <> 58%N) (str "saved"))
    by (vm_compute; repeat constructor; discriminate).
  assert (Hid : Z.abs 42 < 10 ^ 4300) by (apply within_text_limit; reflexivity).
  split; [exact Hprefix|]. split; [exact Hstem|]. split; [exact Hid|].
  exact (extract_saved_style_id_round_trip (str "saved") 42 Hprefix Hstem Hid).
Defined.

Example saved_style_ids_of_keys :
  Styles.extract_saved_style_id (Some (str "saved:42")) = Some 42
  /\ Styles.extract_saved_style_id (Some (str "saved:x")) = None
  /\ Styles.extract_saved_style_id (Some (str "rude")) = None.
Proof. repeat split; vm_compute; reflexivity. Qed.

Example styles_of_a_session :
  let s := Styles.run (Styles.start ∅ Store.no_styles) style_calls in
  snd (Styles.get_user_style s (Some 11)) = Some (str "rude")
  /\ snd (Styles.get_user_custom_prompt s (Some 11)) = Some (str "curt")
  /\ List.map Store.style_name (snd (Styles.get_saved_styles s 11)) = [str "poet"]
  /\ snd (Styles.get_saved_style s 11 (Some 1)) = None
  /\ snd (Styles.get_effective_ai_style s (Some 12) (str "polite")) = str "polite".
Proof. cbv zeta. repeat split; vm_compute; reflexivity. Qed.

End MoreInstances.
